(** * dcase2020_task2: the machine-condition data sets

  A shallow embedding of [dcase2020_task2/data_sets/mcm_dataset.py]
  (classes [MachineDataSet] and [MCMDataSet]) and the properties of its
  feature cache, its windowing and its meta data.

  Conventions.
  - Python [int]s are [Z]; [//] and [%] are [Z.div] and [Z.modulo] (both
    round towards minus infinity, as Python does) behind an explicit
    test for a zero divisor.
  - Python [str]s are [string]s.
  - A two-dimensional numpy array of shape [(num_mel, T)] is stored as
    the list of its [T] columns (time frames), each column being the list
    of its [num_mel] entries: every operation of the source slices or
    concatenates along the last axis only.
  - Exceptions are values of [exn]; a method is a function into
    [result], or into the state-and-error monad [M] when it touches the
    cache directory or allocates a dictionary.
  - The dictionaries of the meta data are objects on a heap, so that a copy
    and the dictionary it was made from are told apart; the feature matrix and
    the lists are values of the object (nothing assigns to them after the
    constructor).
  - The tree of recordings is read only; the [.npy] files of the cache are the
    part of the file system that the code writes.
  - The messages that the source prints are left out. *)

From Stdlib Require Import ZArith Strings.String Strings.Ascii Lia.
From Stdlib Require Import Numbers.DecimalString Numbers.DecimalZ.
From stdpp Require Import gmap strings list fin_maps sorting.

Open Scope string_scope.
Open Scope list_scope.
Open Scope Z_scope.

(** ** Python strings *)

Module Str.

(** [c in s] for a one-character [c]. *)
Fixpoint has (c : ascii) (s : string) : bool :=
  match s with
  | EmptyString => false
  | String a s' => Ascii.eqb a c || has c s'
  end.

(** Every character of [s] satisfies [p]. *)
Fixpoint all (p : ascii -> bool) (s : string) : bool :=
  match s with
  | EmptyString => true
  | String a s' => p a && all p s'
  end.

(** The characters that [str] of an [int] is made of. *)
Definition int_char (a : ascii) : bool :=
  Ascii.eqb a "-" || ((48 <=? nat_of_ascii a)%nat && (nat_of_ascii a <=? 57)%nat).

(** [s.split(c)]: the fields between the occurrences of [c]; never empty. *)
Fixpoint split (c : ascii) (s : string) : list string :=
  match s with
  | EmptyString => [EmptyString]
  | String a s' =>
      if Ascii.eqb a c then EmptyString :: split c s'
      else match split c s' with
           | f :: fs => String a f :: fs
           | [] => [String a EmptyString]
           end
  end.

(** [c.join(fields)]. *)
Fixpoint join (c : string) (fields : list string) : string :=
  match fields with
  | [] => EmptyString
  | [f] => f
  | f :: fs => f +:+ c +:+ join c fs
  end.

Definition startswith (c : ascii) (s : string) : bool :=
  match s with
  | String a _ => Ascii.eqb a c
  | EmptyString => false
  end.

Fixpoint endswith (c : ascii) (s : string) : bool :=
  match s with
  | EmptyString => false
  | String a EmptyString => Ascii.eqb a c
  | String _ s' => endswith c s'
  end.

(** [s.rstrip(c)]. *)
Fixpoint rstrip (c : ascii) (s : string) : string :=
  match s with
  | EmptyString => EmptyString
  | String a s' =>
      match rstrip c s' with
      | EmptyString => if Ascii.eqb a c then EmptyString else String a EmptyString
      | r => String a r
      end
  end.

(** [str(z)], which is also what ["{}".format(z)] prints. *)
Definition of_int (z : Z) : string := NilZero.string_of_int (Z.to_int z).

(** [str(b)]. *)
Definition of_bool (b : bool) : string := if b then "True" else "False".

(** ["{:02d}".format(z)]: zero padded to two characters, sign included. *)
Definition format_02d (z : Z) : string :=
  if (0 <=? z) && (z <? 10) then String "0" (of_int z) else of_int z.

(** The white space that [int] and [strip] skip, among the characters
    below 256: tab to carriage return, the four separators 28 to 31, the
    space, and the characters 133 and 160. *)
Definition is_space (a : ascii) : bool :=
  let n := nat_of_ascii a in
  ((9 <=? n)%nat && (n <=? 13)%nat) || ((28 <=? n)%nat && (n <=? 32)%nat)
  || (n =? 133)%nat || (n =? 160)%nat.

Fixpoint lstrip_space (s : string) : string :=
  match s with
  | EmptyString => EmptyString
  | String a s' => if is_space a then lstrip_space s' else s
  end.

Fixpoint rstrip_space (s : string) : string :=
  match s with
  | EmptyString => EmptyString
  | String a s' =>
      match rstrip_space s' with
      | EmptyString => if is_space a then EmptyString else String a EmptyString
      | r => String a r
      end
  end.

(** [s.strip()]. *)
Definition strip (s : string) : string := lstrip_space (rstrip_space s).

(** An optional sign followed by decimal digits. *)
Definition int_literal (s : string) : option Z :=
  match s with
  | String "+" (String a s') =>
      if Ascii.eqb a "-" then None
      else option_map Z.of_int (NilZero.int_of_string (String a s'))
  | _ => option_map Z.of_int (NilZero.int_of_string s)
  end.

(** [int(s)]: the white space around the literal is skipped; [None] is
    [ValueError].  The underscores that [int] accepts between two digits
    are left out: the source applies [int] to a field of [split('_')]. *)
Definition to_int (s : string) : option Z := int_literal (strip s).

(** The order of [sorted] on strings. *)
Definition le (a b : string) : Prop := String.leb a b = true.

#[export] Instance le_dec : RelDecision le :=
  fun a b => decide (String.leb a b = true).

(** [sorted(l)] for a list of strings. *)
Definition sorted (l : list string) : list string := merge_sort le l.

End Str.

(** ** [os.path] on POSIX *)

Module OsPath.

Definition sep : ascii := "/".

(** [os.path.join(a, b)]. *)
Definition join (a b : string) : string :=
  if Str.startswith sep b then b
  else if orb (String.eqb a EmptyString) (Str.endswith sep a) then a +:+ b
  else a +:+ String sep b.

(** [os.path.join(a, *bs)]. *)
Definition join_all (a : string) (bs : list string) : string :=
  fold_left join bs a.

(** The part of [p] after its last separator: [os.path.split(p)[1]]. *)
Fixpoint basename (p : string) : string :=
  match p with
  | EmptyString => EmptyString
  | String c p' =>
      if Str.has sep p' then basename p'
      else if Ascii.eqb c sep then p' else p
  end.

(** The part of [p] up to and including its last separator. *)
Fixpoint head_raw (p : string) : string :=
  match p with
  | EmptyString => EmptyString
  | String c p' =>
      if Str.has sep p' then String c (head_raw p')
      else if Ascii.eqb c sep then String c EmptyString else EmptyString
  end.

(** [os.path.split(p)[0]]: trailing separators are dropped from the head
    unless it consists of separators only. *)
Definition dirname (p : string) : string :=
  let h := head_raw p in
  match Str.rstrip sep h with
  | EmptyString => h
  | r => r
  end.

Definition split (p : string) : string * string := (dirname p, basename p).

(** The component loop of [os.path.normpath]. *)
Fixpoint norm_comps (absolute : bool) (acc : list string) (comps : list string)
  : list string :=
  match comps with
  | [] => rev acc
  | c :: cs =>
      if orb (String.eqb c EmptyString) (String.eqb c ".") then norm_comps absolute acc cs
      else if negb (String.eqb c "..") then norm_comps absolute (c :: acc) cs
      else match acc with
           | [] => if absolute then norm_comps absolute acc cs
                   else norm_comps absolute (c :: acc) cs
           | top :: acc' =>
               if String.eqb top ".." then norm_comps absolute (c :: acc) cs
               else norm_comps absolute acc' cs
           end
  end.

(** [os.path.normpath(p)]. *)
Definition normpath (p : string) : string :=
  match p with
  | EmptyString => "."
  | _ =>
      let initial :=
        match p with
        | String "/" (String "/" (String "/" _)) => "/"
        | String "/" (String "/" _) => "//"
        | String "/" _ => "/"
        | _ => EmptyString
        end in
      let comps := norm_comps (Str.startswith sep p) [] (Str.split sep p) in
      match initial +:+ Str.join "/" comps with
      | EmptyString => "."
      | r => r
      end
  end.

End OsPath.

(** ** The pattern language of [fnmatch], as far as the source uses it *)

Module Fnmatch.

Inductive token := Star | Lit (c : ascii).

Fixpoint lits (s : string) : list token :=
  match s with
  | EmptyString => []
  | String c s' => Lit c :: lits s'
  end.

(** A pattern in which [*] is the only special character. *)
Definition supported (pattern : string) : bool :=
  negb (Str.has "?" pattern) && negb (Str.has "[" pattern).

Fixpoint parse (pattern : string) : list token :=
  match pattern with
  | EmptyString => []
  | String c s' => (if Ascii.eqb c "*" then Star else Lit c) :: parse s'
  end.

(** [fnmatch(name, pattern)] for a pattern of literals and [*]. *)
Fixpoint matches (p : list token) : string -> bool :=
  match p with
  | [] => fun s => match s with EmptyString => true | _ => false end
  | Lit c :: p' =>
      fun s => match s with
               | String a s' => Ascii.eqb a c && matches p' s'
               | EmptyString => false
               end
  | Star :: p' =>
      fix star (s : string) : bool :=
        matches p' s ||
        match s with
        | String _ s' => star s'
        | EmptyString => false
        end
  end.

End Fnmatch.

(** ** Python sequences *)

Module Py.

(** A slice bound [i] normalised against a sequence of length [len]. *)
Definition clamp (len i : Z) : Z :=
  if i <? 0 then Z.max (i + len) 0 else Z.min i len.

(** [l[lo:hi]]. *)
Definition slice {X : Type} (lo hi : Z) (l : list X) : list X :=
  let len := Z.of_nat (length l) in
  let lo' := clamp len lo in
  let hi' := clamp len hi in
  take (Z.to_nat (hi' - lo')) (drop (Z.to_nat lo') l).

(** [l[lo:]]. *)
Definition slice_from {X : Type} (lo : Z) (l : list X) : list X :=
  slice lo (Z.of_nat (length l)) l.

(** [l[i]]; [None] stands for [IndexError]. *)
Definition index {X : Type} (l : list X) (i : Z) : option X :=
  let len := Z.of_nat (length l) in
  if (0 <=? i) && (i <? len) then l !! Z.to_nat i
  else if (- len <=? i) && (i <? 0) then l !! Z.to_nat (i + len)
  else None.

End Py.

(** ** Exceptions *)

Inductive exn :=
| AssertionError
| AttributeError
| KeyError
| ValueError
| IndexError
| ZeroDivisionError
| OverflowError
| FileNotFoundError
| ParameterError
| SystemError.

Inductive result (T : Type) :=
| Ok (x : T)
| Raise (e : exn).
Arguments Ok {T} x.
Arguments Raise {T} e.

#[export] Instance result_ret : MRet result := fun _ x => Ok x.
#[export] Instance result_bind : MBind result :=
  fun _ _ f m => match m with Ok x => f x | Raise e => Raise e end.

(** [assert b]. *)
Definition assert (b : bool) : result unit :=
  if b then Ok tt else Raise AssertionError.

(** A lookup that raises [e] when it finds nothing. *)
Definition or_raise {T : Type} (e : exn) (o : option T) : result T :=
  match o with Some x => Ok x | None => Raise e end.

(** [a // b] and [a % b]. *)
Definition floordiv (a b : Z) : result Z :=
  if b =? 0 then Raise ZeroDivisionError else Ok (a / b).
Definition modulo (a b : Z) : result Z :=
  if b =? 0 then Raise ZeroDivisionError else Ok (a mod b).

(** [sys.maxsize] of a 64-bit build. *)
Definition maxsize : Z := 2 ^ 63 - 1.

(** The builtin [len(x)] on top of [x.__len__()]: a negative number is
    refused first, then one that does not fit an index. *)
Definition builtin_len (n : Z) : result Z :=
  if n <? 0 then Raise ValueError
  else if maxsize <? n then Raise OverflowError
  else Ok n.

(** ** numpy arrays, stored as the list of their columns *)

Module Np.
Section Arrays.
Context {A : Type}.

Definition ndarray : Type := list (list A).

(** [x.shape[-1]]. *)
Definition shape_last (x : ndarray) : Z := Z.of_nat (length x).

(** [x[:, lo:hi]]. *)
Definition columns (lo hi : Z) (x : ndarray) : ndarray := Py.slice lo hi x.

(** [np.empty((rows, cols))]; [junk] is what the fresh memory holds. *)
Definition empty (junk : A) (rows cols : Z) : result ndarray :=
  if (rows <? 0) || (cols <? 0) then Raise ValueError
  else Ok (replicate (Z.to_nat cols) (replicate (Z.to_nat rows) junk)).

(** [np.concatenate(xs, axis=-1)] (all arrays have the same rows). *)
Definition concatenate (xs : list ndarray) : result ndarray :=
  match xs with
  | [] => Raise ValueError
  | _ => Ok (concat xs)
  end.

(** [x[:, lo:hi] = src]: the columns of [src] replace the selected ones;
    a single column is broadcast; any other width is a [ValueError]. *)
Definition set_columns (lo hi : Z) (src x : ndarray) : result ndarray :=
  let len := Z.of_nat (length x) in
  let lo' := Z.to_nat (Py.clamp len lo) in
  let w := Z.to_nat (Py.clamp len hi - Py.clamp len lo) in
  if bool_decide (length src = w) then
    Ok (take lo' x ++ src ++ drop (lo' + w)%nat x)
  else
    match src with
    | [c] => Ok (take lo' x ++ replicate w c ++ drop (lo' + w)%nat x)
    | _ => Raise ValueError
    end.

End Arrays.
Arguments ndarray A : clear implicits.
End Np.

(** ** What the module imports *)

(** A Python number ([int] or [float]) as the source uses [power] and
    [fmin]: printed by [format] and compared with integer literals. *)
Class PyNumber (num : Type) := {
  num_str : num -> string;
  num_eq : num -> Z -> bool
}.

#[export] Instance int_number : PyNumber Z :=
  {| num_str := Str.of_int; num_eq := Z.eqb |}.

(** The calls into [librosa]; [audio] is the pair of wave form and sampling
    rate that [librosa.load] returns.  Every call of the library can raise
    (an unreadable file, a buffer that is not finite, an FFT size that is
    refused, an empty array); the arithmetic of line 227 is numpy's and
    returns, with values that are not finite when the deviation is zero. *)
Class Librosa (num audio A : Type) := {
  load : string -> result audio;
  (** [(x - x.mean()) / x.std()] on the wave form *)
  standardize : audio -> audio;
  (** [melspectrogram x n_fft hop_length n_mels power fmin] *)
  melspectrogram : audio -> Z -> Z -> Z -> num -> num -> result (Np.ndarray A);
  amplitude_to_db : Np.ndarray A -> result (Np.ndarray A);
  power_to_db : Np.ndarray A -> result (Np.ndarray A)
}.

(** [x.mean(axis=1, keepdims=True)], [x.std(axis=1, keepdims=True)] and
    the contents of uninitialised memory. *)
Class Numpy (A : Type) := {
  mean_axis1 : Np.ndarray A -> Np.ndarray A;
  std_axis1 : Np.ndarray A -> Np.ndarray A;
  junk : A
}.

(** The tables of [dcase2020_task2.data_sets]. *)
Class Tables := {
  CLASS_MAP : gmap string Z;
  INVERSE_CLASS_MAP : gmap Z string;
  TRAINING_ID_MAP : gmap Z (list Z);
  EVALUATION_ID_MAP : gmap Z (list Z);
  ALL_ID_MAP : gmap Z (list Z)
}.

(** [glob.glob(pattern)] on the tree of recordings. *)
Class Recordings := {
  glob : string -> list string
}.

(** ** Objects: dictionaries on a heap, arrays in the cache directory *)

Section Objects.
Context {A : Type}.

Inductive val :=
| VInt (z : Z)
| VStr (s : string)
| VArray (x : list (Np.ndarray A)).

(** The heap of dictionaries (an address is an index) and the [.npy] files,
    by path. *)
Record world := {
  heap : list (gmap string val);
  npy : gmap string (Np.ndarray A)
}.

Definition M (T : Type) : Type := world -> result (T * world).

Definition lift {T : Type} (r : result T) : M T :=
  fun w => match r with Ok x => Ok (x, w) | Raise e => Raise e end.

(** A new dictionary object. *)
Definition new_dict (d : gmap string val) : M nat :=
  fun w => Ok (length (heap w), {| heap := heap w ++ [d]; npy := npy w |}).

(** [d.copy()]. *)
Definition dict_copy (l : nat) : M nat :=
  fun w => match heap w !! l with
           | Some d => new_dict d w
           | None => Raise SystemError
           end.

(** [d[k] = v]. *)
Definition dict_setitem (l : nat) (k : string) (v : val) : M unit :=
  fun w => match heap w !! l with
           | Some d => Ok (tt, {| heap := <[l := <[k := v]> d]> (heap w); npy := npy w |})
           | None => Raise SystemError
           end.

(** [os.path.exists(path)] followed by [np.load(path)]. *)
Definition np_load (path : string) : M (option (Np.ndarray A)) :=
  fun w => Ok (npy w !! path, w).

(** [np.save(path, x)]. *)
Definition np_save (path : string) (x : Np.ndarray A) : M unit :=
  fun w => Ok (tt, {| heap := heap w; npy := <[path := x]> (npy w) |}).

End Objects.
Arguments val A : clear implicits.

(** A [dict] with string keys. *)
Abbreviation dict A := (gmap string (val A)).

Arguments world A : clear implicits.
Arguments M A T : clear implicits.

#[export] Instance M_ret {A : Type} : MRet (M A) := fun _ x w => Ok (x, w).
#[export] Instance M_bind {A : Type} : MBind (M A) :=
  fun _ _ f m w => match m w with Ok (x, w') => f x w' | Raise e => Raise e end.

(** ** class MachineDataSet *)

Module MachineDataSet.

(** The arguments of [__init__]. *)
Module Args.
Record t {num : Type} := {
  machine_type : Z;
  machine_id : Z;
  data_root : string;
  mode : string;
  context : Z;
  num_mel : Z;
  n_fft : Z;
  hop_size : Z;
  power : num;
  normalize : bool;
  fmin : num;
  hop_all : bool
}.
Arguments t num : clear implicits.
End Args.

Section Class.
Context {num audio A : Type}.
Context {number : PyNumber num} {librosa : Librosa num audio A}.
Context {numpy : Numpy A} {tables : Tables} {recordings : Recordings}.

(** The attributes assigned at lines 114-125; the methods that run during
    [__init__] read these. *)
Record attrs := {
  num_mel : Z;
  n_fft : Z;
  hop_size : Z;
  power : num;
  normalize : bool;
  mode : string;
  data_root : string;
  context : Z;
  machine_type : string;
  machine_id : Z;
  fmin : num;
  hop_all : bool
}.

(** The object once [__init__] has returned. *)
Record t := {
  self :> attrs;
  files : list string;
  file_length : Z;
  num_samples_per_file : Z;
  meta_data : list nat;
  data : Np.ndarray A
}.

(** Lines 110-125. *)
Definition init_attrs (a : Args.t num) : result attrs :=
  _ ← assert (bool_decide (Args.mode a ∈ ["training"; "validation"]));
  let hop_all := if String.eqb (Args.mode a) "validation" then false else Args.hop_all a in
  name ← or_raise KeyError (INVERSE_CLASS_MAP !! Args.machine_type a);
  Ok {| num_mel := Args.num_mel a;
        n_fft := Args.n_fft a;
        hop_size := Args.hop_size a;
        power := Args.power a;
        normalize := Args.normalize a;
        mode := Args.mode a;
        data_root := Args.data_root a;
        context := Args.context a;
        machine_type := name;
        machine_id := Args.machine_id a;
        fmin := Args.fmin a;
        hop_all := hop_all |}.

(** ['*id_{:02d}_*.wav'.format(machine_id)]. *)
Definition file_pattern (machine_id : Z) : string :=
  "*id_" +:+ Str.format_02d machine_id +:+ "_*.wav".

(** Lines 127-151: the sorted list of the recordings. *)
Definition select_files (machine_type_arg : Z) (self : attrs) : result (list string) :=
  training_ids ← or_raise KeyError (TRAINING_ID_MAP !! machine_type_arg);
  root_folder ←
    (if bool_decide (machine_id self ∈ training_ids) then Ok "dev_data"
     else
       evaluation_ids ← or_raise KeyError (EVALUATION_ID_MAP !! machine_type_arg);
       if bool_decide (machine_id self ∈ evaluation_ids) then Ok "eval_data"
       else Raise AttributeError);
  files ←
    (if String.eqb (mode self) "training" then
       Ok (glob (OsPath.join_all (data_root self)
                   [root_folder; machine_type self; "train"; file_pattern (machine_id self)]))
     else if String.eqb (mode self) "validation" then
       Ok (glob (OsPath.join_all (data_root self)
                   [root_folder; machine_type self; "test"; file_pattern (machine_id self)]))
     else Raise AttributeError);
  _ ← assert (bool_decide (0 < length files)%nat);
  Ok (Str.sorted files).

Definition __load_preprocess_file__ (self : attrs) (file : string) : result (Np.ndarray A) :=
  x ← load file;
  let x := if normalize self then standardize x else x in
  x ← melspectrogram x (n_fft self) (hop_size self) (num_mel self) (power self) (fmin self);
  if num_eq (power self) 1 then amplitude_to_db x
  else if num_eq (power self) 2 then power_to_db x
  else Raise AttributeError.

(** Lines 253-265: the label and the check of the id. *)
Definition targets (self : attrs) (meta_data : list string) : result Z :=
  match meta_data with
  | [f0; _; f2; _] =>
      y ← (if String.eqb f0 "normal" then Ok 0
           else if String.eqb f0 "anomaly" then Ok 1
           else Raise AttributeError);
      id ← or_raise ValueError (Str.to_int f2);
      _ ← assert (machine_id self =? id);
      Ok y
  | [_; f1; _] =>
      id ← or_raise ValueError (Str.to_int f1);
      _ ← assert (machine_id self =? id);
      Ok (-1)
  | _ => Raise AttributeError
  end.

(** ['file_ids']: the last four components of the normalised path. *)
Definition file_id (file_path : string) : string :=
  Str.join "/" (Py.slice_from (-4) (Str.split OsPath.sep (OsPath.normpath file_path))).

(** The dictionary that [__get_meta_data__] builds. *)
Definition meta_data_dict (self : attrs) (file_path : string) : result (dict A) :=
  let meta_data := Str.split "_" (snd (OsPath.split file_path)) in
  let dir := snd (OsPath.split (fst (OsPath.split (fst (OsPath.split file_path))))) in
  machine_type_ ← or_raise KeyError (CLASS_MAP !! dir);
  name ← or_raise KeyError (INVERSE_CLASS_MAP !! machine_type_);
  _ ← assert (String.eqb (machine_type self) name);
  y ← targets self meta_data;
  Ok (<["targets" := VInt y]>
      (<["machine_types" := VInt machine_type_]>
       (<["machine_ids" := VInt (machine_id self)]>
        (<["file_ids" := VStr (file_id file_path)]> ∅)))).

Definition __get_meta_data__ (self : attrs) (file_path : string) : M A nat :=
  d ← lift (meta_data_dict self file_path);
  new_dict d.

Fixpoint __load_meta_data__ (self : attrs) (files : list string) : M A (list nat) :=
  match files with
  | [] => mret []
  | f :: files' =>
      md ← __get_meta_data__ self f;
      data ← __load_meta_data__ self files';
      mret (md :: data)
  end.

(** Lines 183-194. *)
Definition cache_file_name (self : attrs) : string :=
  Str.of_int (num_mel self) +:+ "_" +:+
  Str.of_int (n_fft self) +:+ "_" +:+
  Str.of_int (hop_size self) +:+ "_" +:+
  num_str (power self) +:+ "_" +:+
  mode self +:+ "_" +:+
  machine_type self +:+ "_" +:+
  Str.of_int (machine_id self) +:+ "_" +:+
  Str.of_bool (normalize self) +:+ "_" +:+
  num_str (fmin self) +:+ ".npy".

Definition cache_file_path (self : attrs) : string :=
  OsPath.join (data_root self) (cache_file_name self).

(** Lines 206-216: a spectrogram of another length than [file_length]. *)
Definition fit_length (file_length : Z) (file : Np.ndarray A) : Np.ndarray A :=
  if negb (Np.shape_last file =? file_length) then
    if Np.shape_last file <? file_length then
      file ++ Np.columns 0 (file_length - Np.shape_last file) file
    else if Np.shape_last file >? file_length then
      Np.columns 0 file_length file
    else file
  else file.

(** Lines 204-218: the loop, from index [i] on. *)
Fixpoint fill (self : attrs) (file_length : Z) (i : Z) (files : list string)
    (data : Np.ndarray A) : result (Np.ndarray A) :=
  match files with
  | [] => Ok data
  | f :: files' =>
      file ← __load_preprocess_file__ self f;
      let file := fit_length file_length file in
      data ← Np.set_columns (i * file_length) ((i + 1) * file_length) file data;
      fill self file_length (i + 1) files' data
  end.

(** Lines 203-218: what a cache miss computes. *)
Definition compute_data (self : attrs) (file_length : Z) (files : list string)
    : result (Np.ndarray A) :=
  data ← Np.empty junk (num_mel self) (file_length * Z.of_nat (length files));
  fill self file_length 0 files data.

Definition __load_data__ (self : attrs) (file_length : Z) (files : list string)
    : M A (Np.ndarray A) :=
  let file_path := cache_file_path self in
  cached ← np_load file_path;
  match cached with
  | Some data => mret data
  | None =>
      data ← lift (compute_data self file_length files);
      _ ← np_save file_path data;
      mret data
  end.

(** Line 153. *)
Definition first_file_length (self : attrs) (files : list string) : result Z :=
  f ← or_raise IndexError (Py.index files 0);
  x ← __load_preprocess_file__ self f;
  Ok (Np.shape_last x).

(** Line 154; [hop_all] is the local variable, which line 125 stored. *)
Definition samples_per_file (self : attrs) (file_length : Z) : result Z :=
  if hop_all self then floordiv file_length (context self)
  else Ok (file_length - context self + 1).

Definition init (a : Args.t num) : M A t :=
  self ← lift (init_attrs a);
  files ← lift (select_files (Args.machine_type a) self);
  file_length ← lift (first_file_length self files);
  num_samples_per_file ← lift (samples_per_file self file_length);
  meta_data ← __load_meta_data__ self files;
  data ← __load_data__ self file_length files;
  mret {| self := self;
          files := files;
          file_length := file_length;
          num_samples_per_file := num_samples_per_file;
          meta_data := meta_data;
          data := data |}.

(** The matrix that the constructor computes when the cache has no file
    for it. *)
Definition computed_features (a : Args.t num) : result (Np.ndarray A) :=
  self ← init_attrs a;
  files ← select_files (Args.machine_type a) self;
  file_length ← first_file_length self files;
  compute_data self file_length files.

(** Lines 160-164: the index of the file and the first column of the
    window of [item] in [data]. *)
Definition locate (self : t) (item : Z) : result (Z * Z) :=
  offset ← modulo item (num_samples_per_file self);
  item ← floordiv item (num_samples_per_file self);
  let offset := item * file_length self
                + (if hop_all self then offset * context self else offset) in
  Ok (item, offset).

Definition __getitem__ (self : t) (item : Z) : M A nat :=
  at_ ← lift (locate self item);
  let item := at_.1 in
  let offset := at_.2 in
  let observation := Np.columns offset (offset + context self) (data self) in
  stored ← lift (or_raise IndexError (Py.index (meta_data self) item));
  meta_data ← dict_copy stored;
  _ ← dict_setitem meta_data "observations" (VArray [observation]);
  mret meta_data.

Definition __len__ (self : t) : Z :=
  Z.of_nat (length (files self)) * num_samples_per_file self.

(** *** Predicates of the statements below *)

(** An array with [rows] entries in every column. *)
Definition has_rows (rows : Z) (x : Np.ndarray A) : Prop :=
  Forall (fun col => Z.of_nat (length col) = rows) x.

(** A three-dimensional array of the given shape. *)
Definition has_shape (x : list (Np.ndarray A)) (shape : Z * Z * Z) : Prop :=
  Z.of_nat (length x) = shape.1.1 ∧
  Forall (fun m => has_rows shape.1.2 m ∧ Np.shape_last m = shape.2) x.

(** The feature matrix holds [file_length] columns for every file, and
    [num_samples_per_file] is what line 154 computes. *)
Definition shaped (ds : t) : Prop :=
  Np.shape_last (data ds) = file_length ds * Z.of_nat (length (files ds)) ∧
  samples_per_file ds (file_length ds) = Ok (num_samples_per_file ds).

(** One dictionary on the heap for every file. *)
Definition stored (ds : t) (w : world A) : Prop :=
  length (meta_data ds) = length (files ds) ∧
  Forall (fun l => is_Some (heap w !! l)) (meta_data ds).

(** [block] is the spectrogram of [f], fitted, and has [fl] columns. *)
Definition fitted (s : attrs) (fl : Z) (f : string) (block : Np.ndarray A) : Prop :=
  exists x, __load_preprocess_file__ s f = Ok x /\
            block = fit_length fl x /\ Np.shape_last block = fl.

(** The label that a file name prefix stands for. *)
Definition label_of_prefix (prefix : string) : Z :=
  if String.eqb prefix "normal" then 0
  else if String.eqb prefix "anomaly" then 1
  else -1.

(** The first field of the name of a file. *)
Definition name_prefix (file_path : string) : string :=
  hd EmptyString (Str.split "_" (OsPath.basename file_path)).

End Class.
Arguments attrs num : clear implicits.
Arguments t num A : clear implicits.
End MachineDataSet.

(** ** class MCMDataSet *)

Module MCMDataSet.

Module Args.
Record t {num : Type} := {
  machine_type : Z;
  machine_id : Z;
  data_root : string;
  context : Z;
  num_mel : Z;
  n_fft : Z;
  hop_size : Z;
  power : num;
  fmin : num;
  normalize_raw : bool;
  hop_all : bool
}.
Arguments t num : clear implicits.
End Args.

Section Class.
Context {num audio A : Type}.
Context {number : PyNumber num} {librosa : Librosa num audio A}.
Context {numpy : Numpy A} {tables : Tables} {recordings : Recordings}.

(** A [MachineDataSet], or a [torch.utils.data.ConcatDataset] of them. *)
Inductive dataset :=
| Machine (d : MachineDataSet.t num A)
| ConcatDataset (datasets : list (MachineDataSet.t num A)).

Record t := {
  data_root : string;
  context : Z;
  num_mel : Z;
  n_fft : Z;
  hop_size : Z;
  power : num;
  fmin : num;
  hop_all : bool;
  training_set : dataset;
  validation_set : dataset;
  mean : Np.ndarray A;
  std : Np.ndarray A
}.

(** [MachineDataSet(machine_type, id_, mode=mode, **kwargs)]. *)
Definition kwargs (a : Args.t num) (id_ : Z) (mode : string) : MachineDataSet.Args.t num :=
  {| MachineDataSet.Args.machine_type := Args.machine_type a;
     MachineDataSet.Args.machine_id := id_;
     MachineDataSet.Args.data_root := Args.data_root a;
     MachineDataSet.Args.mode := mode;
     MachineDataSet.Args.context := Args.context a;
     MachineDataSet.Args.num_mel := Args.num_mel a;
     MachineDataSet.Args.n_fft := Args.n_fft a;
     MachineDataSet.Args.hop_size := Args.hop_size a;
     MachineDataSet.Args.power := Args.power a;
     MachineDataSet.Args.normalize := Args.normalize_raw a;
     MachineDataSet.Args.fmin := Args.fmin a;
     MachineDataSet.Args.hop_all := Args.hop_all a |}.

(** Lines 53-56: the loop over [ALL_ID_MAP[machine_type]]; the three lists
    it appends to are returned in the order of the ids. *)
Fixpoint load_all (a : Args.t num) (ids : list Z)
    : M A (list (MachineDataSet.t num A) * list (MachineDataSet.t num A)
           * list (Np.ndarray A)) :=
  match ids with
  | [] => mret ([], [], [])
  | id_ :: ids' =>
      training ← MachineDataSet.init (kwargs a id_ "training");
      validation ← MachineDataSet.init (kwargs a id_ "validation");
      rest ← load_all a ids';
      mret (training :: rest.1.1, validation :: rest.1.2,
            MachineDataSet.data training :: rest.2)
  end.

(** The constructor of [ConcatDataset]: it refuses an empty list and takes
    [len] of every member. *)
Fixpoint check_lens (datasets : list (MachineDataSet.t num A)) : result unit :=
  match datasets with
  | [] => Ok tt
  | d :: ds =>
      _ ← builtin_len (MachineDataSet.__len__ d);
      check_lens ds
  end.

Definition concat_dataset (datasets : list (MachineDataSet.t num A)) : result dataset :=
  _ ← assert (bool_decide (0 < length datasets)%nat);
  _ ← check_lens datasets;
  Ok (ConcatDataset datasets).

Definition init (a : Args.t num) : M A t :=
  sets ←
    (if Args.machine_id a =? -1 then
       ids ← lift (or_raise KeyError (ALL_ID_MAP !! Args.machine_type a));
       loaded ← load_all a ids;
       data ← lift (Np.concatenate loaded.2);
       let mean_ := mean_axis1 data in
       let std_ := std_axis1 data in
       training_set ← lift (concat_dataset loaded.1.1);
       validation_set ← lift (concat_dataset loaded.1.2);
       mret (training_set, validation_set, mean_, std_)
     else
       training_set ← MachineDataSet.init (kwargs a (Args.machine_id a) "training");
       validation_set ← MachineDataSet.init (kwargs a (Args.machine_id a) "validation");
       mret (Machine training_set, Machine validation_set,
             mean_axis1 (MachineDataSet.data training_set),
             std_axis1 (MachineDataSet.data training_set)));
  mret {| data_root := Args.data_root a;
          context := Args.context a;
          num_mel := Args.num_mel a;
          n_fft := Args.n_fft a;
          hop_size := Args.hop_size a;
          power := Args.power a;
          fmin := Args.fmin a;
          hop_all := Args.hop_all a;
          training_set := sets.1.1.1;
          validation_set := sets.1.1.2;
          mean := sets.1.2;
          std := sets.2 |}.

Definition observation_shape (self : t) : Z * Z * Z :=
  (1, num_mel self, context self).

Definition training_data_set (self : t) : dataset := training_set self.

Definition validation_data_set (self : t) : dataset := validation_set self.

Definition mean_std (self : t) : Np.ndarray A * Np.ndarray A :=
  (mean self, std self).

(** The members of a data set, for both shapes. *)
Definition members (d : dataset) : list (MachineDataSet.t num A) :=
  match d with
  | Machine m => [m]
  | ConcatDataset ms => ms
  end.

End Class.
Arguments t num A : clear implicits.
Arguments dataset num A : clear implicits.
End MCMDataSet.

(** ** A small tree of recordings

    Two machine types with a handful of recordings each, on which the
    definitions above can be run.  A recording is stood for by its
    spectrogram with two mel bins: [load] returns it, or raises
    [FileNotFoundError] for a path that has no recording, [melspectrogram]
    passes it on and the dB conversions leave it (power 1) or double it
    (power 2). *)

Module Demo.

(** Fresh columns: [n] frames starting with the values [v] and [v + 100]. *)
Fixpoint frames (n : nat) (v : Z) : list (list Z) :=
  match n with
  | O => []
  | S n' => [v; v + 100] :: frames n' (v + 1)
  end.

Definition wav_files : list (string * list (list Z)) :=
  [ ("/data/dev_data/fan/train/normal_id_00_00000000.wav", frames 4 10);
    ("/data/dev_data/fan/train/normal_id_00_00000001.wav", frames 5 20);
    ("/data/dev_data/fan/train/normal_id_00_00000002.wav", frames 3 30);
    ("/data/dev_data/fan/test/anomaly_id_00_00000000.wav", frames 4 40);
    ("/data/dev_data/fan/test/normal_id_00_00000000.wav", frames 4 50);
    ("/data/eval_data/fan/train/normal_id_01_00000000.wav", frames 4 60);
    ("/data/eval_data/fan/test/id_01_00000000.wav", frames 4 70);
    ("/data/dev_data/pump/train/normal_id_00_00000000.wav", frames 5 80);
    ("/data/dev_data/pump/train/normal_id_00_00000001.wav", frames 2 90);
    ("/data/dev_data/pump/test/normal_id_00_00000000.wav", frames 5 95);
    ("/other/dev_data/fan/train/normal_id_00_00000000.wav", frames 4 200) ].

Definition listings : list (string * list string) :=
  [ ("/data/dev_data/fan/train/*id_00_*.wav",
     [ "/data/dev_data/fan/train/normal_id_00_00000002.wav";
       "/data/dev_data/fan/train/normal_id_00_00000000.wav";
       "/data/dev_data/fan/train/normal_id_00_00000001.wav" ]);
    ("/data/dev_data/fan/test/*id_00_*.wav",
     [ "/data/dev_data/fan/test/normal_id_00_00000000.wav";
       "/data/dev_data/fan/test/anomaly_id_00_00000000.wav" ]);
    ("/data/eval_data/fan/train/*id_01_*.wav",
     [ "/data/eval_data/fan/train/normal_id_01_00000000.wav" ]);
    ("/data/eval_data/fan/test/*id_01_*.wav",
     [ "/data/eval_data/fan/test/id_01_00000000.wav" ]);
    ("/data/dev_data/pump/train/*id_00_*.wav",
     [ "/data/dev_data/pump/train/normal_id_00_00000001.wav";
       "/data/dev_data/pump/train/normal_id_00_00000000.wav" ]);
    ("/data/dev_data/pump/test/*id_00_*.wav",
     [ "/data/dev_data/pump/test/normal_id_00_00000000.wav" ]);
    ("/other/dev_data/fan/train/*id_00_*.wav",
     [ "/other/dev_data/fan/train/normal_id_00_00000000.wav" ]) ].

Fixpoint assoc {T : Type} (d : T) (l : list (string * T)) (k : string) : T :=
  match l with
  | [] => d
  | (k', v) :: l' => if String.eqb k k' then v else assoc d l' k
  end.

(** The recording at a path, if there is one. *)
Fixpoint lookup_file {T : Type} (l : list (string * T)) (k : string) : option T :=
  match l with
  | [] => None
  | (k', v) :: l' => if String.eqb k k' then Some v else lookup_file l' k
  end.

(** The sum of every row, as a single column. *)
Definition row_sums (x : list (list Z)) : list (list Z) :=
  [foldr (fun col acc => zip_with Z.add col acc) [0; 0] x].

(** The largest entry of every row, as a single column. *)
Definition row_maxs (x : list (list Z)) : list (list Z) :=
  [foldr (fun col acc => zip_with Z.max col acc) [0; 0] x].

#[export] Instance librosa : Librosa Z (list (list Z)) Z :=
  {| load := fun file => or_raise FileNotFoundError (lookup_file wav_files file);
     standardize := fun x => x;
     melspectrogram := fun x _ _ _ _ _ => Ok x;
     amplitude_to_db := fun x => Ok x;
     power_to_db := fun x => Ok (map (map (Z.mul 2)) x) |}.

#[export] Instance numpy : Numpy Z :=
  {| mean_axis1 := row_sums; std_axis1 := row_maxs; junk := -1 |}.

#[export] Instance tables : Tables :=
  {| CLASS_MAP := <["fan" := 0]> (<["pump" := 1]> ∅);
     INVERSE_CLASS_MAP := <[0 := "fan"]> (<[1 := "pump"]> ∅);
     TRAINING_ID_MAP := <[0 := [0]]> (<[1 := [0]]> ∅);
     EVALUATION_ID_MAP := <[0 := [1]]> (<[1 := []]> ∅);
     ALL_ID_MAP := <[0 := [0; 1]]> (<[1 := [0]]> ∅) |}.

#[export] Instance recordings : Recordings :=
  {| glob := assoc [] listings |}.

(** No dictionary yet and an empty cache directory. *)
Definition empty_world : world Z := {| heap := []; npy := ∅ |}.

Definition args_at (data_root : string) (machine_type machine_id : Z) (mode : string)
    (context : Z) (power : Z) (hop_all : bool) : MachineDataSet.Args.t Z :=
  {| MachineDataSet.Args.machine_type := machine_type;
     MachineDataSet.Args.machine_id := machine_id;
     MachineDataSet.Args.data_root := data_root;
     MachineDataSet.Args.mode := mode;
     MachineDataSet.Args.context := context;
     MachineDataSet.Args.num_mel := 2;
     MachineDataSet.Args.n_fft := 1024;
     MachineDataSet.Args.hop_size := 512;
     MachineDataSet.Args.power := power;
     MachineDataSet.Args.normalize := true;
     MachineDataSet.Args.fmin := 0;
     MachineDataSet.Args.hop_all := hop_all |}.

Definition args := args_at "/data".

Definition mcm_args (machine_type machine_id : Z) : MCMDataSet.Args.t Z :=
  {| MCMDataSet.Args.machine_type := machine_type;
     MCMDataSet.Args.machine_id := machine_id;
     MCMDataSet.Args.data_root := "/data";
     MCMDataSet.Args.context := 2;
     MCMDataSet.Args.num_mel := 2;
     MCMDataSet.Args.n_fft := 1024;
     MCMDataSet.Args.hop_size := 512;
     MCMDataSet.Args.power := 1;
     MCMDataSet.Args.fmin := 0;
     MCMDataSet.Args.normalize_raw := false;
     MCMDataSet.Args.hop_all := false |}.

(** The data set of fan 0 for training, with non-overlapping windows of
    two frames, built in the empty world. *)
Definition fan_training :
  { built | MachineDataSet.init (args 0 0 "training" 2 1 true) empty_world = Ok built }.
Proof. eexists. vm_compute. reflexivity. Defined.

(** The data set of fan 0 for validation; the caller asks for [hop_all]. *)
Definition fan_validation :
  { built | MachineDataSet.init (args 0 0 "validation" 3 1 true) empty_world = Ok built }.
Proof. eexists. vm_compute. reflexivity. Defined.

(** All the fans. *)
Definition fans :
  { built | MCMDataSet.init (mcm_args 0 (-1)) empty_world = Ok built }.
Proof. eexists. vm_compute. reflexivity. Defined.

(** Fan 0 for training with windows of three frames that do not overlap:
    the fourth frame of every file is in no window. *)
Definition fan_hop3 :
  { built | MachineDataSet.init (args 0 0 "training" 3 1 true) empty_world = Ok built }.
Proof. eexists. vm_compute. reflexivity. Defined.

(** Fan 0 for training with sliding windows of two frames. *)
Definition fan_slide :
  { built | MachineDataSet.init (args 0 0 "training" 2 1 false) empty_world = Ok built }.
Proof. eexists. vm_compute. reflexivity. Defined.

(** Fan 0 for training with sliding windows of five frames, one more than
    a file has. *)
Definition fan_wide :
  { built | MachineDataSet.init (args 0 0 "training" 5 1 false) empty_world = Ok built }.
Proof. eexists. vm_compute. reflexivity. Defined.

(** A cache directory that has an array of a single column at the path of
    the training set of fan 0, and the data set that is built there. *)
Definition stale_world : world Z :=
  {| heap := [];
     npy := <["/data/2_1024_512_1_training_fan_0_True_0.npy" := [[1; 2]]]> ∅ |}.

Definition fan_stale :
  { built | MachineDataSet.init (args 0 0 "training" 2 1 true) stale_world = Ok built }.
Proof. eexists. vm_compute. reflexivity. Defined.

(** Fan 0 for training once more, in the world that [fan_training] has
    left, with other windows. *)
Definition fan_after :
  { built | MachineDataSet.init (args 0 0 "training" 3 1 false) (proj1_sig fan_training).2
            = Ok built }.
Proof. eexists. vm_compute. reflexivity. Defined.

(** Fan 0 for training with sliding windows of seven frames. *)
Definition fan_too_wide :
  { built | MachineDataSet.init (args 0 0 "training" 7 1 false) empty_world = Ok built }.
Proof. eexists. vm_compute. reflexivity. Defined.

(** Fan 0 for training with sliding windows and the context -1. *)
Definition fan_negative :
  { built | MachineDataSet.init (args 0 0 "training" (-1) 1 false) empty_world = Ok built }.
Proof. eexists. vm_compute. reflexivity. Defined.

(** Fan 0 alone. *)
Definition fan0 :
  { built | MCMDataSet.init (mcm_args 0 0) empty_world = Ok built }.
Proof. eexists. vm_compute. reflexivity. Defined.

(** The same tree, listed in the opposite order. *)
Definition reversed : Recordings :=
  {| glob := fun pattern => reverse (assoc [] listings pattern) |}.

End Demo.

(** * Properties *)

Example split_example :
  Str.split "_" "normal_id_00_00000012.wav" = ["normal"; "id"; "00"; "00000012.wav"].
Proof. reflexivity. Qed.

Example normpath_example :
  OsPath.normpath "/a//b/./c/../d.wav" = "/a/b/d.wav".
Proof. reflexivity. Qed.

Example split_path_example :
  OsPath.split "/data/dev_data/fan/train/x.wav" = ("/data/dev_data/fan/train", "x.wav").
Proof. reflexivity. Qed.

Example format_examples :
  (Str.format_02d 4, Str.format_02d 12, Str.format_02d (-1), Str.of_int 1024)
  = ("04", "12", "-1", "1024").
Proof. reflexivity. Qed.

Example to_int_examples :
  (Str.to_int "04", Str.to_int "-7", Str.to_int "4x", Str.to_int "", Str.to_int " 04 ",
   Str.to_int "0 4")
  = (Some 4, Some (-7), None, None, Some 4, None).
Proof. reflexivity. Qed.

(** ** The two monads *)

Lemma bind_Ok {T U : Type} (m : result T) (f : T -> result U) (y : U) :
  m ≫= f = Ok y -> exists x, m = Ok x /\ f x = Ok y.
Proof. destruct m as [x|e]; cbn; [eauto | discriminate]. Qed.

Lemma M_bind_Ok {A T U : Type} (m : M A T) (f : T -> M A U) w y w' :
  (m ≫= f) w = Ok (y, w') -> exists x w1, m w = Ok (x, w1) /\ f x w1 = Ok (y, w').
Proof.
  unfold mbind, M_bind. destruct (m w) as [[x w1]|e]; [eauto | discriminate].
Qed.

Lemma M_bind_run {A T U : Type} (m : M A T) (f : T -> M A U) w x w1 :
  m w = Ok (x, w1) -> (m ≫= f) w = f x w1.
Proof. unfold mbind, M_bind. intros ->. reflexivity. Qed.

Lemma lift_run {A T : Type} (r : result T) (w : world A) x :
  r = Ok x -> lift r w = Ok (x, w).
Proof. intros ->. reflexivity. Qed.

Lemma lift_Ok {A T : Type} (r : result T) (w : world A) x w' :
  lift r w = Ok (x, w') -> r = Ok x /\ w' = w.
Proof. unfold lift. destruct r; intros H; inversion H; auto. Qed.

Lemma M_ret_Ok {A T : Type} (x : T) (w : world A) y w' :
  (mret x : M A T) w = Ok (y, w') -> y = x /\ w' = w.
Proof. unfold mret, M_ret. intros H; inversion H; auto. Qed.

Lemma assert_Ok (b : bool) (u : unit) : assert b = Ok u -> b = true.
Proof. destruct b; [reflexivity | discriminate]. Qed.

Lemma or_raise_Ok {T : Type} (e : exn) (o : option T) (x : T) :
  or_raise e o = Ok x -> o = Some x.
Proof. destruct o; intros H; inversion H; reflexivity. Qed.

(** ** Strings *)

Section StringFacts.
Implicit Types (s a b r : string) (c x : ascii).
#[local] Arguments String.append !_ _ / : simpl nomatch.

Lemma app_nil_end s : s +:+ "" = s.
Proof. induction s as [|x s IH]; cbn; [reflexivity | rewrite IH; reflexivity]. Qed.

Lemma app_assoc_str a b r : (a +:+ b) +:+ r = a +:+ (b +:+ r).
Proof. induction a as [|x a IH]; cbn; [reflexivity | rewrite IH; reflexivity]. Qed.

Lemma length_app_str a b :
  String.length (a +:+ b) = (String.length a + String.length b)%nat.
Proof. induction a as [|x a IH]; cbn; [reflexivity | rewrite IH; reflexivity]. Qed.

Lemma app_inv_tail_str a b r : a +:+ r = b +:+ r -> a = b.
Proof.
  revert b. induction a as [|x a IH]; intros [|y b] H; cbn in H.
  - reflexivity.
  - exfalso. apply (f_equal String.length) in H. cbn in H.
    rewrite length_app_str in H. lia.
  - exfalso. apply (f_equal String.length) in H. cbn in H.
    rewrite length_app_str in H. lia.
  - injection H as -> H. f_equal. apply IH, H.
Qed.

Lemma has_app c a b : Str.has c (a +:+ b) = Str.has c a || Str.has c b.
Proof.
  induction a as [|x a IH]; cbn; [reflexivity|]. rewrite IH. apply orb_assoc.
Qed.

Lemma all_app (p : ascii -> bool) a b : Str.all p (a +:+ b) = Str.all p a && Str.all p b.
Proof.
  induction a as [|x a IH]; cbn; [reflexivity|]. rewrite IH. apply andb_assoc.
Qed.

Lemma all_has (p : ascii -> bool) c s :
  Str.all p s = true -> p c = false -> Str.has c s = false.
Proof.
  intros Hall Hc. induction s as [|x s IH]; cbn in *; [reflexivity|].
  apply andb_true_iff in Hall as [Hx Hs]. rewrite (IH Hs), orb_false_r.
  destruct (Ascii.eqb_spec x c) as [->|]; [congruence | reflexivity].
Qed.

(** *** Fields *)

Lemma split_nonempty c s : Str.split c s <> [].
Proof.
  destruct s as [|x s]; cbn; [discriminate|].
  destruct (Ascii.eqb x c); [discriminate|]. destruct (Str.split c s); discriminate.
Qed.

Lemma split_plain c s : Str.has c s = false -> Str.split c s = [s].
Proof.
  induction s as [|x s IH]; cbn; [reflexivity|]. intros H.
  apply orb_false_iff in H as [-> H]. rewrite (IH H). reflexivity.
Qed.

Lemma split_app_sep c a b :
  Str.split c (a +:+ String c b) = Str.split c a ++ Str.split c b.
Proof.
  induction a as [|x a IH]; cbn.
  - rewrite Ascii.eqb_refl. reflexivity.
  - rewrite IH. destruct (Ascii.eqb x c); [reflexivity|].
    pose proof (split_nonempty c a). destruct (Str.split c a); [contradiction | reflexivity].
Qed.

Lemma split_single c s f : Str.split c s = [f] -> f = s.
Proof.
  revert f. induction s as [|x s IH]; cbn; intros f H.
  - injection H as <-. reflexivity.
  - destruct (Ascii.eqb x c).
    + injection H as _ H. destruct (split_nonempty _ _ H).
    + destruct (Str.split c s) as [|g gs] eqn:E.
      * destruct (split_nonempty _ _ E).
      * injection H as <- ->. rewrite (IH g eq_refl). reflexivity.
Qed.

Lemma split_inj c s s' : Str.split c s = Str.split c s' -> s = s'.
Proof.
  revert s'. induction s as [|x s IH]; intros [|y s'] H; cbn in H.
  - reflexivity.
  - exfalso. pose proof (split_nonempty c s').
    destruct (Ascii.eqb y c); [injection H as H; congruence|].
    destruct (Str.split c s'); [contradiction | discriminate].
  - exfalso. pose proof (split_nonempty c s).
    destruct (Ascii.eqb x c); [injection H as H; congruence|].
    destruct (Str.split c s); [contradiction | discriminate].
  - pose proof (split_nonempty c s) as Hs. pose proof (split_nonempty c s') as Hs'.
    destruct (Ascii.eqb_spec x c) as [->|Hx], (Ascii.eqb_spec y c) as [->|Hy].
    + injection H as H. rewrite (IH s' H). reflexivity.
    + destruct (Str.split c s') as [|g gs]; [contradiction|]. discriminate.
    + destruct (Str.split c s) as [|g gs]; [contradiction|]. discriminate.
    + destruct (Str.split c s) as [|f fs] eqn:E; [contradiction|].
      destruct (Str.split c s') as [|g gs] eqn:E'; [contradiction|].
      injection H as -> -> ->. f_equal. apply IH. rewrite E'. reflexivity.
Qed.

(** *** The rendering of integers *)

Lemma string_of_uint_chars (d : Decimal.uint) :
  Str.all Str.int_char (NilEmpty.string_of_uint d) = true.
Proof. induction d; cbn; try reflexivity; exact IHd. Qed.

Lemma of_int_chars (z : Z) : Str.all Str.int_char (Str.of_int z) = true.
Proof.
  unfold Str.of_int, NilZero.string_of_int, NilZero.string_of_uint.
  destruct (Z.to_int z) as [d|d]; destruct d; cbn; try reflexivity;
    apply string_of_uint_chars.
Qed.

Lemma of_int_inj (z z' : Z) : Str.of_int z = Str.of_int z' -> z = z'.
Proof.
  unfold Str.of_int. intros H. apply DecimalZ.to_int_inj.
  assert (Hn : forall n, Z.to_int n <> Decimal.Pos Decimal.Nil /\
                         Z.to_int n <> Decimal.Neg Decimal.Nil).
  { intros [|p|p]; cbn; split; try discriminate; intros E; injection E as E;
      exact (DecimalPos.Unsigned.to_uint_nonnil p E). }
  destruct (Hn z) as [Hp Hm], (Hn z') as [Hp' Hm'].
  pose proof (NilZero.isi _ Hp Hm) as E. rewrite H in E.
  rewrite (NilZero.isi _ Hp' Hm') in E. injection E as E. symmetry. exact E.
Qed.

Lemma format_02d_chars (z : Z) : Str.all Str.int_char (Str.format_02d z) = true.
Proof.
  unfold Str.format_02d. destruct ((0 <=? z) && (z <? 10)); cbn; apply of_int_chars.
Qed.

Lemma of_bool_chars (c : ascii) (b : bool) :
  (c = "_" \/ c = "/")%char -> Str.has c (Str.of_bool b) = false.
Proof. intros [->| ->]; destruct b; reflexivity. Qed.

Lemma of_bool_inj (b b' : bool) : Str.of_bool b = Str.of_bool b' -> b = b'.
Proof. destruct b, b'; cbn; intros H; try reflexivity; discriminate. Qed.

(** *** Paths *)

Lemma endswith_app c a b : b <> "" -> Str.endswith c (a +:+ b) = Str.endswith c b.
Proof.
  intros Hb. induction a as [|x a IH]; cbn; [reflexivity|].
  rewrite IH. destruct (a +:+ b) eqn:E; [|reflexivity].
  destruct a; [cbn in E; contradiction | discriminate].
Qed.

Lemma endswith_inv c a : Str.endswith c a = true -> exists a', a = a' +:+ String c "".
Proof.
  induction a as [|x a IH]; cbn; [discriminate|]. destruct a as [|y a].
  - intros H. apply Ascii.eqb_eq in H as ->. exists "". reflexivity.
  - intros H. destruct (IH H) as [a' ->]. exists (String x a'). reflexivity.
Qed.

Lemma basename_plain b : Str.has OsPath.sep b = false -> OsPath.basename b = b.
Proof.
  destruct b as [|x b]; cbn; [reflexivity|]. intros H.
  apply orb_false_iff in H as [-> ->]. reflexivity.
Qed.

Lemma basename_sep_app a b :
  Str.has OsPath.sep b = false -> OsPath.basename (a +:+ String OsPath.sep b) = b.
Proof.
  intros Hb. induction a as [|x a IH]; cbn.
  - rewrite Hb. reflexivity.
  - rewrite has_app. cbn. rewrite orb_true_r. exact IH.
Qed.

(** [os.path.join(a, "")] is [a] with a separator at its end, unless [a] is
    empty; the other paths below [a] start with it. *)
Lemma join_empty a :
  OsPath.join a "" = "" \/ exists a', OsPath.join a "" = a' +:+ String OsPath.sep "".
Proof.
  unfold OsPath.join. cbn. destruct (String.eqb_spec a "") as [->|Ha]; cbn.
  - left. reflexivity.
  - right. destruct (Str.endswith OsPath.sep a) eqn:E.
    + rewrite app_nil_end. apply endswith_inv, E.
    + exists a. reflexivity.
Qed.

Lemma join_below a b :
  Str.startswith OsPath.sep b = false -> OsPath.join a b = OsPath.join a "" +:+ b.
Proof.
  intros Hb. unfold OsPath.join. rewrite Hb. cbn.
  destruct (String.eqb a "" || Str.endswith OsPath.sep a).
  - rewrite app_nil_end. reflexivity.
  - rewrite app_assoc_str. reflexivity.
Qed.

Lemma has_startswith c b : Str.has c b = false -> Str.startswith c b = false.
Proof. destruct b; cbn; [reflexivity|]. intros H. apply orb_false_iff in H as [H _]. exact H. Qed.

Lemma basename_join a b :
  Str.has OsPath.sep b = false -> OsPath.basename (OsPath.join a b) = b.
Proof.
  intros Hb. rewrite join_below by (apply has_startswith, Hb).
  destruct (join_empty a) as [->|[a' ->]].
  - apply basename_plain, Hb.
  - rewrite app_assoc_str. apply basename_sep_app, Hb.
Qed.

(** A path below [a] tells the directory and the name apart. *)
Lemma join_inj a a' b b' :
  Str.has OsPath.sep b = false -> Str.has OsPath.sep b' = false ->
  OsPath.join a b = OsPath.join a' b' ->
  OsPath.join a "" = OsPath.join a' "" /\ b = b'.
Proof.
  intros Hb Hb' H.
  assert (E : b = b').
  { rewrite <- (basename_join a b Hb), <- (basename_join a' b' Hb'), H. reflexivity. }
  subst b'. split; [|reflexivity].
  rewrite (join_below a b), (join_below a' b) in H by (apply has_startswith, Hb).
  apply app_inv_tail_str in H. exact H.
Qed.

(** *** Patterns *)

Lemma parse_app a b : Fnmatch.parse (a +:+ b) = Fnmatch.parse a ++ Fnmatch.parse b.
Proof. induction a as [|x a IH]; cbn; [reflexivity | rewrite IH; reflexivity]. Qed.

Lemma parse_plain s : Str.has "*" s = false -> Fnmatch.parse s = Fnmatch.lits s.
Proof.
  induction s as [|x s IH]; cbn; [reflexivity|]. intros H.
  apply orb_false_iff in H as [-> H]. rewrite (IH H). reflexivity.
Qed.

Lemma matches_nil_inv s : Fnmatch.matches [] s = true -> s = "".
Proof. destruct s; cbn; [reflexivity | discriminate]. Qed.

Lemma matches_lits_inv l p s :
  Fnmatch.matches (Fnmatch.lits l ++ p) s = true ->
  exists r, s = l +:+ r /\ Fnmatch.matches p r = true.
Proof.
  revert s. induction l as [|x l IH]; intros s H; cbn in H.
  - exists s. auto.
  - destruct s as [|y s]; [discriminate|]. apply andb_true_iff in H as [Hy H].
    apply Ascii.eqb_eq in Hy as ->. destruct (IH s H) as (r & -> & Hr).
    exists r. auto.
Qed.

Lemma matches_star_inv p s :
  Fnmatch.matches (Fnmatch.Star :: p) s = true ->
  exists a r, s = a +:+ r /\ Fnmatch.matches p r = true.
Proof.
  induction s as [|y s IH]; cbn; intros H.
  - rewrite orb_false_r in H. exists "", "". auto.
  - apply orb_true_iff in H as [H|H].
    + exists "", (String y s). auto.
    + destruct (IH H) as (a & r & -> & Hr). exists (String y a), r. auto.
Qed.

End StringFacts.

(** ** [MachineDataSet]: the constructor *)

Section Constructor.
Context {num audio A : Type}.
Context {number : PyNumber num} {librosa : Librosa num audio A}.
Context {numpy : Numpy A} {tables : Tables} {recordings : Recordings}.
Import MachineDataSet.

(** What a successful call of the constructor has gone through. *)
Lemma init_inv (a : Args.t num) (w w' : world A) (ds : t num A) :
  init a w = Ok (ds, w') ->
  exists w1,
    init_attrs a = Ok (self ds) /\
    select_files (Args.machine_type a) ds = Ok (files ds) /\
    first_file_length ds (files ds) = Ok (file_length ds) /\
    samples_per_file ds (file_length ds) = Ok (num_samples_per_file ds) /\
    __load_meta_data__ ds (files ds) w = Ok (meta_data ds, w1) /\
    __load_data__ ds (file_length ds) (files ds) w1 = Ok (data ds, w').
Proof.
  unfold init. intros H.
  apply M_bind_Ok in H as (s & w0 & Hs & H). apply lift_Ok in Hs as [Hs ->].
  apply M_bind_Ok in H as (fs & w0 & Hf & H). apply lift_Ok in Hf as [Hf ->].
  apply M_bind_Ok in H as (fl & w0 & Hl & H). apply lift_Ok in Hl as [Hl ->].
  apply M_bind_Ok in H as (n & w0 & Hn & H). apply lift_Ok in Hn as [Hn ->].
  apply M_bind_Ok in H as (md & w1 & Hmd & H).
  apply M_bind_Ok in H as (d & w2 & Hd & H).
  apply M_ret_Ok in H as [-> ->]. cbn. eauto 10.
Qed.

Lemma init_attrs_inv (a : Args.t num) (s : attrs num) :
  init_attrs a = Ok s ->
  (Args.mode a = "training" \/ Args.mode a = "validation") /\
  INVERSE_CLASS_MAP !! Args.machine_type a = Some (machine_type s) /\
  num_mel s = Args.num_mel a /\ n_fft s = Args.n_fft a /\
  hop_size s = Args.hop_size a /\ power s = Args.power a /\
  normalize s = Args.normalize a /\ mode s = Args.mode a /\
  data_root s = Args.data_root a /\ context s = Args.context a /\
  machine_id s = Args.machine_id a /\ fmin s = Args.fmin a /\
  hop_all s = (if String.eqb (Args.mode a) "validation" then false else Args.hop_all a).
Proof.
  unfold init_attrs. intros H.
  apply bind_Ok in H as (u & Hm & H). apply assert_Ok in Hm.
  apply bool_decide_eq_true in Hm.
  apply bind_Ok in H as (name & Hn & H). apply or_raise_Ok in Hn.
  injection H as <-. cbn. repeat split; try reflexivity; try assumption.
  apply elem_of_cons in Hm as [Hm|Hm]; [left; exact Hm|].
  apply elem_of_cons in Hm as [Hm|Hm]; [right; exact Hm|].
  inversion Hm.
Qed.

(** The constructor has found at least one file. *)
Lemma init_files_nonempty (a : Args.t num) (w w' : world A) (ds : t num A) :
  init a w = Ok (ds, w') -> (0 < length (files ds))%nat.
Proof.
  intros H. apply init_inv in H as (_ & _ & Hf & _).
  unfold select_files in Hf. apply bind_Ok in Hf as (? & _ & Hf).
  apply bind_Ok in Hf as (? & _ & Hf). apply bind_Ok in Hf as (fs & _ & Hf).
  apply bind_Ok in Hf as (? & Hne & Hf). injection Hf as <-.
  apply assert_Ok, bool_decide_eq_true in Hne. unfold Str.sorted.
  rewrite (Permutation_length (merge_sort_Permutation _ fs)). exact Hne.
Qed.

(** C2, as amended.  [__len__] returns the number of the files times the
    number of windows of a file, which is [file_length // context] when
    [hop_all] is in effect and [file_length - context + 1] otherwise.
    [len(dataset)] returns this product when it is not negative and not
    above [sys.maxsize]; it raises [ValueError] when the number of windows
    is negative and [OverflowError] when the product is above
    [sys.maxsize]. *)
Theorem len_is_files_times_windows (a : Args.t num) (w w' : world A) (ds : t num A) :
  init a w = Ok (ds, w') ->
  let windows :=
    if hop_all ds then file_length ds / context ds
    else file_length ds - context ds + 1 in
  let total := Z.of_nat (length (files ds)) * windows in
  num_samples_per_file ds = windows /\
  __len__ ds = total /\
  (0 <= windows -> total <= maxsize -> builtin_len (__len__ ds) = Ok total) /\
  (windows < 0 -> builtin_len (__len__ ds) = Raise ValueError) /\
  (maxsize < total -> builtin_len (__len__ ds) = Raise OverflowError).
Proof.
  intros H windows total. pose proof (init_files_nonempty _ _ _ _ H) as Hfiles.
  apply init_inv in H as (w1 & _ & _ & _ & Hn & _).
  assert (Hw : num_samples_per_file ds = windows).
  { unfold samples_per_file, floordiv in Hn. subst windows.
    destruct (hop_all ds).
    - destruct (context ds =? 0); inversion Hn; reflexivity.
    - inversion Hn; reflexivity. }
  split; [exact Hw|]. unfold __len__. rewrite Hw. fold total.
  split; [reflexivity|]. unfold builtin_len.
  assert (Hmax : 0 < maxsize) by reflexivity.
  split; [|split].
  - intros Hpos Hfit. destruct (Z.ltb_spec total 0); [subst total; nia|].
    destruct (Z.ltb_spec maxsize total); [lia | reflexivity].
  - intros Hneg. destruct (Z.ltb_spec total 0); [reflexivity | subst total; nia].
  - intros Hbig. destruct (Z.ltb_spec total 0); [lia|].
    destruct (Z.ltb_spec maxsize total); [reflexivity | lia].
Qed.

(** C4.  In validation mode the windows slide whatever [hop_all] the
    caller passes: [hop_all] is off in the object, a file has
    [file_length - context + 1] windows, and the window of an index starts
    at the offset [item % num_samples_per_file] of its file, so that the
    next window of the same file starts one frame later. *)
Theorem validation_slides (a : Args.t num) (w w' : world A) (ds : t num A) :
  init a w = Ok (ds, w') ->
  Args.mode a = "validation" ->
  hop_all ds = false /\
  num_samples_per_file ds = file_length ds - context ds + 1 /\
  (forall item k start,
      locate ds item = Ok (k, start) ->
      k = item / num_samples_per_file ds /\
      start = k * file_length ds + item mod num_samples_per_file ds) /\
  (forall item k start start',
      locate ds item = Ok (k, start) ->
      locate ds (item + 1) = Ok (k, start') ->
      start' = start + 1).
Proof.
  intros H Hmode. apply init_inv in H as (w1 & Ha & _ & _ & Hn & _).
  apply init_attrs_inv in Ha as (_ & _ & _ & _ & _ & _ & _ & _ & _ & _ & _ & _ & Hhop).
  rewrite Hmode in Hhop. cbn in Hhop.
  unfold samples_per_file in Hn. rewrite Hhop in Hn. injection Hn as Hn'.
  assert (Hloc : forall item k start,
             locate ds item = Ok (k, start) ->
             num_samples_per_file ds <> 0 /\
             k = item / num_samples_per_file ds /\
             start = k * file_length ds + item mod num_samples_per_file ds).
  { intros item k start. unfold locate, modulo, floordiv. rewrite Hhop.
    destruct (Z.eqb_spec (num_samples_per_file ds) 0) as [|Hne]; [discriminate|].
    cbn. intros E; inversion E; subst. auto. }
  split; [exact Hhop|]. split; [symmetry; exact Hn'|]. split.
  - intros item k start E. apply Hloc in E as (_ & ? & ?). auto.
  - intros item k start start' E E'.
    apply Hloc in E as (Hne & Hk & Hs). apply Hloc in E' as (_ & Hk' & Hs').
    set (n := num_samples_per_file ds) in *.
    assert (Hmod : (item + 1) mod n = item mod n + 1).
    { pose proof (Z.div_mod item n Hne). pose proof (Z.div_mod (item + 1) n Hne).
      rewrite <- Hk in *. rewrite <- Hk' in *. lia. }
    lia.
Qed.

End Constructor.

(** ** Slices *)

Section Slices.
Context {X : Type}.
Implicit Types l : list X.

Lemma clamp_inside (len i : Z) : 0 <= i <= len -> Py.clamp len i = i.
Proof.
  intros H. unfold Py.clamp. destruct (Z.ltb_spec i 0); lia.
Qed.

Lemma slice_inside (lo hi : Z) l :
  0 <= lo <= hi -> hi <= Z.of_nat (length l) ->
  Py.slice lo hi l = take (Z.to_nat (hi - lo)) (drop (Z.to_nat lo) l).
Proof.
  intros H1 H2. unfold Py.slice. rewrite !clamp_inside by lia. reflexivity.
Qed.

Lemma slice_length (lo hi : Z) l :
  0 <= lo <= hi -> hi <= Z.of_nat (length l) ->
  Z.of_nat (length (Py.slice lo hi l)) = hi - lo.
Proof.
  intros H1 H2. rewrite slice_inside by assumption.
  rewrite length_take, length_drop. lia.
Qed.

(** A slice of a slice is a slice of the whole. *)
Lemma slice_slice (a b lo hi : Z) l :
  0 <= a <= b -> b <= Z.of_nat (length l) ->
  0 <= lo <= hi -> hi <= b - a ->
  Py.slice lo hi (Py.slice a b l) = Py.slice (a + lo) (a + hi) l.
Proof.
  intros Ha Hb Hlo Hhi.
  rewrite (slice_inside lo hi) by (rewrite ?slice_length; lia).
  rewrite (slice_inside a b), (slice_inside (a + lo)) by lia.
  replace (Z.to_nat (b - a)) with (Z.to_nat lo + Z.to_nat (b - a - lo))%nat by lia.
  rewrite <- take_drop_commute, take_take, drop_drop.
  f_equal; [lia | f_equal; lia].
Qed.

(** A slice that starts at its own length or beyond is empty. *)
Lemma slice_prefix_length (k : Z) l :
  0 <= k ->
  Z.of_nat (length (Py.slice 0 k l)) = Z.min k (Z.of_nat (length l)).
Proof.
  intros Hk. unfold Py.slice, Py.clamp.
  destruct (Z.ltb_spec k 0); [lia|]. cbn [Z.ltb Z.compare Z.min]. 
  replace (0 <? 0) with false by reflexivity.
  rewrite length_take, length_drop. lia.
Qed.

End Slices.

(** ** [MachineDataSet]: the methods *)

Section Methods.
Context {num audio A : Type}.
Context {number : PyNumber num} {librosa : Librosa num audio A}.
Context {numpy : Numpy A} {tables : Tables} {recordings : Recordings}.
Import MachineDataSet.

(** C8, as amended.  An exception of [librosa.load] or of the mel
    spectrogram is passed on, whatever the power.  When both have returned,
    power 1 gives what the amplitude-to-dB conversion of the spectrogram
    gives and power 2 what the power-to-dB conversion gives, and any other
    power raises [AttributeError]: with conversions that return, the
    extraction raises exactly when the power is neither 1 nor 2. *)
Theorem preprocess_raises_iff_power_unsupported (s : attrs num) (file : string) :
  (forall e, load file = Raise e -> __load_preprocess_file__ s file = Raise e) /\
  (forall wave, load file = Ok wave ->
     let x := if normalize s then standardize wave else wave in
     let mel := melspectrogram x (n_fft s) (hop_size s) (num_mel s) (power s) (fmin s) in
     (forall e, mel = Raise e -> __load_preprocess_file__ s file = Raise e) /\
     (forall m, mel = Ok m ->
        (num_eq (power s) 1 = true ->
         __load_preprocess_file__ s file = amplitude_to_db m) /\
        (num_eq (power s) 1 = false -> num_eq (power s) 2 = true ->
         __load_preprocess_file__ s file = power_to_db m) /\
        (num_eq (power s) 1 = false -> num_eq (power s) 2 = false ->
         __load_preprocess_file__ s file = Raise AttributeError) /\
        ((exists y, amplitude_to_db m = Ok y) -> (exists y, power_to_db m = Ok y) ->
         ((exists e, __load_preprocess_file__ s file = Raise e) <->
          (num_eq (power s) 1 = false /\ num_eq (power s) 2 = false))))).
Proof.
  unfold __load_preprocess_file__. split.
  { intros e ->. reflexivity. }
  intros wave Hw. rewrite Hw. cbn [mbind result_bind]. split.
  { intros e ->. reflexivity. }
  intros m ->. cbn [mbind result_bind].
  split; [intros ->; reflexivity|].
  split; [intros -> ->; reflexivity|].
  split; [intros -> ->; reflexivity|].
  intros [ya Ha] [yp Hp]. rewrite Ha, Hp.
  destruct (num_eq (power s) 1); [|destruct (num_eq (power s) 2)].
  - split; [intros [e He]; discriminate | intros [He _]; discriminate].
  - split; [intros [e He]; discriminate | intros [_ He]; discriminate].
  - split; [auto | eauto].
Qed.

(** What [locate] computes for an index of the data set. *)
Lemma locate_valid (ds : t num A) (item : Z) :
  shaped ds -> 0 <= context ds -> 0 <= item < __len__ ds ->
  let n := num_samples_per_file ds in
  let k := item / n in
  let o := item mod n in
  let start := k * file_length ds + (if hop_all ds then o * context ds else o) in
  locate ds item = Ok (k, start) /\
  0 < n /\ 0 <= o < n /\
  0 <= k < Z.of_nat (length (files ds)) /\
  k * file_length ds <= start /\
  start + context ds <= (k + 1) * file_length ds /\
  (k + 1) * file_length ds <= Np.shape_last (data ds).
Proof.
  intros [Hw Hn] Hc Hi n k o start. unfold __len__ in Hi. fold n in Hi.
  assert (Hn0 : 0 < n) by nia.
  assert (Ho : 0 <= o < n) by (apply Z.mod_pos_bound; lia).
  assert (Hk : 0 <= k < Z.of_nat (length (files ds))).
  { split; [apply Z.div_pos; lia|]. apply Z.div_lt_upper_bound; lia. }
  assert (Hfl : 0 <= file_length ds).
  { unfold Np.shape_last in Hw. nia. }
  assert (Hwin : 0 <= start - k * file_length ds /\
                 start - k * file_length ds + context ds <= file_length ds).
  { subst start. unfold samples_per_file, floordiv in Hn. fold n in Hn.
    destruct (hop_all ds).
    - destruct (Z.eqb_spec (context ds) 0) as [|Hc0]; [discriminate|].
      injection Hn as Hn.
      pose proof (Z.mul_div_le (file_length ds) (context ds) ltac:(lia)).
      rewrite Hn in *. nia.
    - injection Hn as Hn. lia. }
  split.
  { unfold locate, modulo, floordiv. fold n.
    destruct (Z.eqb_spec n 0); [lia|]. reflexivity. }
  repeat split; try lia. rewrite Hw. nia.
Qed.


(** A call of [__getitem__] that returns: the dictionary it copied and the
    world it leaves. *)
Lemma getitem_inv (ds : t num A) (item : Z) (w w' : world A) (l : nat) :
  __getitem__ ds item w = Ok (l, w') ->
  exists k start st md,
    locate ds item = Ok (k, start) /\
    Py.index (meta_data ds) k = Some st /\
    heap w !! st = Some md /\
    l = length (heap w) /\
    w' = {| heap := heap w ++
              [<["observations" :=
                   VArray [Np.columns start (start + context ds) (data ds)]]> md];
            npy := npy w |}.
Proof.
  unfold __getitem__. intros H.
  apply M_bind_Ok in H as ([k start] & w0 & Hl & H). apply lift_Ok in Hl as [Hl ->].
  apply M_bind_Ok in H as (st & w0 & Hst & H). apply lift_Ok in Hst as [Hst ->].
  apply or_raise_Ok in Hst.
  apply M_bind_Ok in H as (c & w1 & Hc & H).
  unfold dict_copy in Hc. destruct (heap w !! st) as [md|] eqn:Hmd; [|discriminate].
  unfold new_dict in Hc. injection Hc as <- <-.
  apply M_bind_Ok in H as (u & w2 & Hset & H). apply M_ret_Ok in H as [-> ->].
  unfold dict_setitem in Hset. cbn [heap npy] in Hset.
  rewrite lookup_app_r in Hset by lia. rewrite Nat.sub_diag in Hset. cbn in Hset.
  injection Hset as <- <-.
  exists k, start, st, md. repeat split; try assumption.
  f_equal. rewrite <- (Nat.add_0_r (length (heap w))) at 1.
  rewrite insert_app_r. reflexivity.
Qed.

Lemma getitem_run (ds : t num A) (item : Z) (w : world A) k start st md :
  locate ds item = Ok (k, start) ->
  Py.index (meta_data ds) k = Some st ->
  heap w !! st = Some md ->
  __getitem__ ds item w
  = Ok (length (heap w),
        {| heap := heap w ++
             [<["observations" :=
                  VArray [Np.columns start (start + context ds) (data ds)]]> md];
           npy := npy w |}).
Proof.
  intros Hl Hst Hmd. unfold __getitem__, mbind, M_bind, lift.
  rewrite Hl. cbn [fst snd]. rewrite Hst. cbn. unfold dict_copy. rewrite Hmd. unfold new_dict.
  unfold dict_setitem, mret, M_ret. cbn [heap npy].
  rewrite lookup_app_r by lia. rewrite Nat.sub_diag. cbn.
  do 3 f_equal. rewrite <- (Nat.add_0_r (length (heap w))) at 1.
  rewrite insert_app_r. reflexivity.
Qed.

End Methods.

Section Items.
Context {num audio A : Type}.
Context {number : PyNumber num} {librosa : Librosa num audio A}.
Context {numpy : Numpy A} {tables : Tables} {recordings : Recordings}.
Import MachineDataSet.

Lemma index_inside {X : Type} (l : list X) (i : Z) :
  0 <= i < Z.of_nat (length l) -> Py.index l i = l !! Z.to_nat i.
Proof.
  intros H. unfold Py.index.
  destruct (Z.leb_spec 0 i); [|lia]. destruct (Z.ltb_spec i (Z.of_nat (length l))); [|lia].
  reflexivity.
Qed.

Lemma has_rows_columns (rows lo hi : Z) (x : Np.ndarray A) :
  has_rows rows x -> has_rows rows (Np.columns lo hi x).
Proof.
  unfold has_rows, Np.columns, Py.slice. intros H.
  apply Forall_take, Forall_drop, H.
Qed.


(** C9.  A call of [__getitem__] that returns has written no file of the
    cache and has changed no dictionary that was on the heap, those of the
    data set included: the dictionary it returns is a new one.  Called again
    with the same index it returns another new dictionary with the same
    contents, and the first one is still what it was. *)
Theorem getitem_mutates_nothing (ds : t num A) (w w' : world A) (item : Z) (l : nat) :
  __getitem__ ds item w = Ok (l, w') ->
  npy w' = npy w /\
  (forall l0 d, heap w !! l0 = Some d -> heap w' !! l0 = Some d) /\
  heap w !! l = None /\
  exists l2 w'',
    __getitem__ ds item w' = Ok (l2, w'') /\
    l2 <> l /\
    heap w'' !! l2 = heap w' !! l /\
    heap w'' !! l = heap w' !! l /\
    npy w'' = npy w.
Proof.
  intros H. apply getitem_inv in H as (k & start & st & md & Hloc & Hst & Hmd & -> & ->).
  cbn [heap npy]. split; [reflexivity|]. split.
  { intros l0 d Hl0. rewrite lookup_app_l; [exact Hl0|]. eapply lookup_lt_Some, Hl0. }
  split; [apply lookup_ge_None; lia|].
  eexists _, _. split.
  { apply (getitem_run ds item _ k start st md Hloc Hst). cbn [heap].
    rewrite lookup_app_l; [exact Hmd|]. eapply lookup_lt_Some, Hmd. }
  cbn [heap npy]. rewrite length_app. cbn [length].
  split; [lia|]. split.
  { rewrite (lookup_app_r (heap w ++ _)) by (rewrite length_app; cbn; lia).
    rewrite length_app. cbn [length]. rewrite Nat.sub_diag.
    rewrite lookup_app_r by lia. rewrite Nat.sub_diag. reflexivity. }
  split; [|reflexivity].
  rewrite (lookup_app_l (heap w ++ _)); [reflexivity|].
  rewrite length_app. cbn. lia.
Qed.

End Items.

(** ** The feature matrix of a cache miss *)

Section Features.
Context {num audio A : Type}.
Context {number : PyNumber num} {librosa : Librosa num audio A}.
Context {numpy : Numpy A} {tables : Tables} {recordings : Recordings}.
Import MachineDataSet.

(** A long spectrogram is cut to [file_length] columns, and a short one
    gets a prefix of itself appended, which makes [file_length] columns only
    if the spectrogram has at least half of them. *)
Lemma fit_length_cases (fl : Z) (x : Np.ndarray A) :
  0 <= fl ->
  (fl <= 2 * Np.shape_last x /\ Np.shape_last (fit_length fl x) = fl) \/
  (2 * Np.shape_last x < fl /\ Np.shape_last (fit_length fl x) = 2 * Np.shape_last x).
Proof.
  intros Hfl. unfold fit_length, Np.columns, Np.shape_last.
  destruct (Z.eqb_spec (Z.of_nat (length x)) fl) as [E|E]; cbn [negb].
  - left. lia.
  - destruct (Z.ltb_spec (Z.of_nat (length x)) fl) as [Hlt|Hge].
    + rewrite length_app, Nat2Z.inj_add, slice_prefix_length by lia. lia.
    + destruct (Z.gtb_spec (Z.of_nat (length x)) fl); [|lia].
      left. rewrite slice_length; lia.
Qed.

Lemma fit_length_short (fl : Z) (x : Np.ndarray A) :
  Np.shape_last x < fl ->
  fit_length fl x = x ++ take (Z.to_nat (fl - Np.shape_last x)) x.
Proof.
  intros Hlt. unfold fit_length, Np.columns, Np.shape_last in *.
  destruct (Z.eqb_spec (Z.of_nat (length x)) fl) as [E|E]; [lia|]. cbn [negb].
  destruct (Z.ltb_spec (Z.of_nat (length x)) fl); [|lia].
  f_equal. unfold Py.slice, Py.clamp. cbn.
  destruct (Z.ltb_spec (fl - Z.of_nat (length x)) 0); [lia|].
  rewrite (Z.min_l 0) by lia. rewrite Z2Nat.inj_0, drop_0, Z.sub_0_r.
  destruct (Z.min_spec (fl - Z.of_nat (length x)) (Z.of_nat (length x))) as [[_ ->]|[Hm ->]].
  - reflexivity.
  - rewrite !take_ge by lia. reflexivity.
Qed.

Lemma fit_length_long (fl : Z) (x : Np.ndarray A) :
  0 <= fl < Np.shape_last x -> fit_length fl x = take (Z.to_nat fl) x.
Proof.
  intros Hlt. unfold fit_length, Np.columns, Np.shape_last in *.
  destruct (Z.eqb_spec (Z.of_nat (length x)) fl) as [E|E]; [lia|]. cbn [negb].
  destruct (Z.ltb_spec (Z.of_nat (length x)) fl); [lia|].
  destruct (Z.gtb_spec (Z.of_nat (length x)) fl); [|lia].
  rewrite slice_inside by lia. cbn. f_equal. lia.
Qed.

Lemma fill_Ok (s : attrs num) (fl : Z) (files : list string) :
  0 <= fl ->
  forall (i : Z) (data data' : Np.ndarray A),
    0 <= i ->
    Z.of_nat (length data) = fl * (i + Z.of_nat (length files)) ->
    fill s fl i files data = Ok data' ->
    exists blocks,
      Forall2 (fitted s fl) files blocks /\
      data' = take (Z.to_nat (i * fl)) data ++ concat blocks.
Proof.
  intros Hfl. induction files as [|f files IH]; intros i data data' Hi Hlen H.
  - cbn in H. injection H as <-. exists []. split; [constructor|].
    cbn. rewrite app_nil_r, take_ge; [reflexivity|]. cbn in Hlen. lia.
  - cbn [fill] in H. apply bind_Ok in H as (x & Hx & H).
    apply bind_Ok in H as (data1 & Hset & H).
    cbn [length] in Hlen.
    assert (Hin : (i + 1) * fl <= Z.of_nat (length data)) by nia.
    unfold Np.set_columns in Hset.
    rewrite !clamp_inside in Hset by nia.
    replace (Z.to_nat ((i + 1) * fl - i * fl)) with (Z.to_nat fl) in Hset by (f_equal; lia).
    assert (Hfit : Np.shape_last (fit_length fl x) = fl /\
                   data1 = take (Z.to_nat (i * fl)) data ++ fit_length fl x
                           ++ drop (Z.to_nat (i * fl) + Z.to_nat fl) data).
    { destruct (fit_length_cases fl x Hfl) as [[_ Hw]|[Hshort Hw]].
      - unfold Np.shape_last in Hw.
        rewrite bool_decide_eq_true_2 in Hset by lia.
        injection Hset as <-. split; [exact Hw | reflexivity].
      - unfold Np.shape_last in Hw, Hshort.
        rewrite bool_decide_eq_false_2 in Hset by lia.
        destruct (fit_length fl x) as [|c [|c' rest]]; cbn in Hw; try discriminate; lia. }
    destruct Hfit as [Hw ->]. unfold Np.shape_last in Hw.
    apply IH in H as (blocks & Hblocks & ->); [|lia|].
    + exists (fit_length fl x :: blocks). split.
      * constructor; [|exact Hblocks]. exists x. auto.
      * cbn [concat]. rewrite (app_assoc _ (fit_length fl x) (concat blocks)).
        f_equal. rewrite (app_assoc _ (fit_length fl x)).
        apply take_app_length'. rewrite length_app, length_take. lia.
    + rewrite !length_app, length_take, length_drop. nia.
Qed.

(** The loop stops with [ValueError] at a file that has less than half of
    [file_length] frames. *)
Lemma fill_short_file (s : attrs num) (fl i : Z) (f : string) (files : list string)
    (data x : Np.ndarray A) :
  0 <= i ->
  Z.of_nat (length data) = fl * (i + Z.of_nat (length (f :: files))) ->
  __load_preprocess_file__ s f = Ok x ->
  2 * Np.shape_last x < fl ->
  fill s fl i (f :: files) data = Raise ValueError.
Proof.
  intros Hi Hlen Hx Hshort. cbn [fill]. rewrite Hx. cbn [mbind result_bind].
  assert (Hfl : 0 < fl) by (unfold Np.shape_last in Hshort; lia).
  cbn [length] in Hlen. unfold Np.set_columns.
  rewrite !clamp_inside by nia.
  replace (Z.to_nat ((i + 1) * fl - i * fl)) with (Z.to_nat fl) by (f_equal; lia).
  destruct (fit_length_cases fl x ltac:(lia)) as [[Hge _]|[_ Hw]]; [lia|].
  unfold Np.shape_last in Hw, Hshort.
  rewrite bool_decide_eq_false_2 by lia.
  destruct (fit_length fl x) as [|c [|c' rest]]; cbn in Hw; try reflexivity. lia.
Qed.

(** When the computation of a cache miss comes to its end, the feature
    matrix is the concatenation of one block of [file_length] columns for
    every file. *)
Lemma compute_data_Ok (s : attrs num) (fl : Z) (files : list string) (data : Np.ndarray A) :
  0 <= fl ->
  compute_data s fl files = Ok data ->
  exists blocks,
    Forall2 (fitted s fl) files blocks /\ data = concat blocks /\
    Np.shape_last data = fl * Z.of_nat (length files).
Proof.
  intros Hfl H. unfold compute_data in H. apply bind_Ok in H as (data0 & H0 & H).
  unfold Np.empty in H0.
  destruct (num_mel s <? 0); [discriminate|].
  destruct (Z.ltb_spec (fl * Z.of_nat (length files)) 0); [discriminate|].
  injection H0 as <-.
  apply fill_Ok in H as (blocks & Hb & ->);
    [|lia|lia|rewrite length_replicate, Z2Nat.id by lia; ring].
  rewrite Z.mul_0_l, Z2Nat.inj_0, take_0. cbn [app].
  exists blocks. split; [exact Hb|]. split; [reflexivity|].
  unfold Np.shape_last. clear -Hb Hfl.
  induction Hb as [|f b fs bs (x & _ & _ & Hw) _ IH]; cbn [concat length].
  - lia.
  - rewrite length_app. unfold Np.shape_last in Hw. lia.
Qed.

End Features.

(** ** What the constructor leaves behind *)

Section Built.
Context {num audio A : Type}.
Context {number : PyNumber num} {librosa : Librosa num audio A}.
Context {numpy : Numpy A} {tables : Tables} {recordings : Recordings}.
Import MachineDataSet.

(** One new dictionary for every file, in the order of the files, and no
    other change. *)
Lemma load_meta_data_Ok (s : attrs num) (files : list string) :
  forall (w w' : world A) (locs : list nat),
    __load_meta_data__ s files w = Ok (locs, w') ->
    exists dicts,
      Forall2 (fun f d => meta_data_dict s f = Ok d) files dicts /\
      heap w' = heap w ++ dicts /\
      locs = seq (length (heap w)) (length files) /\
      npy w' = npy w.
Proof.
  induction files as [|f files IH]; intros w w' locs H.
  - cbn in H. apply M_ret_Ok in H as [-> ->]. exists [].
    rewrite app_nil_r. repeat split. constructor.
  - cbn [__load_meta_data__] in H.
    apply M_bind_Ok in H as (l & w1 & Hl & H).
    unfold __get_meta_data__ in Hl. apply M_bind_Ok in Hl as (d & w0 & Hd & Hl).
    apply lift_Ok in Hd as [Hd ->]. unfold new_dict in Hl. injection Hl as <- <-.
    apply M_bind_Ok in H as (locs' & w2 & Hrest & H). apply M_ret_Ok in H as [-> ->].
    apply IH in Hrest as (dicts & Hds & Hheap & -> & Hnpy). cbn [heap npy] in *.
    exists (d :: dicts). split; [constructor; assumption|].
    split; [rewrite Hheap, <- app_assoc; reflexivity|].
    split; [|exact Hnpy]. rewrite length_app. cbn [length seq].
    rewrite Nat.add_1_r. reflexivity.
Qed.

(** The array comes from the cache, or it is computed and saved. *)
Lemma load_data_Ok (s : attrs num) (fl : Z) (files : list string)
    (w w' : world A) (d : Np.ndarray A) :
  __load_data__ s fl files w = Ok (d, w') ->
  heap w' = heap w /\
  npy w' !! cache_file_path s = Some d /\
  ((npy w !! cache_file_path s = Some d /\ w' = w) \/
   (npy w !! cache_file_path s = None /\ compute_data s fl files = Ok d /\
    npy w' = <[cache_file_path s := d]> (npy w))).
Proof.
  unfold __load_data__. intros H.
  apply M_bind_Ok in H as (c & w0 & Hc & H). unfold np_load in Hc.
  injection Hc as <- <-. destruct (npy w !! cache_file_path s) as [c|] eqn:E.
  - apply M_ret_Ok in H as [-> ->]. auto.
  - apply M_bind_Ok in H as (d' & w0 & Hd & H). apply lift_Ok in Hd as [Hd ->].
    apply M_bind_Ok in H as (u & w1 & Hsave & H). apply M_ret_Ok in H as [-> ->].
    unfold np_save in Hsave. injection Hsave as <- <-. cbn [heap npy].
    split; [reflexivity|]. split; [apply lookup_insert_eq|]. right. auto.
Qed.

Lemma first_file_length_nonneg (s : attrs num) (files : list string) (fl : Z) :
  first_file_length s files = Ok fl -> 0 <= fl.
Proof.
  unfold first_file_length. intros H.
  apply bind_Ok in H as (f & _ & H). apply bind_Ok in H as (x & _ & H).
  injection H as <-. unfold Np.shape_last. lia.
Qed.

(** Every dictionary of the data set is on the heap. *)
Lemma init_stored (a : Args.t num) (w w' : world A) (ds : t num A) :
  init a w = Ok (ds, w') -> stored ds w'.
Proof.
  intros H. apply init_inv in H as (w1 & _ & _ & _ & _ & Hmd & Hd).
  apply load_meta_data_Ok in Hmd as (dicts & Hds & Hheap & Hlocs & _).
  apply load_data_Ok in Hd as (Hh & _). unfold stored.
  rewrite Hlocs, length_seq. split; [reflexivity|].
  apply Forall_forall. intros l Hl. apply elem_of_seq in Hl.
  apply lookup_lt_is_Some_2. rewrite Hh, Hheap, length_app.
  apply Forall2_length in Hds. lia.
Qed.

(** After a cache miss the feature matrix has [file_length] columns for
    every file, each block being the fitted spectrogram of its file. *)
Lemma init_shaped (a : Args.t num) (w w' : world A) (ds : t num A) :
  init a w = Ok (ds, w') ->
  npy w !! cache_file_path ds = None ->
  shaped ds /\
  exists blocks,
    Forall2 (fitted ds (file_length ds)) (files ds) blocks /\
    data ds = concat blocks.
Proof.
  intros H Hmiss. apply init_inv in H as (w1 & _ & _ & Hfl & Hn & Hmd & Hd).
  apply load_meta_data_Ok in Hmd as (_ & _ & _ & _ & Hnpy).
  apply load_data_Ok in Hd as (_ & _ & [[Hhit _]|(_ & Hc & _)]).
  { rewrite Hnpy, Hmiss in Hhit. discriminate. }
  apply first_file_length_nonneg in Hfl.
  apply compute_data_Ok in Hc as (blocks & Hb & Hdata & Hw); [|exact Hfl].
  split; [split; assumption|]. eauto.
Qed.

(** When every spectrogram has [num_mel] rows, so has the feature matrix of
    a cache miss. *)
Lemma init_has_rows (a : Args.t num) (w w' : world A) (ds : t num A) :
  (forall f x, __load_preprocess_file__ ds f = Ok x -> has_rows (num_mel ds) x) ->
  init a w = Ok (ds, w') ->
  npy w !! cache_file_path ds = None ->
  has_rows (num_mel ds) (data ds).
Proof.
  intros Hrows H Hmiss.
  destruct (init_shaped a w w' ds H Hmiss) as (_ & blocks & Hb & ->).
  unfold has_rows. apply Forall_concat.
  induction Hb as [|f b fs bs (x & Hx & -> & _) _ IH]; constructor; [|exact IH].
  apply Hrows in Hx. unfold fit_length, Np.columns, Py.slice.
  repeat match goal with |- context [if ?c then _ else _] => destruct c end;
    try exact Hx.
  - apply Forall_app. split; [exact Hx|]. apply Forall_take, Forall_drop, Hx.
  - apply Forall_take, Forall_drop, Hx.
Qed.

End Built.

(** ** The window of an index *)

Section Windows.
Context {num audio A : Type}.
Context {number : PyNumber num} {librosa : Librosa num audio A}.
Context {numpy : Numpy A} {tables : Tables} {recordings : Recordings}.
Import MachineDataSet.

(** C10, as amended.  For a data set whose feature matrix has
    [file_length] columns for every file and whose [context] is not
    negative, the window of a valid index lies in the columns of its file: it
    starts at or after [k * file_length], ends at or before
    [(k + 1) * file_length], has exactly [context] columns, and is the
    window at the in-file offset of the block of file [k].  The matrix that
    the constructor computes when there is no file at the cache path has
    [file_length] columns for every file. *)
Theorem window_stays_in_file :
  (forall (ds : t num A) (item : Z),
      shaped ds -> 0 <= context ds -> 0 <= item < __len__ ds ->
      let k := item / num_samples_per_file ds in
      let o := item mod num_samples_per_file ds in
      let start := k * file_length ds + (if hop_all ds then o * context ds else o) in
      let block := Np.columns (k * file_length ds) ((k + 1) * file_length ds) (data ds) in
      locate ds item = Ok (k, start) /\
      0 <= k < Z.of_nat (length (files ds)) /\
      k * file_length ds <= start /\
      start + context ds <= (k + 1) * file_length ds /\
      Np.shape_last (Np.columns start (start + context ds) (data ds)) = context ds /\
      Np.columns start (start + context ds) (data ds)
      = Np.columns (start - k * file_length ds)
                   (start - k * file_length ds + context ds) block) /\
  (forall (a : Args.t num) (w w' : world A) (ds : t num A),
      init a w = Ok (ds, w') ->
      npy w !! cache_file_path ds = None ->
      shaped ds).
Proof.
  split.
  - intros ds item Hs Hc Hi k o start block.
    destruct (locate_valid ds item Hs Hc Hi) as (Hloc & Hn & Ho & Hk & Hlo & Hhi & Hw).
    fold k o start in Hloc, Hk, Hlo, Hhi, Hw.
    assert (Hfl : 0 <= file_length ds) by nia.
    unfold Np.shape_last in Hw.
    repeat split; try assumption; try lia.
    + unfold Np.shape_last, Np.columns. rewrite slice_length; nia.
    + subst block. unfold Np.columns. rewrite slice_slice by nia.
      f_equal; lia.
  - intros a w w' ds H Hmiss. exact (proj1 (init_shaped a w w' ds H Hmiss)).
Qed.

(** C6, as amended.  For a data set whose feature matrix has [num_mel]
    rows and [file_length] columns for every file, whose dictionaries are on
    the heap and whose [context] is not negative, and for a valid index,
    [__getitem__] takes the file [item // num_samples_per_file] and the
    offset [item % num_samples_per_file], and returns a copy of the
    dictionary of that file to which it has added, under ['observations'],
    the [context] columns of the feature matrix that start at the offset
    (times [context] when [hop_all] is in effect) in the columns of the
    file, as an array of shape [(1, num_mel, context)].  The constructor
    leaves such a data set whenever it computes the matrix itself, there
    being no file at the cache path, from spectrograms of [num_mel] rows. *)
Theorem getitem_returns_window :
  (forall (ds : t num A) (w : world A) (item : Z),
      shaped ds -> stored ds w -> has_rows (num_mel ds) (data ds) ->
      0 <= context ds -> 0 <= item < __len__ ds ->
      let k := item / num_samples_per_file ds in
      let o := item mod num_samples_per_file ds in
      let start := k * file_length ds + (if hop_all ds then o * context ds else o) in
      let observation := Np.columns start (start + context ds) (data ds) in
      exists st md l w',
        meta_data ds !! Z.to_nat k = Some st /\
        heap w !! st = Some md /\
        __getitem__ ds item w = Ok (l, w') /\
        heap w' !! l = Some (<["observations" := VArray [observation]]> md) /\
        has_shape [observation] (1, num_mel ds, context ds)) /\
  (forall (a : Args.t num) (w w' : world A) (ds : t num A),
      init a w = Ok (ds, w') ->
      npy w !! cache_file_path ds = None ->
      (forall f x, __load_preprocess_file__ ds f = Ok x -> has_rows (num_mel ds) x) ->
      shaped ds /\ stored ds w' /\ has_rows (num_mel ds) (data ds)).
Proof.
  split.
  - intros ds w item Hs [Hlen Hheap] Hrows Hc Hi k o start observation.
    destruct (locate_valid ds item Hs Hc Hi) as (Hloc & Hn & Ho & Hk & Hlo & Hhi & Hw).
    fold k o start in Hloc, Hk, Hlo, Hhi, Hw.
    assert (Hfl : 0 <= file_length ds) by nia.
    destruct (lookup_lt_is_Some_2 (meta_data ds) (Z.to_nat k)) as [st Hst]; [lia|].
    assert (Hmd : is_Some (heap w !! st)).
    { rewrite Forall_forall in Hheap. apply Hheap.
      apply list_elem_of_lookup. eauto. }
    destruct Hmd as [md Hmd].
    exists st, md. eexists _, _. split; [exact Hst|]. split; [exact Hmd|].
    split.
    { apply (getitem_run ds item w k start st md Hloc); [|exact Hmd].
      rewrite index_inside by lia. exact Hst. }
    split.
    { cbn [heap]. rewrite lookup_app_r by lia. rewrite Nat.sub_diag. reflexivity. }
    split; [reflexivity|]. constructor; [|constructor].
    split; [apply has_rows_columns, Hrows|].
    cbn [fst snd]. unfold Np.shape_last, observation, Np.columns.
    unfold Np.shape_last in Hw. rewrite slice_length; nia.
  - intros a w w' ds H Hmiss Hrows. split; [|split].
    + exact (proj1 (init_shaped a w w' ds H Hmiss)).
    + exact (init_stored a w w' ds H).
    + exact (init_has_rows a w w' ds Hrows H Hmiss).
Qed.

End Windows.

(** ** The labels *)

Section Labels.
Context {num audio A : Type}.
Context {number : PyNumber num} {librosa : Librosa num audio A}.
Context {numpy : Numpy A} {tables : Tables} {recordings : Recordings}.
Import MachineDataSet.
#[local] Arguments String.append !_ _ / : simpl nomatch.

(** What [glob] promises: the last component of a path it returns matches
    the last component of the pattern. *)
Hypothesis glob_matches :
  forall pattern f,
    Fnmatch.supported (OsPath.basename pattern) = true ->
    f ∈ glob pattern ->
    Fnmatch.matches (Fnmatch.parse (OsPath.basename pattern)) (OsPath.basename f) = true.

Lemma lits_app (a b : string) : Fnmatch.lits (a +:+ b) = Fnmatch.lits a ++ Fnmatch.lits b.
Proof. induction a as [|x a IH]; cbn; [reflexivity | rewrite IH; reflexivity]. Qed.

Lemma file_pattern_plain (id : Z) :
  Str.has OsPath.sep (file_pattern id) = false /\
  Fnmatch.supported (file_pattern id) = true.
Proof.
  pose proof (format_02d_chars id) as Hc.
  unfold file_pattern, Fnmatch.supported. cbn. rewrite !has_app. cbn.
  rewrite !(all_has _ _ _ Hc) by reflexivity. auto.
Qed.

Lemma parse_file_pattern (id : Z) :
  Fnmatch.parse (file_pattern id)
  = Fnmatch.Star :: Fnmatch.lits ("id_" +:+ Str.format_02d id +:+ "_")
    ++ Fnmatch.Star :: Fnmatch.lits ".wav".
Proof.
  pose proof (format_02d_chars id) as Hc.
  unfold file_pattern. rewrite !parse_app, !lits_app.
  rewrite (parse_plain (Str.format_02d id)) by (apply (all_has _ _ _ Hc); reflexivity).
  cbn. rewrite <- !app_assoc. reflexivity.
Qed.

(** A name that matches ['*id_NN_*.wav']. *)
Lemma file_pattern_matches_inv (id : Z) (name : string) :
  Fnmatch.matches (Fnmatch.parse (file_pattern id)) name = true ->
  exists a b, name = a +:+ "id" +:+ String "_" (Str.format_02d id +:+ String "_" (b +:+ ".wav")).
Proof.
  rewrite parse_file_pattern. intros H.
  apply matches_star_inv in H as (a & r & -> & H).
  apply matches_lits_inv in H as (r1 & -> & H).
  apply matches_star_inv in H as (b & r2 & -> & H).
  rewrite <- (app_nil_r (Fnmatch.lits ".wav")) in H.
  apply matches_lits_inv in H as (r3 & -> & H).
  apply matches_nil_inv in H as ->.
  exists a, b. rewrite !app_assoc_str. reflexivity.
Qed.

(** With three fields, the first one ends with ["id"]: it is not a label. *)
Lemma three_fields_prefix (id : Z) (a b f0 f1 f2 : string) :
  Str.split "_" (a +:+ "id" +:+ String "_" (Str.format_02d id +:+ String "_" (b +:+ ".wav")))
  = [f0; f1; f2] ->
  String.eqb f0 "normal" = false /\ String.eqb f0 "anomaly" = false.
Proof.
  pose proof (format_02d_chars id) as Hc.
  rewrite <- app_assoc_str, !split_app_sep.
  rewrite (split_plain _ (Str.format_02d id)) by (apply (all_has _ _ _ Hc); reflexivity).
  pose proof (split_nonempty "_" (a +:+ "id")) as Ha.
  pose proof (split_nonempty "_" (b +:+ ".wav")) as Hb.
  destruct (Str.split "_" (a +:+ "id")) as [|x [|x' xs]] eqn:Ex; [contradiction| |].
  - cbn [app]. intros H. injection H as <- _ _. apply split_single in Ex as ->.
    assert (Hend : Str.endswith "d" (a +:+ "id") = true)
      by (rewrite endswith_app by discriminate; reflexivity).
    split; apply String.eqb_neq; intros E; rewrite E in Hend; discriminate.
  - destruct (Str.split "_" (b +:+ ".wav")); [contradiction|].
    intros H. apply (f_equal length) in H. rewrite !length_app in H. cbn in H. lia.
Qed.

(** Lines 253-265 on the name of a recording that [glob] has returned. *)
Lemma targets_label (s : attrs num) (name : string) (y : Z) :
  Fnmatch.matches (Fnmatch.parse (file_pattern (machine_id s))) name = true ->
  targets s (Str.split "_" name) = Ok y ->
  y = label_of_prefix (hd EmptyString (Str.split "_" name)).
Proof.
  intros Hm H. apply file_pattern_matches_inv in Hm as (a & b & ->).
  destruct (Str.split "_" _) as [|f0 [|f1 [|f2 [|f3 [|f4 fs]]]]] eqn:E;
    cbn [targets] in H; try discriminate.
  - apply three_fields_prefix in E as [En Ea].
    apply bind_Ok in H as (i & _ & H). apply bind_Ok in H as (u & _ & H).
    injection H as <-. unfold label_of_prefix. cbn [hd]. rewrite En, Ea. reflexivity.
  - apply bind_Ok in H as (y' & Hy & H). apply bind_Ok in H as (i & _ & H).
    apply bind_Ok in H as (u & _ & H). injection H as <-.
    unfold label_of_prefix. cbn [hd].
    destruct (String.eqb f0 "normal"); [injection Hy as <-; reflexivity|].
    destruct (String.eqb f0 "anomaly"); [injection Hy as <-; reflexivity|].
    discriminate.
Qed.

(** Lines 253-265 on any list of fields. *)
Lemma targets_Ok (s : attrs num) (fields : list string) (y : Z) :
  targets s fields = Ok y <->
  (exists f0 f1 f2 f3,
      fields = [f0; f1; f2; f3] /\ Str.to_int f2 = Some (machine_id s) /\
      ((f0 = "normal" /\ y = 0) \/ (f0 = "anomaly" /\ y = 1))) \/
  (exists f0 f1 f2,
      fields = [f0; f1; f2] /\ Str.to_int f1 = Some (machine_id s) /\ y = -1).
Proof.
  split.
  - destruct fields as [|f0 [|f1 [|f2 [|f3 [|f4 fs]]]]]; cbn [targets]; try discriminate.
    + intros H. apply bind_Ok in H as (i & Hi & H). apply bind_Ok in H as (u & Hu & H).
      injection H as <-. apply or_raise_Ok in Hi. apply assert_Ok, Z.eqb_eq in Hu as <-.
      right. eauto 10.
    + intros H. apply bind_Ok in H as (y' & Hy & H). apply bind_Ok in H as (i & Hi & H).
      apply bind_Ok in H as (u & Hu & H). injection H as <-.
      apply or_raise_Ok in Hi. apply assert_Ok, Z.eqb_eq in Hu as <-.
      left. exists f0, f1, f2, f3. split; [reflexivity|]. split; [exact Hi|].
      destruct (String.eqb_spec f0 "normal") as [->|_]; [injection Hy as <-; auto|].
      destruct (String.eqb_spec f0 "anomaly") as [->|_]; [injection Hy as <-; auto|].
      discriminate.
  - intros [(f0 & f1 & f2 & f3 & -> & Hi & Hy)|(f0 & f1 & f2 & -> & Hi & ->)];
      cbn [targets]; rewrite Hi; cbn; rewrite Z.eqb_refl.
    + destruct Hy as [[-> ->]|[-> ->]]; reflexivity.
    + reflexivity.
Qed.

Lemma meta_data_dict_targets (s : attrs num) (f : string) (md : dict A) :
  Fnmatch.matches (Fnmatch.parse (file_pattern (machine_id s))) (OsPath.basename f) = true ->
  meta_data_dict s f = Ok md ->
  md !! "targets" = Some (VInt (label_of_prefix (name_prefix f))).
Proof.
  intros Hm H. unfold meta_data_dict in H.
  apply bind_Ok in H as (mt & _ & H). apply bind_Ok in H as (name & _ & H).
  apply bind_Ok in H as (u & _ & H). apply bind_Ok in H as (y & Hy & H).
  injection H as <-. cbn [OsPath.split snd] in Hy.
  apply (targets_label s _ y Hm) in Hy as ->. apply lookup_insert_eq.
Qed.

(** The recordings of a data set have names that match its pattern. *)
Lemma select_files_match (mt : Z) (s : attrs num) (fs : list string) (f : string) :
  select_files mt s = Ok fs -> f ∈ fs ->
  Fnmatch.matches (Fnmatch.parse (file_pattern (machine_id s))) (OsPath.basename f) = true.
Proof.
  unfold select_files. intros H Hf.
  apply bind_Ok in H as (ids & _ & H). apply bind_Ok in H as (root_folder & _ & H).
  apply bind_Ok in H as (found & Hfound & H). apply bind_Ok in H as (u & _ & H).
  injection H as <-. unfold Str.sorted in Hf. rewrite merge_sort_Permutation in Hf.
  destruct (file_pattern_plain (machine_id s)) as [Hsep Hsup].
  assert (Hg : exists dir, f ∈ glob (OsPath.join dir (file_pattern (machine_id s)))).
  { destruct (String.eqb (mode s) "training");
      [|destruct (String.eqb (mode s) "validation"); [|discriminate]];
      injection Hfound as <-; unfold OsPath.join_all in Hf; cbn [fold_left] in Hf; eauto. }
  destruct Hg as [dir Hg]. apply glob_matches in Hg.
  - rewrite basename_join in Hg by exact Hsep. exact Hg.
  - rewrite basename_join by exact Hsep. exact Hsup.
Qed.


End Labels.

(** ** The cache *)

Section CacheKey.
Context {num audio A : Type}.
Context {number : PyNumber num} {librosa : Librosa num audio A}.
Context {numpy : Numpy A} {tables : Tables} {recordings : Recordings}.
Import MachineDataSet.
#[local] Arguments String.append !_ _ / : simpl nomatch.

(** [format] prints two numbers alike only if they are equal, and without
    the characters that separate the fields of the name and the components
    of the path. *)
Hypothesis num_str_inj : forall x y : num, num_str x = num_str y -> x = y.
Hypothesis num_str_plain :
  forall x : num, Str.has "_" (num_str x) = false /\ Str.has "/" (num_str x) = false.

(** The names of the machine types are the names of directories, and belong
    to one type each. *)
Hypothesis machine_type_inj :
  forall i j name,
    INVERSE_CLASS_MAP !! i = Some name -> INVERSE_CLASS_MAP !! j = Some name -> i = j.
Hypothesis machine_type_plain :
  forall i name, INVERSE_CLASS_MAP !! i = Some name -> Str.has "/" name = false.

Lemma app_sep_inj_l (c : ascii) (a a' r r' : string) :
  Str.has c a = false -> Str.has c a' = false ->
  a +:+ String c r = a' +:+ String c r' -> a = a' /\ r = r'.
Proof.
  revert a'. induction a as [|x a IH]; intros [|y a'] Ha Ha' H; cbn in *.
  - injection H as ->. auto.
  - injection H as <- _. rewrite Ascii.eqb_refl in Ha'. discriminate.
  - injection H as -> _. rewrite Ascii.eqb_refl in Ha. discriminate.
  - injection H as -> H. apply orb_false_iff in Ha as [_ Ha].
    apply orb_false_iff in Ha' as [_ Ha'].
    destruct (IH a' Ha Ha' H) as [-> ->]. auto.
Qed.

Lemma mode_plain (m : string) (c : ascii) :
  m = "training" \/ m = "validation" -> (c = "_" \/ c = "/")%char -> Str.has c m = false.
Proof. intros [->| ->] [->| ->]; reflexivity. Qed.

Lemma of_int_plain (z : Z) (c : ascii) :
  (c = "_" \/ c = "/")%char -> Str.has c (Str.of_int z) = false.
Proof.
  intros Hc. apply (all_has _ _ _ (of_int_chars z)). destruct Hc as [->| ->]; reflexivity.
Qed.

(** The attributes that go into the name of the cache file. *)
Lemma cache_file_name_inj (s1 s2 : attrs num) :
  (mode s1 = "training" \/ mode s1 = "validation") ->
  (mode s2 = "training" \/ mode s2 = "validation") ->
  cache_file_name s1 = cache_file_name s2 ->
  num_mel s1 = num_mel s2 /\ n_fft s1 = n_fft s2 /\ hop_size s1 = hop_size s2 /\
  power s1 = power s2 /\ mode s1 = mode s2 /\ machine_type s1 = machine_type s2 /\
  machine_id s1 = machine_id s2 /\ normalize s1 = normalize s2 /\ fmin s1 = fmin s2.
Proof.
  intros Hm1 Hm2. unfold cache_file_name. cbn. intros H.
  apply app_sep_inj_l in H as [E1 H]; try (apply of_int_plain; auto).
  apply app_sep_inj_l in H as [E2 H]; try (apply of_int_plain; auto).
  apply app_sep_inj_l in H as [E3 H]; try (apply of_int_plain; auto).
  apply app_sep_inj_l in H as [E4 H]; try apply num_str_plain.
  apply app_sep_inj_l in H as [E5 H]; try (apply mode_plain; auto).
  apply (f_equal (Str.split "_")) in H. rewrite !split_app_sep in H.
  rewrite !(split_plain "_" (Str.of_int _)) in H by (apply of_int_plain; auto).
  rewrite !(split_plain "_" (Str.of_bool _)) in H by (apply of_bool_chars; auto).
  rewrite !(split_plain "_" (num_str _ +:+ ".npy")) in H
    by (rewrite has_app, (proj1 (num_str_plain _)); reflexivity).
  apply app_inj_2 in H as [E6 H]; [|reflexivity].
  injection H as E7 E8 E9.
  apply of_int_inj in E1, E2, E3, E7. apply num_str_inj in E4.
  apply split_inj in E6. apply of_bool_inj in E8.
  apply app_inv_tail_str, num_str_inj in E9. auto 10.
Qed.

Lemma cache_file_name_plain (s : attrs num) (i : Z) :
  (mode s = "training" \/ mode s = "validation") ->
  INVERSE_CLASS_MAP !! i = Some (machine_type s) ->
  Str.has OsPath.sep (cache_file_name s) = false.
Proof.
  intros Hm Hi. unfold cache_file_name, OsPath.sep. rewrite !has_app.
  rewrite !(of_int_plain _ "/") by (right; reflexivity).
  rewrite !(proj2 (num_str_plain _)).
  rewrite (mode_plain _ "/" Hm) by (right; reflexivity).
  rewrite (machine_type_plain _ _ Hi).
  rewrite (of_bool_chars "/") by (right; reflexivity).
  reflexivity.
Qed.

(** The recordings are looked for below [os.path.join(data_root, "")]. *)
Lemma select_files_below (mt : Z) (s1 s2 : attrs num) :
  OsPath.join (data_root s1) "" = OsPath.join (data_root s2) "" ->
  machine_id s1 = machine_id s2 -> mode s1 = mode s2 ->
  machine_type s1 = machine_type s2 ->
  select_files mt s1 = select_files mt s2.
Proof.
  intros Hroot Hid Hmode Hmt. unfold select_files, OsPath.join_all.
  rewrite Hid, Hmode, Hmt. destruct (or_raise KeyError (TRAINING_ID_MAP !! mt)) as [ids|e];
    [|reflexivity]. cbn [mbind result_bind fold_left].
  assert (Hj : forall rf, Str.startswith OsPath.sep rf = false ->
                 OsPath.join (data_root s1) rf = OsPath.join (data_root s2) rf).
  { intros rf Hrf. rewrite !(join_below _ rf) by exact Hrf. rewrite Hroot. reflexivity. }
  destruct (bool_decide (machine_id s2 ∈ ids)).
  - cbn [mbind result_bind]. rewrite (Hj "dev_data") by reflexivity. reflexivity.
  - destruct (or_raise KeyError (EVALUATION_ID_MAP !! mt)) as [ids'|e]; [|reflexivity].
    cbn [mbind result_bind].
    destruct (bool_decide (machine_id s2 ∈ ids')); [|reflexivity].
    cbn [mbind result_bind]. rewrite (Hj "eval_data") by reflexivity. reflexivity.
Qed.

Lemma preprocess_same (s1 s2 : attrs num) (f : string) :
  num_mel s1 = num_mel s2 -> n_fft s1 = n_fft s2 -> hop_size s1 = hop_size s2 ->
  power s1 = power s2 -> normalize s1 = normalize s2 -> fmin s1 = fmin s2 ->
  __load_preprocess_file__ s1 f = __load_preprocess_file__ s2 f.
Proof.
  intros E1 E2 E3 E4 E5 E6. unfold __load_preprocess_file__.
  rewrite E1, E2, E3, E4, E5, E6. reflexivity.
Qed.

Lemma fill_same (s1 s2 : attrs num) (fl : Z) (files : list string) :
  (forall f, __load_preprocess_file__ s1 f = __load_preprocess_file__ s2 f) ->
  forall i data, fill s1 fl i files data = fill s2 fl i files data.
Proof.
  intros Hp. induction files as [|f files IH]; intros i data; cbn [fill]; [reflexivity|].
  rewrite Hp. destruct (__load_preprocess_file__ s2 f) as [x|e]; [|reflexivity].
  cbn [mbind result_bind]. destruct (Np.set_columns _ _ _ _) as [d|e]; [|reflexivity].
  cbn [mbind result_bind]. apply IH.
Qed.

(** Two constructions with the same cache path compute the same matrix. *)
Lemma computed_features_same (a1 a2 : Args.t num) (s1 s2 : attrs num) :
  init_attrs a1 = Ok s1 -> init_attrs a2 = Ok s2 ->
  cache_file_path s1 = cache_file_path s2 ->
  computed_features a1 = computed_features a2.
Proof.
  intros H1 H2 Hpath. unfold computed_features. rewrite H1, H2. cbn [mbind result_bind].
  apply init_attrs_inv in H1 as (Hm1 & Hi1 & _ & _ & _ & _ & _ & Hmode1 & _).
  apply init_attrs_inv in H2 as (Hm2 & Hi2 & _ & _ & _ & _ & _ & Hmode2 & _).
  rewrite <- Hmode1 in Hm1. rewrite <- Hmode2 in Hm2.
  apply join_inj in Hpath as [Hroot Hname];
    [|eapply cache_file_name_plain; eassumption..].
  apply cache_file_name_inj in Hname
    as (E1 & E2 & E3 & E4 & E5 & E6 & E7 & E8 & E9); [|assumption..].
  rewrite <- E6 in Hi2. rewrite (machine_type_inj _ _ _ Hi2 Hi1).
  rewrite (select_files_below _ s1 s2) by assumption.
  destruct (select_files _ s2) as [files|e]; [|reflexivity]. cbn [mbind result_bind].
  assert (Hp : forall f, __load_preprocess_file__ s1 f = __load_preprocess_file__ s2 f)
    by (intros f; apply preprocess_same; assumption).
  unfold first_file_length. destruct (or_raise IndexError _) as [f|e]; [|reflexivity].
  cbn [mbind result_bind]. rewrite Hp.
  destruct (__load_preprocess_file__ s2 f) as [x|e]; [|reflexivity].
  cbn [mbind result_bind]. unfold compute_data. rewrite E1.
  destruct (Np.empty _ _ _) as [d|e]; [|reflexivity]. cbn [mbind result_bind].
  apply fill_same, Hp.
Qed.

(** The second construction finds every dictionary entry again. *)
Lemma load_meta_data_run (s : attrs num) (files : list string) (dicts : list (dict A)) :
  Forall2 (fun f d => meta_data_dict s f = Ok d) files dicts ->
  forall w : world A,
    __load_meta_data__ s files w
    = Ok (seq (length (heap w)) (length files),
          {| heap := heap w ++ dicts; npy := npy w |}).
Proof.
  induction 1 as [|f d files dicts Hd _ IH]; intros w.
  - cbn. unfold mret, M_ret. rewrite app_nil_r. destruct w; reflexivity.
  - cbn [__load_meta_data__].
    rewrite (M_bind_run _ _ w (length (heap w)) {| heap := heap w ++ [d]; npy := npy w |}).
    2: { unfold __get_meta_data__. rewrite (M_bind_run _ _ w d w (lift_run _ _ _ Hd)).
         reflexivity. }
    rewrite (M_bind_run _ _ _ _ _ (IH _)). unfold mret, M_ret. cbn [heap npy length].
    rewrite length_app, <- app_assoc. cbn [length app]. rewrite Nat.add_1_r. reflexivity.
Qed.

Lemma load_data_hit (s : attrs num) (fl : Z) (files : list string)
    (w : world A) (d : Np.ndarray A) :
  npy w !! cache_file_path s = Some d -> __load_data__ s fl files w = Ok (d, w).
Proof.
  intros H. unfold __load_data__.
  rewrite (M_bind_run _ _ w (Some d) w) by (unfold np_load; rewrite H; reflexivity).
  reflexivity.
Qed.

(** A construction that has gone through goes through again in any world
    that has an array at its cache path, and returns that array. *)
Lemma init_again (a : Args.t num) (w1 w2 w : world A) (ds : t num A) (d : Np.ndarray A) :
  init a w1 = Ok (ds, w2) ->
  npy w !! cache_file_path ds = Some d ->
  exists ds' w',
    init a w = Ok (ds', w') /\
    self ds' = self ds /\ files ds' = files ds /\ data ds' = d /\ npy w' = npy w.
Proof.
  intros H Hcache. apply init_inv in H as (w0 & Ha & Hf & Hl & Hn & Hmd & _).
  apply load_meta_data_Ok in Hmd as (dicts & Hds & _ & _ & _).
  eexists _, _. split.
  - unfold init.
    rewrite (M_bind_run _ _ _ _ _ (lift_run _ _ _ Ha)).
    rewrite (M_bind_run _ _ _ _ _ (lift_run _ _ _ Hf)).
    rewrite (M_bind_run _ _ _ _ _ (lift_run _ _ _ Hl)).
    rewrite (M_bind_run _ _ _ _ _ (lift_run _ _ _ Hn)).
    rewrite (M_bind_run _ _ _ _ _ (load_meta_data_run _ _ _ Hds _)).
    rewrite (M_bind_run _ _ _ d _
               (load_data_hit ds _ _ {| heap := heap w ++ dicts; npy := npy w |} _ Hcache)).
    reflexivity.
  - repeat split; reflexivity.
Qed.

(** A construction leaves the arrays of the cache as they are. *)
Lemma init_keeps_cache (a : Args.t num) (w w' : world A) (ds : t num A) :
  init a w = Ok (ds, w') ->
  forall p d, npy w !! p = Some d -> npy w' !! p = Some d.
Proof.
  intros H p d Hp. apply init_inv in H as (w0 & _ & _ & _ & _ & Hmd & Hd).
  apply load_meta_data_Ok in Hmd as (_ & _ & _ & _ & Hnpy).
  apply load_data_Ok in Hd as (_ & _ & [[_ ->]|(Hmiss & _ & ->)]).
  - rewrite Hnpy. exact Hp.
  - rewrite Hnpy in Hmiss. rewrite lookup_insert_ne; [rewrite Hnpy; exact Hp|].
    intros <-. rewrite Hp in Hmiss. discriminate.
Qed.

Lemma init_cached (a : Args.t num) (w w' : world A) (ds : t num A) :
  init a w = Ok (ds, w') -> npy w' !! cache_file_path ds = Some (data ds).
Proof.
  intros H. apply init_inv in H as (w0 & _ & _ & _ & _ & _ & Hd).
  apply load_data_Ok in Hd as (_ & Hcache & _). exact Hcache.
Qed.

(** C3, as amended.  The path of the cache file, which is the name made of
    [num_mel], [n_fft], [hop_size], [power], [mode], the machine type, the
    machine id, [normalize] and [fmin] below [data_root], tells the computed
    feature matrices apart: two constructions that compute different
    matrices have different cache paths.  A construction leaves its matrix
    at its cache path; and a construction with the same arguments, in any
    state of the cache directory that has an array at that path, returns
    that array, whatever it holds, and leaves the cache as it is: the array
    is loaded and not computed again. *)
Theorem cache_path_determines_features :
  (forall (a1 a2 : Args.t num) (s1 s2 : attrs num) (m1 m2 : Np.ndarray A),
      init_attrs a1 = Ok s1 -> init_attrs a2 = Ok s2 ->
      computed_features a1 = Ok m1 -> computed_features a2 = Ok m2 ->
      m1 <> m2 ->
      cache_file_path s1 <> cache_file_path s2) /\
  (forall (a : Args.t num) (w1 w2 : world A) (ds : t num A),
      init a w1 = Ok (ds, w2) ->
      npy w2 !! cache_file_path ds = Some (data ds) /\
      forall (w : world A) (d : Np.ndarray A),
        npy w !! cache_file_path ds = Some d ->
        exists ds' w',
          init a w = Ok (ds', w') /\
          cache_file_path ds' = cache_file_path ds /\
          data ds' = d /\ npy w' = npy w).
Proof.
  split.
  - intros a1 a2 s1 s2 m1 m2 H1 H2 Hm1 Hm2 Hne Hpath. apply Hne.
    rewrite (computed_features_same a1 a2 s1 s2 H1 H2 Hpath) in Hm1.
    rewrite Hm1 in Hm2. injection Hm2 as ->. reflexivity.
  - intros a w1 w2 ds H. split; [exact (init_cached _ _ _ _ H)|].
    intros w d Hcache.
    destruct (init_again a w1 w2 w ds d H Hcache) as (ds' & w' & H' & Hself & _ & Hd & Hn).
    exists ds', w'. split; [exact H'|]. split; [rewrite Hself; reflexivity|]. auto.
Qed.

End CacheKey.

(** ** [MCMDataSet] *)

Section Aggregate.
Context {num audio A : Type}.
Context {number : PyNumber num} {librosa : Librosa num audio A}.
Context {numpy : Numpy A} {tables : Tables} {recordings : Recordings}.
Import MachineDataSet.

(** The loop over the ids builds one training set for every id; what each
    of them has put into the cache, or found there, is still there when the
    loop ends. *)
Lemma load_all_Ok (a : MCMDataSet.Args.t num) (ids : list Z) :
  forall (w w' : world A) trainings validations arrays,
    MCMDataSet.load_all a ids w = Ok ((trainings, validations, arrays), w') ->
    arrays = map MachineDataSet.data trainings /\
    (forall p d, npy w !! p = Some d -> npy w' !! p = Some d) /\
    Forall2 (fun id_ ts =>
               (exists w1 w2,
                   MachineDataSet.init (MCMDataSet.kwargs a id_ "training") w1 = Ok (ts, w2)) /\
               npy w' !! MachineDataSet.cache_file_path ts = Some (MachineDataSet.data ts))
            ids trainings.
Proof.
  induction ids as [|id_ ids IH]; intros w w' tss vss arrays H.
  - cbn in H. apply M_ret_Ok in H as [H ->]. injection H as -> -> ->.
    repeat split; auto.
  - cbn [MCMDataSet.load_all] in H.
    apply M_bind_Ok in H as (ts & w1 & Hts & H).
    apply M_bind_Ok in H as (vs & w2 & Hvs & H).
    apply M_bind_Ok in H as ([[tss' vss'] arrays'] & w3 & Hrest & H).
    apply M_ret_Ok in H as [H ->]. cbn in H. injection H as -> -> ->.
    apply IH in Hrest as (-> & Hkeep & Hall).
    split; [reflexivity|]. split.
    + intros p d Hp. apply Hkeep. eapply init_keeps_cache; [exact Hvs|].
      eapply init_keeps_cache; [exact Hts|]. exact Hp.
    + constructor; [|exact Hall]. split; [eauto|].
      apply Hkeep. eapply init_keeps_cache; [exact Hvs|].
      eapply init_cached, Hts.
Qed.

(** C7.  When the machine id is -1, the mean and the std of the data set
    are those of the concatenation, along the time axis, of the feature
    matrices of the training sets of all the ids, in the order of
    [ALL_ID_MAP]: these are the matrices of the members of the training
    set, and they are also what one gets when one builds the training set of
    every id by hand afterwards. *)
Theorem aggregate_mean_std (a : MCMDataSet.Args.t num) (w w' : world A)
    (mcm : MCMDataSet.t num A) :
  MCMDataSet.init a w = Ok (mcm, w') ->
  MCMDataSet.Args.machine_id a = -1 ->
  exists ids manual,
    ALL_ID_MAP !! MCMDataSet.Args.machine_type a = Some ids /\
    Forall2 (fun id_ d =>
               exists ds w'',
                 MachineDataSet.init (MCMDataSet.kwargs a id_ "training") w' = Ok (ds, w'') /\
                 MachineDataSet.data ds = d)
            ids manual /\
    map MachineDataSet.data (MCMDataSet.members (MCMDataSet.training_set mcm)) = manual /\
    MCMDataSet.mean_std mcm = (mean_axis1 (concat manual), std_axis1 (concat manual)).
Proof.
  intros H Hid. unfold MCMDataSet.init in H. rewrite Hid in H. cbn [Z.eqb] in H.
  change (-1 =? -1) with true in H. cbv iota in H.
  apply M_bind_Ok in H as ([[[tr va] m] sd] & w1 & Hsets & H).
  apply M_ret_Ok in H as [-> ->].
  apply M_bind_Ok in Hsets as (ids & w0 & Hids & Hsets). apply lift_Ok in Hids as [Hids ->].
  apply or_raise_Ok in Hids.
  apply M_bind_Ok in Hsets as ([[tss vss] arrays] & w2 & Hload & Hsets).
  apply M_bind_Ok in Hsets as (all & w0 & Hcat & Hsets). apply lift_Ok in Hcat as [Hcat ->].
  apply M_bind_Ok in Hsets as (tset & w0 & Htr & Hsets). apply lift_Ok in Htr as [Htr ->].
  apply M_bind_Ok in Hsets as (vset & w0 & Hva & Hsets). apply lift_Ok in Hva as [Hva ->].
  apply M_ret_Ok in Hsets as [Hsets ->]. injection Hsets as -> -> -> ->.
  apply load_all_Ok in Hload as (-> & _ & Hall). cbn [fst snd] in *.
  assert (Htset : tset = MCMDataSet.ConcatDataset tss).
  { unfold MCMDataSet.concat_dataset in Htr.
    apply bind_Ok in Htr as (u & _ & Htr). apply bind_Ok in Htr as (u' & _ & Htr).
    injection Htr as <-. reflexivity. }
  assert (Hall' : all = concat (map MachineDataSet.data tss)).
  { unfold Np.concatenate in Hcat.
    destruct (map MachineDataSet.data tss); [discriminate|]. injection Hcat as <-. reflexivity. }
  subst tset all.
  exists ids, (map MachineDataSet.data tss). split; [exact Hids|]. split; [|split].
  - clear -Hall. induction Hall as [|id_ ts ids tss [(u1 & u2 & Hts) Hc] _ IH];
      cbn [map]; constructor; [|exact IH].
    destruct (init_again _ u1 u2 _ ts _ Hts Hc) as (ds' & w'' & H' & _ & _ & Hd & _).
    eauto.
  - reflexivity.
  - reflexivity.
Qed.

(** Every member of an [MCMDataSet] yields observations of the shape that
    [observation_shape] announces. *)
Lemma load_all_shape (a : MCMDataSet.Args.t num) (ids : list Z) :
  forall (w w' : world A) trainings validations arrays,
    MCMDataSet.load_all a ids w = Ok ((trainings, validations, arrays), w') ->
    Forall (fun d : t num A =>
              num_mel d = MCMDataSet.Args.num_mel a /\
              context d = MCMDataSet.Args.context a)
           (trainings ++ validations).
Proof.
  induction ids as [|id_ ids IH]; intros w w' tss vss arrays H.
  - cbn in H. apply M_ret_Ok in H as [H ->]. injection H as -> -> ->. constructor.
  - cbn [MCMDataSet.load_all] in H.
    apply M_bind_Ok in H as (ts & w1 & Hts & H).
    apply M_bind_Ok in H as (vs & w2 & Hvs & H).
    apply M_bind_Ok in H as ([[tss' vss'] arrays'] & w3 & Hrest & H).
    apply M_ret_Ok in H as [H ->]. cbn in H. injection H as -> -> ->.
    apply IH in Hrest. apply Forall_app in Hrest as [Ht Hv].
    apply init_inv in Hts as (_ & Hts & _). apply init_inv in Hvs as (_ & Hvs & _).
    apply init_attrs_inv in Hts as (_ & _ & Hm & _ & _ & _ & _ & _ & _ & Hc & _).
    apply init_attrs_inv in Hvs as (_ & _ & Hm' & _ & _ & _ & _ & _ & _ & Hc' & _).
    apply Forall_app. split; constructor; auto.
Qed.

(** X26.  The shape that [observation_shape] announces is made of the
    [num_mel] and the [context] of every member of the training set and of
    the validation set. *)
Lemma observation_shape_members (a : MCMDataSet.Args.t num) (w w' : world A)
    (mcm : MCMDataSet.t num A) (d : t num A) :
  MCMDataSet.init a w = Ok (mcm, w') ->
  d ∈ MCMDataSet.members (MCMDataSet.training_set mcm)
      ++ MCMDataSet.members (MCMDataSet.validation_set mcm) ->
  MCMDataSet.observation_shape mcm = (1, num_mel d, context d).
Proof.
  intros H Hd. unfold MCMDataSet.init in H.
  apply M_bind_Ok in H as ([[[tr va] m] sd] & w1 & Hsets & H).
  apply M_ret_Ok in H as [-> ->]. unfold MCMDataSet.observation_shape. cbn in Hd |- *.
  assert (Hshape : num_mel d = MCMDataSet.Args.num_mel a /\
                   context d = MCMDataSet.Args.context a);
    [|destruct Hshape as [-> ->]; reflexivity].
  destruct (MCMDataSet.Args.machine_id a =? -1).
  - apply M_bind_Ok in Hsets as (ids & w0 & Hids & Hsets). apply lift_Ok in Hids as [Hids ->].
    apply M_bind_Ok in Hsets as ([[tss vss] arrays] & w2 & Hload & Hsets).
    apply M_bind_Ok in Hsets as (all & w0 & Hcat & Hsets). apply lift_Ok in Hcat as [Hcat ->].
    apply M_bind_Ok in Hsets as (tset & w0 & Htr & Hsets). apply lift_Ok in Htr as [Htr ->].
    apply M_bind_Ok in Hsets as (vset & w0 & Hva & Hsets). apply lift_Ok in Hva as [Hva ->].
    apply M_ret_Ok in Hsets as [Hsets ->]. injection Hsets as -> -> -> ->.
    cbn [fst snd] in *.
    unfold MCMDataSet.concat_dataset in Htr, Hva.
    apply bind_Ok in Htr as (u & _ & Htr). apply bind_Ok in Htr as (u' & _ & Htr).
    apply bind_Ok in Hva as (v & _ & Hva). apply bind_Ok in Hva as (v' & _ & Hva).
    injection Htr as <-. injection Hva as <-. cbn [MCMDataSet.members] in Hd.
    apply load_all_shape in Hload. rewrite Forall_forall in Hload. apply Hload, Hd.
  - apply M_bind_Ok in Hsets as (ts & w0 & Hts & Hsets).
    apply M_bind_Ok in Hsets as (vs & w2 & Hvs & Hsets).
    apply M_ret_Ok in Hsets as [Hsets ->]. injection Hsets as -> -> -> ->.
    apply init_inv in Hts as (_ & Hts & _). apply init_inv in Hvs as (_ & Hvs & _).
    apply init_attrs_inv in Hts as (_ & _ & Hm & _ & _ & _ & _ & _ & _ & Hc & _).
    apply init_attrs_inv in Hvs as (_ & _ & Hm' & _ & _ & _ & _ & _ & _ & Hc' & _).
    cbn [MCMDataSet.members app] in Hd.
    apply elem_of_cons in Hd as [->|Hd]; [auto|].
    apply elem_of_cons in Hd as [->|Hd]; [auto|]. inversion Hd.
Qed.

End Aggregate.

(** ** The definitions at work on the small tree of recordings *)

Section DemoFacts.
Import Demo.
Import MachineDataSet.

Example fan_training_files :
  files (proj1_sig fan_training).1
  = [ "/data/dev_data/fan/train/normal_id_00_00000000.wav";
      "/data/dev_data/fan/train/normal_id_00_00000001.wav";
      "/data/dev_data/fan/train/normal_id_00_00000002.wav" ].
Proof. reflexivity. Qed.

(** The second recording is cut to four frames and the third one gets its
    first frame appended. *)
Example fan_training_data :
  data (proj1_sig fan_training).1
  = [ [10; 110]; [11; 111]; [12; 112]; [13; 113];
      [20; 120]; [21; 121]; [22; 122]; [23; 123];
      [30; 130]; [31; 131]; [32; 132]; [30; 130] ].
Proof. reflexivity. Qed.

Example fan_training_cache :
  map_to_list (npy (proj1_sig fan_training).2)
  = [ ("/data/2_1024_512_1_training_fan_0_True_0.npy", data (proj1_sig fan_training).1) ].
Proof. vm_compute. reflexivity. Qed.

(** C1.  The first pump recording has five frames and the second one two.
    The padding appends the two frames once more, which makes four columns
    and not five, and the assignment into the feature matrix raises
    [ValueError]: the constructor fails. *)
Theorem short_file_is_not_padded_to_length :
  first_file_length
    {| num_mel := 2; n_fft := 1024; hop_size := 512; power := 1; normalize := true;
       mode := "training"; data_root := "/data"; context := 2; machine_type := "pump";
       machine_id := 0; fmin := 0; hop_all := false |}
    [ "/data/dev_data/pump/train/normal_id_00_00000000.wav";
      "/data/dev_data/pump/train/normal_id_00_00000001.wav" ] = Ok 5 /\
  load "/data/dev_data/pump/train/normal_id_00_00000001.wav" = Ok [[90; 190]; [91; 191]] /\
  fit_length 5 [[90; 190]; [91; 191]] = [[90; 190]; [91; 191]; [90; 190]; [91; 191]] /\
  init (args 1 0 "training" 2 1 false) empty_world = Raise ValueError.
Proof. repeat split; vm_compute; reflexivity. Qed.

(** C8 as it is stated does not hold: with the power 1 the extraction raises
    for a recording that cannot be read. *)
Lemma preprocess_raises_for_unreadable_file :
  let s := {| num_mel := 2; n_fft := 1024; hop_size := 512; power := 1; normalize := true;
              mode := "training"; data_root := "/data"; context := 2;
              machine_type := "fan"; machine_id := 0; fmin := 0; hop_all := false |} in
  num_eq (power s) 1 = true /\
  __load_preprocess_file__ s "/data/dev_data/fan/train/normal_id_00_00000009.wav"
  = Raise FileNotFoundError.
Proof. split; reflexivity. Qed.

Lemma preprocess_raises_iff_power_unsupported_witness :
  let s := fun p : Z =>
    {| num_mel := 2; n_fft := 1024; hop_size := 512; power := p; normalize := true;
       mode := "training"; data_root := "/data"; context := 2; machine_type := "fan";
       machine_id := 0; fmin := 0; hop_all := false |} in
  let f := "/data/dev_data/fan/train/normal_id_00_00000002.wav" in
  __load_preprocess_file__ (s 3) f = Raise AttributeError /\
  __load_preprocess_file__ (s 1) f = Ok [[30; 130]; [31; 131]; [32; 132]] /\
  __load_preprocess_file__ (s 2) f = Ok [[60; 260]; [62; 262]; [64; 264]] /\
  __load_preprocess_file__ (s 1) "/data/dev_data/fan/train/normal_id_00_00000009.wav"
  = Raise FileNotFoundError.
Proof.
  intros s f.
  assert (Hw : load f = Ok [[30; 130]; [31; 131]; [32; 132]]) by reflexivity.
  destruct (preprocess_raises_iff_power_unsupported (s 3) f) as (_ & H3).
  destruct (preprocess_raises_iff_power_unsupported (s 1) f) as (_ & H1).
  destruct (preprocess_raises_iff_power_unsupported (s 2) f) as (_ & H2).
  destruct (preprocess_raises_iff_power_unsupported (s 1)
              "/data/dev_data/fan/train/normal_id_00_00000009.wav") as (Hmissing & _).
  destruct (H3 _ Hw) as (_ & H3'). destruct (H3' _ eq_refl) as (_ & _ & Hattr & _).
  destruct (H1 _ Hw) as (_ & H1'). destruct (H1' _ eq_refl) as (Hone & _).
  destruct (H2 _ Hw) as (_ & H2'). destruct (H2' _ eq_refl) as (_ & Htwo & _).
  split; [exact (Hattr eq_refl eq_refl)|].
  split; [exact (Hone eq_refl)|].
  split; [exact (Htwo eq_refl eq_refl)|].
  exact (Hmissing _ eq_refl).
Defined.

(** C2 as it is stated does not hold: the constructor returns a data set
    with sliding windows of seven frames on files of four, of which [len]
    is not the product, which is negative, but a [ValueError]. *)
Lemma len_raises_for_wide_context :
  exists ds w',
    init (args 0 0 "training" 7 1 false) empty_world = Ok (ds, w') /\
    hop_all ds = false /\ length (files ds) = 3%nat /\
    file_length ds - context ds + 1 = -2 /\
    __len__ ds = -6 /\
    builtin_len (__len__ ds) = Raise ValueError.
Proof.
  exists (proj1_sig fan_too_wide).1, (proj1_sig fan_too_wide).2.
  split; [vm_compute; reflexivity|]. repeat split.
Qed.

Lemma len_is_files_times_windows_witness :
  exists ds w',
    init (args 0 0 "training" 2 1 true) empty_world = Ok (ds, w') /\
    hop_all ds = true /\ length (files ds) = 3%nat /\
    num_samples_per_file ds = 4 / 2 /\ __len__ ds = 3 * 2 /\
    builtin_len (__len__ ds) = Ok 6 /\
    builtin_len (__len__ (proj1_sig fan_too_wide).1) = Raise ValueError.
Proof.
  exists (proj1_sig fan_training).1, (proj1_sig fan_training).2.
  assert (E : init (args 0 0 "training" 2 1 true) empty_world
              = Ok ((proj1_sig fan_training).1, (proj1_sig fan_training).2))
    by (vm_compute; reflexivity).
  assert (E' : init (args 0 0 "training" 7 1 false) empty_world
               = Ok ((proj1_sig fan_too_wide).1, (proj1_sig fan_too_wide).2))
    by (vm_compute; reflexivity).
  destruct (len_is_files_times_windows _ _ _ _ E) as (Hn & Hlen & Hb & _ & _).
  destruct (len_is_files_times_windows _ _ _ _ E') as (_ & _ & _ & Hneg & _).
  split; [exact E|]. split; [reflexivity|]. split; [reflexivity|].
  split; [exact Hn|]. split; [exact Hlen|]. split.
  - apply Hb; vm_compute; discriminate.
  - apply Hneg. vm_compute. reflexivity.
Defined.

Lemma validation_slides_witness :
  exists ds w',
    init (args 0 0 "validation" 3 1 true) empty_world = Ok (ds, w') /\
    hop_all ds = false /\
    num_samples_per_file ds = 4 - 3 + 1 /\
    locate ds 2 = Ok (1, 4) /\ locate ds 3 = Ok (1, 5).
Proof.
  exists (proj1_sig fan_validation).1, (proj1_sig fan_validation).2.
  assert (E : init (args 0 0 "validation" 3 1 true) empty_world
              = Ok ((proj1_sig fan_validation).1, (proj1_sig fan_validation).2))
    by (vm_compute; reflexivity).
  destruct (validation_slides _ _ _ _ E eq_refl) as (Hhop & Hn & _ & _).
  split; [exact E|]. split; [exact Hhop|]. split; [exact Hn|].
  split; reflexivity.
Defined.

(** C10 as it is stated does not hold.  The constructor accepts the context
    -1: the window of the valid index 0 is then the slice from 0 to -1, which
    has eleven columns and runs through the three files.  And it returns the
    array of one column that it finds at the cache path: the window of the
    valid index 5 then has no column. *)
Lemma window_leaves_file :
  (exists ds w',
      init (args 0 0 "training" (-1) 1 false) empty_world = Ok (ds, w') /\
      file_length ds = 4 /\ context ds = -1 /\
      0 <= 0 < __len__ ds /\
      locate ds 0 = Ok (0, 0) /\
      Np.shape_last (Np.columns 0 (0 + context ds) (data ds)) = 11) /\
  (exists ds w',
      init (args 0 0 "training" 2 1 true) stale_world = Ok (ds, w') /\
      file_length ds = 4 /\ context ds = 2 /\
      0 <= 5 < __len__ ds /\
      locate ds 5 = Ok (2, 10) /\
      Np.shape_last (Np.columns 10 (10 + context ds) (data ds)) = 0).
Proof.
  split.
  - exists (proj1_sig fan_negative).1, (proj1_sig fan_negative).2.
    split; [vm_compute; reflexivity|]. repeat split; vm_compute; congruence.
  - exists (proj1_sig fan_stale).1, (proj1_sig fan_stale).2.
    split; [vm_compute; reflexivity|]. repeat split; vm_compute; congruence.
Qed.

Lemma window_stays_in_file_witness :
  locate (proj1_sig fan_training).1 3 = Ok (1, 6) /\
  1 * 4 <= 6 /\ 6 + 2 <= (1 + 1) * 4 /\
  Np.columns 6 8 (data (proj1_sig fan_training).1) = [[22; 122]; [23; 123]] /\
  shaped (proj1_sig fan_training).1.
Proof.
  destruct (window_stays_in_file (num := Z) (audio := list (list Z)) (A := Z))
    as [Hwindow Hbuilt].
  assert (E : init (args 0 0 "training" 2 1 true) empty_world
              = Ok ((proj1_sig fan_training).1, (proj1_sig fan_training).2))
    by (vm_compute; reflexivity).
  assert (Hs : shaped (proj1_sig fan_training).1).
  { apply (Hbuilt _ _ _ _ E). vm_compute. reflexivity. }
  assert (Hc : 0 <= context (proj1_sig fan_training).1) by (vm_compute; discriminate).
  assert (Hi : 0 <= 3 < __len__ (proj1_sig fan_training).1) by (vm_compute; split; congruence).
  destruct (Hwindow (proj1_sig fan_training).1 3 Hs Hc Hi)
    as (Hloc & _ & Hlo & Hhi & _ & _).
  split; [exact Hloc|]. split; [exact Hlo|]. split; [exact Hhi|].
  split; [reflexivity | exact Hs].
Defined.

(** C6 as it is stated does not hold.  The constructor returns the array of
    one column that it finds at the cache path; the index 5 is valid, and
    its observation has no column: its shape is not
    [(1, num_mel, context)]. *)
Lemma getitem_after_stale_cache :
  exists ds w' l w'' md,
    init (args 0 0 "training" 2 1 true) stale_world = Ok (ds, w') /\
    0 <= 5 < __len__ ds /\
    __getitem__ ds 5 w' = Ok (l, w'') /\
    heap w'' !! l = Some md /\
    md !! "observations" = Some (VArray [[]]) /\
    ~ has_shape (A := Z) [[]] (1, num_mel ds, context ds).
Proof.
  exists (proj1_sig fan_stale).1, (proj1_sig fan_stale).2. eexists _, _, _.
  split; [vm_compute; reflexivity|].
  split; [vm_compute; split; congruence|].
  split; [vm_compute; reflexivity|].
  split; [vm_compute; reflexivity|].
  split; [vm_compute; reflexivity|].
  intros [_ H]. apply Forall_cons in H as [[_ H] _]. vm_compute in H. discriminate.
Qed.

Lemma getitem_returns_window_witness :
  exists l w' md,
    __getitem__ (proj1_sig fan_training).1 3 (proj1_sig fan_training).2 = Ok (l, w') /\
    heap w' !! l = Some md /\
    md !! "observations" = Some (VArray [[[22; 122]; [23; 123]]]) /\
    md !! "targets" = Some (VInt 0) /\
    md !! "file_ids" = Some (VStr "dev_data/fan/train/normal_id_00_00000001.wav").
Proof.
  destruct (getitem_returns_window (num := Z) (audio := list (list Z)) (A := Z))
    as [Hwindow Hbuilt].
  assert (E : init (args 0 0 "training" 2 1 true) empty_world
              = Ok ((proj1_sig fan_training).1, (proj1_sig fan_training).2))
    by (vm_compute; reflexivity).
  destruct (Hbuilt _ _ _ _ E) as (Hs & Hst & Hr).
  { vm_compute. reflexivity. }
  { intros f x Hx. unfold __load_preprocess_file__ in Hx.
    destruct (load f) as [wave|e] eqn:Hload; [|discriminate].
    cbn in Hx. injection Hx as <-. unfold load, librosa in Hload.
    destruct (lookup_file wav_files f) as [v|] eqn:Hlook; [|discriminate].
    injection Hload as <-. cbn in Hlook.
    repeat match type of Hlook with
           | (if String.eqb f ?k then _ else _) = _ =>
               destruct (String.eqb f k);
               [injection Hlook as <-; repeat constructor|]
           end.
    discriminate. }
  assert (Hc : 0 <= context (proj1_sig fan_training).1) by (vm_compute; discriminate).
  assert (Hi : 0 <= 3 < __len__ (proj1_sig fan_training).1) by (vm_compute; split; congruence).
  destruct (Hwindow _ _ 3 Hs Hst Hr Hc Hi)
    as (st & md & l & w' & Hlook & Hmd & Hget & Hobs & _).
  exists l, w'. eexists. split; [exact Hget|]. split; [exact Hobs|].
  vm_compute in Hlook. injection Hlook as <-.
  vm_compute in Hmd. injection Hmd as <-.
  split; [|split]; vm_compute; reflexivity.
Defined.

Lemma getitem_mutates_nothing_witness :
  exists l w',
    __getitem__ (proj1_sig fan_training).1 3 (proj1_sig fan_training).2 = Ok (l, w') /\
    npy w' = npy (proj1_sig fan_training).2 /\
    heap w' !! 1%nat = heap (proj1_sig fan_training).2 !! 1%nat /\
    l = 3%nat.
Proof.
  exists 3%nat. eexists.
  assert (E : __getitem__ (proj1_sig fan_training).1 3 (proj1_sig fan_training).2
              = Ok (3%nat, _)) by (vm_compute; reflexivity).
  destruct (getitem_mutates_nothing _ _ _ _ _ E) as (Hnpy & Hframe & _ & _).
  split; [exact E|]. split; [exact Hnpy|]. split; [|reflexivity].
  destruct (heap (proj1_sig fan_training).2 !! 1%nat) as [d|] eqn:Hd.
  - apply Hframe, Hd.
  - vm_compute in Hd. discriminate.
Defined.

(** The listing of the small tree keeps the promise of [glob]. *)
Lemma demo_glob_matches (pattern f : string) :
  Fnmatch.supported (OsPath.basename pattern) = true ->
  f ∈ glob pattern ->
  Fnmatch.matches (Fnmatch.parse (OsPath.basename pattern)) (OsPath.basename f) = true.
Proof.
  intros _ Hf. unfold glob, recordings, listings in Hf. cbn [assoc] in Hf.
  repeat match type of Hf with
         | _ ∈ (if String.eqb pattern ?k then _ else _) =>
             destruct (String.eqb_spec pattern k) as [->|_]
         end;
    repeat (apply elem_of_cons in Hf as [->|Hf]; [vm_compute; reflexivity|]);
    inversion Hf.
Qed.

Lemma demo_machine_type_inj (i j : Z) (name : string) :
  INVERSE_CLASS_MAP !! i = Some name -> INVERSE_CLASS_MAP !! j = Some name -> i = j.
Proof.
  unfold INVERSE_CLASS_MAP, tables. intros Hi Hj.
  apply lookup_insert_Some in Hi as [[<- <-]|[_ Hi]];
    [|apply lookup_insert_Some in Hi as [[<- <-]|[_ Hi]]; [|inversion Hi]];
    (apply lookup_insert_Some in Hj as [[<- Hj]|[_ Hj]];
     [|apply lookup_insert_Some in Hj as [[<- Hj]|[_ Hj]]; [|inversion Hj]]);
    try reflexivity; discriminate.
Qed.

Lemma demo_machine_type_plain (i : Z) (name : string) :
  INVERSE_CLASS_MAP !! i = Some name -> Str.has "/" name = false.
Proof.
  unfold INVERSE_CLASS_MAP, tables. intros Hi.
  apply lookup_insert_Some in Hi as [[_ <-]|[_ Hi]]; [reflexivity|].
  apply lookup_insert_Some in Hi as [[_ <-]|[_ Hi]]; [reflexivity|]. inversion Hi.
Qed.

Lemma int_str_plain (z : Z) :
  Str.has "_" (num_str z) = false /\ Str.has "/" (num_str z) = false.
Proof. split; apply of_int_plain; auto. Qed.

Lemma int_str_inj (x y : Z) : num_str x = num_str y -> x = y.
Proof. apply of_int_inj. Qed.

(** C3 as it is stated does not hold: the name of the cache file has no
    field for [data_root].  The fan recordings below ["/data"] and below
    ["/other"] give different feature matrices and the same file name. *)
Lemma cache_file_name_ignores_data_root :
  exists s1 s2 m1 m2,
    init_attrs (args_at "/data" 0 0 "training" 2 1 false) = Ok s1 /\
    init_attrs (args_at "/other" 0 0 "training" 2 1 false) = Ok s2 /\
    computed_features (args_at "/data" 0 0 "training" 2 1 false) = Ok m1 /\
    computed_features (args_at "/other" 0 0 "training" 2 1 false) = Ok m2 /\
    m1 <> m2 /\
    cache_file_name s1 = cache_file_name s2 /\
    cache_file_name s1 = "2_1024_512_1_training_fan_0_True_0.npy".
Proof.
  eexists _, _, _, _.
  split; [vm_compute; reflexivity|]. split; [vm_compute; reflexivity|].
  split; [vm_compute; reflexivity|]. split; [vm_compute; reflexivity|].
  split; [discriminate|]. split; vm_compute; reflexivity.
Qed.

Lemma cache_path_determines_features_witness :
  (exists s1 s2,
      init_attrs (args_at "/data" 0 0 "training" 2 1 false) = Ok s1 /\
      init_attrs (args_at "/other" 0 0 "training" 2 1 false) = Ok s2 /\
      cache_file_path s1 <> cache_file_path s2) /\
  (exists ds' w'',
      init (args 0 0 "training" 2 1 true) (proj1_sig fan_training).2 = Ok (ds', w'') /\
      data ds' = data (proj1_sig fan_training).1 /\
      npy w'' = npy (proj1_sig fan_training).2) /\
  (exists ds' w'',
      init (args 0 0 "training" 2 1 true) stale_world = Ok (ds', w'') /\
      data ds' = [[1; 2]] /\
      npy w'' = npy stale_world).
Proof.
  destruct (cache_path_determines_features (audio := list (list Z))
              int_str_inj int_str_plain demo_machine_type_inj demo_machine_type_plain)
    as [Hdiff Hagain].
  assert (E : init (args 0 0 "training" 2 1 true) empty_world
              = Ok ((proj1_sig fan_training).1, (proj1_sig fan_training).2))
    by (vm_compute; reflexivity).
  destruct (Hagain _ _ _ _ E) as (Hleft & Hload).
  split; [|split].
  - eexists _, _. split; [vm_compute; reflexivity|]. split; [vm_compute; reflexivity|].
    eapply (Hdiff (args_at "/data" 0 0 "training" 2 1 false)
                  (args_at "/other" 0 0 "training" 2 1 false));
      [vm_compute; reflexivity..|discriminate].
  - destruct (Hload _ _ Hleft) as (ds' & w'' & H' & _ & Hd & Hn).
    exists ds', w''. split; [exact H'|]. split; [exact Hd | exact Hn].
  - destruct (Hload stale_world [[1; 2]]) as (ds' & w'' & H' & _ & Hd & Hn).
    { vm_compute. reflexivity. }
    exists ds', w''. split; [exact H'|]. split; [exact Hd | exact Hn].
Defined.

Example label_examples :
  let s := {| num_mel := 2; n_fft := 1024; hop_size := 512; power := 1; normalize := true;
              mode := "validation"; data_root := "/data"; context := 2;
              machine_type := "fan"; machine_id := 1; fmin := 0; hop_all := false |} in
  (meta_data_dict (A := Z) s "/data/eval_data/fan/test/id_01_00000000.wav" ≫= fun d =>
     or_raise KeyError (d !! "targets")) = Ok (VInt (-1)) /\
  (meta_data_dict (A := Z) s "/data/eval_data/fan/train/normal_id_01_00000000.wav" ≫= fun d =>
     or_raise KeyError (d !! "targets")) = Ok (VInt 0) /\
  meta_data_dict (A := Z) s "/data/eval_data/fan/train/broken_id_01_00000000.wav"
  = Raise AttributeError /\
  meta_data_dict (A := Z) s "/data/eval_data/fan/train/normal_01.wav" = Raise AttributeError.
Proof. repeat split; vm_compute; reflexivity. Qed.


Lemma aggregate_mean_std_witness :
  exists mcm w',
    MCMDataSet.init (mcm_args 0 (-1)) empty_world = Ok (mcm, w') /\
    ALL_ID_MAP !! 0 = Some [0; 1] /\
    MCMDataSet.mean_std mcm
    = (mean_axis1
         (data (proj1_sig fan_training).1 ++ [[60; 160]; [61; 161]; [62; 162]; [63; 163]]),
       std_axis1
         (data (proj1_sig fan_training).1 ++ [[60; 160]; [61; 161]; [62; 162]; [63; 163]])).
Proof.
  exists (proj1_sig fans).1, (proj1_sig fans).2.
  assert (E : MCMDataSet.init (mcm_args 0 (-1)) empty_world
              = Ok ((proj1_sig fans).1, (proj1_sig fans).2)) by (vm_compute; reflexivity).
  destruct (aggregate_mean_std _ _ _ _ E eq_refl) as (ids & manual & Hids & _ & Hm & Hstat).
  split; [exact E|]. split; [reflexivity|].
  rewrite Hstat, <- Hm. reflexivity.
Defined.

End DemoFacts.

(** * More of the module *)

(** ** The constructor: what it refuses and what it guarantees *)

Section ConstructorEdges.
Context {num audio A : Type}.
Context {number : PyNumber num} {librosa : Librosa num audio A}.
Context {numpy : Numpy A} {tables : Tables} {recordings : Recordings}.
Import MachineDataSet.

(** X1.  A mode other than ['training'] and ['validation'] is refused by
    the assertion of line 110, whatever the other arguments are. *)
Theorem init_rejects_mode (a : Args.t num) (w : world A) :
  Args.mode a <> "training" -> Args.mode a <> "validation" ->
  init a w = Raise AssertionError.
Proof.
  intros Ht Hv. unfold init, init_attrs.
  rewrite bool_decide_eq_false_2; [reflexivity|].
  intros H. apply elem_of_cons in H as [H|H]; [contradiction|].
  apply elem_of_cons in H as [H|H]; [contradiction|]. inversion H.
Qed.

(** X2.  A machine type that [INVERSE_CLASS_MAP] or [TRAINING_ID_MAP] does
    not know is a [KeyError]; a machine id that is in neither id list of its
    type is the [AttributeError] of line 132. *)
Theorem init_unknown_machine (a : Args.t num) (w : world A) :
  Args.mode a = "training" \/ Args.mode a = "validation" ->
  (INVERSE_CLASS_MAP !! Args.machine_type a = None -> init a w = Raise KeyError) /\
  (forall name,
      INVERSE_CLASS_MAP !! Args.machine_type a = Some name ->
      TRAINING_ID_MAP !! Args.machine_type a = None ->
      init a w = Raise KeyError) /\
  (forall name training_ids evaluation_ids,
      INVERSE_CLASS_MAP !! Args.machine_type a = Some name ->
      TRAINING_ID_MAP !! Args.machine_type a = Some training_ids ->
      EVALUATION_ID_MAP !! Args.machine_type a = Some evaluation_ids ->
      Args.machine_id a ∉ training_ids ->
      Args.machine_id a ∉ evaluation_ids ->
      init a w = Raise AttributeError).
Proof.
  intros Hmode.
  assert (Hm : bool_decide (Args.mode a ∈ ["training"; "validation"]) = true).
  { apply bool_decide_eq_true_2. destruct Hmode as [->| ->].
    - apply elem_of_cons. left. reflexivity.
    - apply elem_of_cons. right. apply elem_of_cons. left. reflexivity. }
  split; [|split].
  - intros Hn. unfold init, init_attrs. rewrite Hm, Hn. reflexivity.
  - intros name Hn Ht. unfold init, init_attrs. rewrite Hm, Hn. cbn.
    unfold select_files. rewrite Ht. reflexivity.
  - intros name tr ev Hn Ht He Hnt Hne.
    assert (Hs : exists s, init_attrs a = Ok s)
      by (unfold init_attrs; rewrite Hm, Hn; cbn; eauto).
    destruct Hs as [s Hs]. pose proof Hs as Hinv.
    apply init_attrs_inv in Hinv as (_ & _ & _ & _ & _ & _ & _ & _ & _ & _ & Hid & _).
    unfold init. rewrite (M_bind_run _ _ w s w (lift_run _ _ _ Hs)).
    assert (Hsel : select_files (Args.machine_type a) s = Raise AttributeError).
    { unfold select_files. rewrite Ht. cbn [or_raise mbind result_bind].
      rewrite Hid, bool_decide_eq_false_2 by exact Hnt.
      rewrite He. cbn [or_raise mbind result_bind].
      rewrite bool_decide_eq_false_2 by exact Hne. reflexivity. }
    unfold mbind, M_bind, lift. rewrite Hsel. reflexivity.
Qed.

(** X3.  When no recording matches the pattern of the machine, the
    constructor stops at the assertion of line 149. *)
Theorem init_no_files (a : Args.t num) (w : world A) (s : attrs num) (ids : list Z) :
  init_attrs a = Ok s ->
  TRAINING_ID_MAP !! Args.machine_type a = Some ids ->
  (machine_id s ∈ ids \/
   exists ids', EVALUATION_ID_MAP !! Args.machine_type a = Some ids' /\ machine_id s ∈ ids') ->
  (forall root_folder sub,
      root_folder = "dev_data" \/ root_folder = "eval_data" ->
      sub = "train" \/ sub = "test" ->
      glob (OsPath.join_all (data_root s)
              [root_folder; machine_type s; sub; file_pattern (machine_id s)]) = []) ->
  init a w = Raise AssertionError.
Proof.
  intros Hs Ht Hid Hglob. pose proof Hs as Hinv.
  apply init_attrs_inv in Hinv as (Hmode & _ & _ & _ & _ & _ & _ & Hm & _).
  unfold init. rewrite (M_bind_run _ _ w s w (lift_run _ _ _ Hs)).
  assert (Hsel : select_files (Args.machine_type a) s = Raise AssertionError).
  { unfold select_files. rewrite Ht. cbn [or_raise mbind result_bind].
    assert (Hfiles : forall root_folder,
               root_folder = "dev_data" \/ root_folder = "eval_data" ->
               ((if String.eqb (mode s) "training"
                 then Ok (glob (OsPath.join_all (data_root s)
                                  [root_folder; machine_type s; "train";
                                   file_pattern (machine_id s)]))
                 else if String.eqb (mode s) "validation"
                      then Ok (glob (OsPath.join_all (data_root s)
                                       [root_folder; machine_type s; "test";
                                        file_pattern (machine_id s)]))
                      else Raise AttributeError) : result (list string)) = Ok []).
    { intros rf Hrf. rewrite (Hglob rf "train") by auto. rewrite (Hglob rf "test") by auto.
      rewrite Hm. destruct Hmode as [->| ->]; reflexivity. }
    destruct (decide (machine_id s ∈ ids)) as [Hin|Hnin].
    - rewrite bool_decide_eq_true_2 by exact Hin. cbn [mbind result_bind].
      rewrite Hfiles by auto. reflexivity.
    - rewrite bool_decide_eq_false_2 by exact Hnin.
      destruct Hid as [Hin|(ids' & He & Hin)]; [contradiction|].
      rewrite He. cbn [or_raise mbind result_bind].
      rewrite bool_decide_eq_true_2 by exact Hin. cbn [mbind result_bind].
      rewrite Hfiles by auto. reflexivity. }
  unfold mbind, M_bind, lift. rewrite Hsel. reflexivity.
Qed.

(** X4.  What holds of every data set that the constructor returns: it has
    at least one file and one dictionary per file at consecutive addresses,
    [file_length] is the width of the spectrogram of the first file, the mode
    is one of the two, [hop_all] is off in validation mode, and [context] is
    not zero when [hop_all] is on. *)
Theorem init_invariants (a : Args.t num) (w w' : world A) (ds : t num A) :
  init a w = Ok (ds, w') ->
  (exists f x,
      files ds !! 0%nat = Some f /\ __load_preprocess_file__ ds f = Ok x /\
      file_length ds = Np.shape_last x) /\
  meta_data ds = seq (length (heap w)) (length (files ds)) /\
  length (heap w') = (length (heap w) + length (files ds))%nat /\
  (mode ds = "training" \/ mode ds = "validation") /\
  (mode ds = "validation" -> hop_all ds = false) /\
  (hop_all ds = true -> context ds <> 0) /\
  (num_eq (power ds) 1 = true \/ num_eq (power ds) 2 = true).
Proof.
  intros H. apply init_inv in H as (w1 & Ha & Hf & Hl & Hn & Hmd & Hd).
  apply init_attrs_inv in Ha as (Hmode & _ & _ & _ & _ & _ & _ & Hm & _ & _ & _ & _ & Hhop).
  apply load_meta_data_Ok in Hmd as (dicts & Hds & Hheap & Hlocs & _).
  apply load_data_Ok in Hd as (Hh & _).
  unfold first_file_length in Hl. apply bind_Ok in Hl as (f & Hf0 & Hl).
  apply or_raise_Ok in Hf0. apply bind_Ok in Hl as (x & Hx & Hl). injection Hl as Hl.
  assert (Hfirst : files ds !! 0%nat = Some f).
  { unfold Py.index in Hf0. destruct (files ds) as [|f' fs]; [discriminate|].
    cbn in Hf0. injection Hf0 as ->. reflexivity. }
  split; [exists f, x; auto|]. split; [exact Hlocs|]. split.
  { rewrite Hh, Hheap, length_app. apply Forall2_length in Hds. lia. }
  split; [rewrite Hm; exact Hmode|]. split.
  { intros Hv. rewrite Hhop, <- Hm, Hv. reflexivity. }
  split.
  { intros Hh1 Hc. unfold samples_per_file, floordiv in Hn.
    rewrite Hh1, Hc in Hn. discriminate. }
  unfold __load_preprocess_file__ in Hx.
  apply bind_Ok in Hx as (wave & _ & Hx). apply bind_Ok in Hx as (m & _ & Hx).
  destruct (num_eq (power ds) 1); [auto|].
  destruct (num_eq (power ds) 2); [auto | discriminate].
Qed.

End ConstructorEdges.

(** ** The windows: order, ends and indices outside the range *)

Section WindowEdges.
Context {num audio A : Type}.
Context {number : PyNumber num} {librosa : Librosa num audio A}.
Context {numpy : Numpy A} {tables : Tables} {recordings : Recordings}.
Import MachineDataSet.

Lemma shaped_hop_context (ds : t num A) :
  shaped ds -> hop_all ds = true -> context ds <> 0 /\
  num_samples_per_file ds = file_length ds / context ds.
Proof.
  intros [_ Hn] Hh. unfold samples_per_file, floordiv in Hn. rewrite Hh in Hn.
  destruct (Z.eqb_spec (context ds) 0); [discriminate|]. injection Hn as <-. auto.
Qed.

Lemma shaped_slide (ds : t num A) :
  shaped ds -> hop_all ds = false ->
  num_samples_per_file ds = file_length ds - context ds + 1.
Proof.
  intros [_ Hn] Hh. unfold samples_per_file in Hn. rewrite Hh in Hn.
  injection Hn as <-. reflexivity.
Qed.

Lemma locate_Ok (ds : t num A) (item : Z) :
  num_samples_per_file ds <> 0 ->
  locate ds item
  = Ok (item / num_samples_per_file ds,
        item / num_samples_per_file ds * file_length ds
        + (if hop_all ds then item mod num_samples_per_file ds * context ds
           else item mod num_samples_per_file ds)).
Proof.
  intros Hn. unfold locate, modulo, floordiv.
  destruct (Z.eqb_spec (num_samples_per_file ds) 0); [contradiction | reflexivity].
Qed.

(** X5.  Two different valid indices differ in their file or in their
    first column: no window is returned twice. *)
Theorem locate_injective (ds : t num A) (i j : Z) :
  shaped ds -> 0 <= context ds ->
  0 <= i < __len__ ds -> 0 <= j < __len__ ds ->
  i <> j -> locate ds i <> locate ds j.
Proof.
  intros Hs Hc Hi Hj Hne E. apply Hne.
  destruct (locate_valid ds i Hs Hc Hi) as (Hli & Hn & Hoi & _).
  destruct (locate_valid ds j Hs Hc Hj) as (Hlj & _ & Hoj & _).
  rewrite Hli, Hlj in E. injection E as Ek Es.
  set (n := num_samples_per_file ds) in *.
  assert (Ho : i mod n = j mod n).
  { rewrite Ek in Es. destruct (hop_all ds) eqn:Hh; [|lia].
    destruct (shaped_hop_context ds Hs Hh) as [Hc0 _]. nia. }
  rewrite (Z.div_mod i n), (Z.div_mod j n) by lia. rewrite Ek, Ho. reflexivity.
Qed.

(** X6.  The index after a valid one is the next window of the same file,
    [context] columns further when [hop_all] is on and one column further
    otherwise; after the last window of a file comes the first column of the
    next file. *)
Theorem next_window (ds : t num A) (item : Z) :
  shaped ds -> 0 <= context ds -> 0 <= item < __len__ ds ->
  exists k start,
    locate ds item = Ok (k, start) /\
    (item mod num_samples_per_file ds < num_samples_per_file ds - 1 ->
     locate ds (item + 1) = Ok (k, start + (if hop_all ds then context ds else 1))) /\
    (item mod num_samples_per_file ds = num_samples_per_file ds - 1 ->
     locate ds (item + 1) = Ok (k + 1, (k + 1) * file_length ds)).
Proof.
  intros Hs Hc Hi.
  destruct (locate_valid ds item Hs Hc Hi) as (Hloc & Hn & Ho & _).
  set (n := num_samples_per_file ds) in *.
  eexists _, _. split; [exact Hloc|].
  pose proof (Z.div_mod item n ltac:(lia)) as Hdm.
  split; intros Hlast; rewrite locate_Ok by (fold n; lia); fold n.
  - assert (Hq : (item + 1) / n = item / n).
    { symmetry. apply (Z.div_unique (item + 1) n (item / n) (item mod n + 1)); lia. }
    assert (Hr : (item + 1) mod n = item mod n + 1).
    { symmetry. apply (Z.mod_unique (item + 1) n (item / n) (item mod n + 1)); lia. }
    rewrite Hq, Hr. do 2 f_equal. destruct (hop_all ds); lia.
  - assert (Hq : (item + 1) / n = item / n + 1).
    { symmetry. apply (Z.div_unique (item + 1) n (item / n + 1) 0); lia. }
    assert (Hr : (item + 1) mod n = 0).
    { symmetry. apply (Z.mod_unique (item + 1) n (item / n + 1) 0); lia. }
    rewrite Hq, Hr. do 2 f_equal. destruct (hop_all ds); lia.
Qed.

(** X7.  The last window of a file ends with the file when the windows
    slide; with [hop_all] it ends [file_length % context] columns before the
    end: these columns of every file are in no window. *)
Theorem last_window_end (ds : t num A) (item : Z) :
  shaped ds -> 0 <= context ds -> 0 <= item < __len__ ds ->
  item mod num_samples_per_file ds = num_samples_per_file ds - 1 ->
  exists k start,
    locate ds item = Ok (k, start) /\
    start + context ds
    = (k + 1) * file_length ds
      - (if hop_all ds then file_length ds mod context ds else 0).
Proof.
  intros Hs Hc Hi Hlast.
  destruct (locate_valid ds item Hs Hc Hi) as (Hloc & Hn & Ho & _).
  eexists _, _. split; [exact Hloc|]. rewrite Hlast.
  destruct (hop_all ds) eqn:Hh.
  - destruct (shaped_hop_context ds Hs Hh) as [Hc0 Hdiv].
    pose proof (Z.div_mod (file_length ds) (context ds) Hc0). rewrite Hdiv. nia.
  - rewrite (shaped_slide ds Hs Hh). lia.
Qed.

(** X8.  An index at or beyond the length of the data set is an
    [IndexError]. *)
Theorem getitem_out_of_range (ds : t num A) (w : world A) (item : Z) :
  length (meta_data ds) = length (files ds) ->
  0 < num_samples_per_file ds ->
  __len__ ds <= item ->
  __getitem__ ds item w = Raise IndexError.
Proof.
  intros Hlen Hn Hi. unfold __getitem__.
  rewrite (M_bind_run _ _ w _ w (lift_run _ _ _ (locate_Ok ds item ltac:(lia)))).
  cbn [fst snd].
  assert (Hk : Z.of_nat (length (files ds)) <= item / num_samples_per_file ds).
  { apply Z.div_le_lower_bound; [lia|]. unfold __len__ in Hi. lia. }
  assert (Hidx : Py.index (meta_data ds) (item / num_samples_per_file ds) = None).
  { unfold Py.index. rewrite Hlen.
    destruct (Z.ltb_spec (item / num_samples_per_file ds) (Z.of_nat (length (files ds))));
      [lia|]. rewrite andb_false_r.
    destruct (Z.ltb_spec (item / num_samples_per_file ds) 0); [lia|].
    rewrite andb_false_r. reflexivity. }
  unfold mbind, M_bind, lift. rewrite Hidx. reflexivity.
Qed.

Lemma slice_negative {X : Type} (lo hi : Z) (l : list X) :
  - Z.of_nat (length l) <= lo -> lo <= hi -> hi < 0 ->
  Py.slice lo hi l = Py.slice (lo + Z.of_nat (length l)) (hi + Z.of_nat (length l)) l.
Proof.
  intros H1 H2 H3. unfold Py.slice, Py.clamp.
  destruct (Z.ltb_spec lo 0); [|lia]. destruct (Z.ltb_spec hi 0); [|lia].
  destruct (Z.ltb_spec (lo + Z.of_nat (length l)) 0); [lia|].
  destruct (Z.ltb_spec (hi + Z.of_nat (length l)) 0); [lia|].
  f_equal; [|f_equal]; lia.
Qed.

Lemma getitem_same (ds : t num A) (w : world A) (i j k1 k2 s1 s2 : Z) :
  locate ds i = Ok (k1, s1) -> locate ds j = Ok (k2, s2) ->
  Py.index (meta_data ds) k1 = Py.index (meta_data ds) k2 ->
  Np.columns s1 (s1 + context ds) (data ds) = Np.columns s2 (s2 + context ds) (data ds) ->
  __getitem__ ds i w = __getitem__ ds j w.
Proof.
  intros Hi Hj Hk Hc. unfold __getitem__.
  rewrite (M_bind_run _ _ w _ w (lift_run _ _ _ Hi)).
  rewrite (M_bind_run _ _ w _ w (lift_run _ _ _ Hj)).
  cbn [fst snd]. rewrite Hk, Hc. reflexivity.
Qed.

(** X9.  For a data set whose feature matrix has [file_length] columns
    for every file, with one dictionary for every file and a [context] that
    is not negative, a negative index counts from the end, as in Python, as
    long as its window does not end with the last column of the feature
    matrix. *)
Theorem getitem_negative_index (ds : t num A) (w : world A) (item : Z) :
  shaped ds -> length (meta_data ds) = length (files ds) -> 0 <= context ds ->
  - __len__ ds <= item < 0 ->
  (forall k start,
      locate ds (item + __len__ ds) = Ok (k, start) ->
      start + context ds < Np.shape_last (data ds)) ->
  __getitem__ ds item w = __getitem__ ds (item + __len__ ds) w.
Proof.
  intros Hs Hlen Hc Hi Hend.
  assert (Hi' : 0 <= item + __len__ ds < __len__ ds) by lia.
  destruct (locate_valid ds _ Hs Hc Hi') as (Hloc & Hn & Ho & Hk & Hlo & Hhi & Hw).
  specialize (Hend _ _ Hloc).
  set (n := num_samples_per_file ds) in *.
  set (F := Z.of_nat (length (files ds))) in *.
  assert (HL : __len__ ds = F * n) by reflexivity.
  assert (Hq : (item + __len__ ds) / n = item / n + F).
  { rewrite HL. apply Z.div_add. lia. }
  assert (Hr : (item + __len__ ds) mod n = item mod n).
  { rewrite HL. apply Z.mod_add. lia. }
  rewrite Hq, Hr in *.
  destruct Hs as [Hshape _]. fold F in Hshape.
  assert (Hfl : 0 <= file_length ds) by (unfold Np.shape_last in Hshape; nia).
  apply (getitem_same ds w _ _ _ _ _ _ (locate_Ok ds item ltac:(fold n; lia)) Hloc).
  - fold n. unfold Py.index. rewrite Hlen. fold F.
    destruct (Z.leb_spec 0 (item / n)); [lia|]. cbn [andb].
    destruct (Z.leb_spec (- F) (item / n)); [|lia].
    destruct (Z.ltb_spec (item / n) 0); [|lia]. cbn [andb].
    destruct (Z.leb_spec 0 (item / n + F)); [|lia].
    destruct (Z.ltb_spec (item / n + F) F); [|lia]. reflexivity.
  - fold n. unfold Np.columns, Np.shape_last in *.
    rewrite slice_negative by nia. f_equal; nia.
Qed.

(** X10.  With sliding windows the index -1 does not give the last window:
    its slice runs from [-context] to 0, which is empty. *)
Theorem getitem_minus_one_is_empty (ds : t num A) (w : world A) :
  shaped ds -> stored ds w -> hop_all ds = false ->
  0 < context ds -> 0 < __len__ ds ->
  exists l w' md,
    __getitem__ ds (-1) w = Ok (l, w') /\
    heap w' !! l = Some md /\
    md !! "observations" = Some (VArray [[]]).
Proof.
  intros Hs [Hlen Hheap] Hh Hc Hpos.
  assert (Hi : 0 <= 0 < __len__ ds) by lia.
  destruct (locate_valid ds 0 Hs ltac:(lia) Hi) as (_ & Hn & _).
  pose proof (shaped_slide ds Hs Hh) as Hslide.
  set (n := num_samples_per_file ds) in *.
  assert (HF : 0 < Z.of_nat (length (files ds))) by (unfold __len__ in Hpos; nia).
  assert (Hq : -1 / n = -1).
  { symmetry. apply (Z.div_unique (-1) n (-1) (n - 1)); lia. }
  assert (Hr : -1 mod n = n - 1).
  { symmetry. apply (Z.mod_unique (-1) n (-1) (n - 1)); lia. }
  pose proof (locate_Ok ds (-1) ltac:(fold n; lia)) as Hloc. fold n in Hloc.
  rewrite Hq, Hr, Hh in Hloc.
  destruct (lookup_lt_is_Some_2 (meta_data ds) (length (files ds) - 1)) as [st Hst]; [lia|].
  assert (Hmd : is_Some (heap w !! st)).
  { rewrite Forall_forall in Hheap. apply Hheap, list_elem_of_lookup. eauto. }
  destruct Hmd as [md Hmd].
  assert (Hidx : Py.index (meta_data ds) (-1) = Some st).
  { unfold Py.index. rewrite Hlen. cbn [Z.leb Z.compare andb].
    destruct (Z.leb_spec (- Z.of_nat (length (files ds))) (-1)); [|lia]. cbn.
    rewrite <- Hst. f_equal. lia. }
  eexists _, _, _. split; [apply (getitem_run ds (-1) w _ _ st md Hloc Hidx Hmd)|].
  cbn [heap]. split.
  { rewrite lookup_app_r by lia. rewrite Nat.sub_diag. reflexivity. }
  rewrite lookup_insert_eq. do 3 f_equal.
  unfold Np.columns, Py.slice, Py.clamp.
  replace (-1 * file_length ds + (n - 1) + context ds) with 0 by lia.
  cbn [Z.ltb Z.compare]. rewrite Z.min_l by lia.
  match goal with
  | |- take (Z.to_nat (0 - ?lo)) _ = _ =>
      assert (Hlo : 0 <= lo) by (destruct (Z.ltb_spec (-1 * file_length ds + (n - 1)) 0); lia);
      replace (Z.to_nat (0 - lo)) with 0%nat by lia
  end.
  reflexivity.
Qed.

(** X11.  The constructor accepts a [context] that no file can hold.  With
    sliding windows and [context = file_length + 1] the data set has length
    0 and every index is a [ZeroDivisionError]; with a longer context
    [__len__] is negative, and [len] raises [ValueError]. *)
Theorem context_longer_than_file (a : Args.t num) (w w' : world A) (ds : t num A) :
  init a w = Ok (ds, w') -> hop_all ds = false ->
  (context ds = file_length ds + 1 ->
   builtin_len (__len__ ds) = Ok 0 /\
   forall item w0, __getitem__ ds item w0 = Raise ZeroDivisionError) /\
  (file_length ds + 1 < context ds ->
   builtin_len (__len__ ds) = Raise ValueError).
Proof.
  intros H Hh. apply init_inv in H as (w1 & _ & Hf & _ & Hn & _).
  unfold samples_per_file in Hn. rewrite Hh in Hn. injection Hn as Hn.
  assert (HF : 0 < Z.of_nat (length (files ds))).
  { unfold select_files in Hf. apply bind_Ok in Hf as (? & _ & Hf).
    apply bind_Ok in Hf as (? & _ & Hf). apply bind_Ok in Hf as (fs & _ & Hf).
    apply bind_Ok in Hf as (? & Hne & Hf). injection Hf as <-.
    apply assert_Ok, bool_decide_eq_true in Hne. unfold Str.sorted.
    rewrite (Permutation_length (merge_sort_Permutation _ fs)). lia. }
  split.
  - intros Hc. assert (Hz : num_samples_per_file ds = 0) by lia. split.
    + unfold __len__. rewrite Hz, Z.mul_0_r. reflexivity.
    + intros item w0. unfold __getitem__, locate, modulo. rewrite Hz. reflexivity.
  - intros Hc. unfold builtin_len, __len__.
    destruct (Z.ltb_spec (Z.of_nat (length (files ds)) * num_samples_per_file ds) 0);
      [reflexivity | nia].
Qed.

End WindowEdges.

(** ** The cache: what is written, what is trusted, what is shared *)

Section CacheEdges.
Context {num audio A : Type}.
Context {number : PyNumber num} {librosa : Librosa num audio A}.
Context {numpy : Numpy A} {tables : Tables} {recordings : Recordings}.
Import MachineDataSet.
#[local] Arguments String.append !_ _ / : simpl nomatch.

(** X12.  A construction writes at most one file of the cache, its own,
    and only when there was none at its path: every array that was in the
    cache is still there, unchanged. *)
Theorem init_writes_own_file_only (a : Args.t num) (w w' : world A) (ds : t num A) :
  init a w = Ok (ds, w') ->
  ((npy w !! cache_file_path ds = Some (data ds) /\ npy w' = npy w) \/
   (npy w !! cache_file_path ds = None /\
    npy w' = <[cache_file_path ds := data ds]> (npy w))) /\
  (forall p d, npy w !! p = Some d -> npy w' !! p = Some d).
Proof.
  intros H. split; [|exact (init_keeps_cache a w w' ds H)].
  apply init_inv in H as (w1 & _ & _ & _ & _ & Hmd & Hd).
  apply load_meta_data_Ok in Hmd as (_ & _ & _ & _ & Hnpy).
  apply load_data_Ok in Hd as (_ & _ & [[Hhit ->]|(Hmiss & _ & ->)]);
    rewrite Hnpy in *; auto.
Qed.

(** X13.  An array that is found at the cache path is returned as it is:
    its width is not compared with the files that are there now, and the
    cache is left alone. *)
Theorem init_trusts_cache (a : Args.t num) (w w' : world A) (ds : t num A)
    (d : Np.ndarray A) :
  init a w = Ok (ds, w') ->
  npy w !! cache_file_path ds = Some d ->
  data ds = d /\ npy w' = npy w.
Proof.
  intros H Hd. apply init_inv in H as (w1 & _ & _ & _ & _ & Hmd & Hload).
  apply load_meta_data_Ok in Hmd as (_ & _ & _ & _ & Hnpy).
  apply load_data_Ok in Hload as (_ & _ & [[Hhit ->]|(Hmiss & _ & _)]);
    rewrite Hnpy in *.
  - rewrite Hd in Hhit. injection Hhit as ->. auto.
  - rewrite Hd in Hmiss. discriminate.
Qed.

Lemma concat_block {X : Type} (n : nat) (blocks : list (list X)) :
  Forall (fun b => length b = n) blocks ->
  forall k b, blocks !! k = Some b -> take n (drop (k * n) (concat blocks)) = b.
Proof.
  induction 1 as [|b0 blocks Hb0 _ IH]; intros k b Hk; [discriminate|].
  destruct k as [|k]; cbn [concat] in *.
  - injection Hk as ->. rewrite Nat.mul_0_l, drop_0. rewrite take_app_length'; auto.
  - rewrite drop_app_ge by lia.
    replace (S k * n - length b0)%nat with (k * n)%nat by lia. apply IH, Hk.
Qed.

(** X14.  After a cache miss, the columns [k * file_length] to
    [(k + 1) * file_length] of the feature matrix are the spectrogram of the
    [k]-th file, fitted to [file_length] columns. *)
Theorem block_of_file (a : Args.t num) (w w' : world A) (ds : t num A)
    (k : nat) (f : string) :
  init a w = Ok (ds, w') ->
  npy w !! cache_file_path ds = None ->
  files ds !! k = Some f ->
  exists x,
    __load_preprocess_file__ ds f = Ok x /\
    Np.columns (Z.of_nat k * file_length ds) ((Z.of_nat k + 1) * file_length ds) (data ds)
    = fit_length (file_length ds) x /\
    Np.shape_last (fit_length (file_length ds) x) = file_length ds.
Proof.
  intros H Hmiss Hf. pose proof (init_shaped a w w' ds H Hmiss) as ([Hw _] & blocks & Hb & Hd).
  apply init_inv in H as (_ & _ & _ & Hfl & _). apply first_file_length_nonneg in Hfl.
  destruct (Forall2_lookup_l _ _ _ _ _ Hb Hf) as (b & Hbk & x & Hx & -> & Hbw).
  exists x. split; [exact Hx|]. split; [|exact Hbw].
  assert (HF : (k < length (files ds))%nat) by (eapply lookup_lt_Some, Hf).
  unfold Np.columns. rewrite slice_inside by (unfold Np.shape_last in Hw; nia).
  replace (Z.to_nat ((Z.of_nat k + 1) * file_length ds - Z.of_nat k * file_length ds))
    with (Z.to_nat (file_length ds)) by (f_equal; lia).
  replace (Z.to_nat (Z.of_nat k * file_length ds))
    with (k * Z.to_nat (file_length ds))%nat by nia.
  rewrite Hd. apply concat_block; [|exact Hbk].
  clear -Hb Hfl. induction Hb as [|f b fs bs (x & _ & _ & Hw) _ IH]; constructor; [|exact IH].
  unfold Np.shape_last in Hw. lia.
Qed.

(** X15.  [context] and [hop_all] are not part of the cache path: a
    construction that differs from an earlier one in these two arguments only
    finds the array of the earlier one and computes nothing. *)
Theorem window_arguments_share_cache (a1 a2 : Args.t num) (w w1 w2 : world A)
    (ds1 ds2 : t num A) :
  Args.machine_type a2 = Args.machine_type a1 ->
  Args.machine_id a2 = Args.machine_id a1 ->
  Args.data_root a2 = Args.data_root a1 ->
  Args.mode a2 = Args.mode a1 ->
  Args.num_mel a2 = Args.num_mel a1 ->
  Args.n_fft a2 = Args.n_fft a1 ->
  Args.hop_size a2 = Args.hop_size a1 ->
  Args.power a2 = Args.power a1 ->
  Args.normalize a2 = Args.normalize a1 ->
  Args.fmin a2 = Args.fmin a1 ->
  init a1 w = Ok (ds1, w1) ->
  init a2 w1 = Ok (ds2, w2) ->
  cache_file_path ds2 = cache_file_path ds1 /\
  data ds2 = data ds1 /\ npy w2 = npy w1.
Proof.
  intros Et Ei Er Em En Ef Eh Ep Eno Efm H1 H2.
  pose proof (init_cached _ _ _ _ H1) as Hc.
  assert (Hpath : cache_file_path ds2 = cache_file_path ds1).
  { apply init_inv in H1 as (_ & Ha1 & _). apply init_inv in H2 as (_ & Ha2 & _).
    apply init_attrs_inv in Ha1
      as (_ & Hn1 & A1 & A2 & A3 & A4 & A5 & A6 & A7 & _ & A9 & A10 & _).
    apply init_attrs_inv in Ha2
      as (_ & Hn2 & B1 & B2 & B3 & B4 & B5 & B6 & B7 & _ & B9 & B10 & _).
    rewrite Et, Hn1 in Hn2. injection Hn2 as Hn2.
    unfold cache_file_path, cache_file_name.
    rewrite A1, A2, A3, A4, A5, A6, A7, A9, A10, B1, B2, B3, B4, B5, B6, B7, B9, B10.
    rewrite <- Hn2, Ei, Er, Em, En, Ef, Eh, Ep, Eno, Efm. reflexivity. }
  split; [exact Hpath|]. rewrite <- Hpath in Hc.
  apply init_inv in H2 as (w0 & _ & _ & _ & _ & Hmd & Hload).
  apply load_meta_data_Ok in Hmd as (_ & _ & _ & _ & Hnpy).
  apply load_data_Ok in Hload as (_ & _ & [[Hhit ->]|(Hmiss & _ & _)]);
    rewrite Hnpy in *.
  - rewrite Hc in Hhit. injection Hhit as ->. auto.
  - rewrite Hc in Hmiss. discriminate.
Qed.

(** The hypotheses of the cache key, once more. *)
Hypothesis num_str_plain :
  forall x : num, Str.has "_" (num_str x) = false /\ Str.has "/" (num_str x) = false.
Hypothesis machine_type_plain :
  forall i name, INVERSE_CLASS_MAP !! i = Some name -> Str.has "/" name = false.

(** X16.  The training set and the validation set of a machine, and the
    sets of two machine ids or of two machine types, never have the same
    cache path. *)
Theorem sets_have_their_own_cache (a1 a2 : Args.t num) (s1 s2 : attrs num) :
  init_attrs a1 = Ok s1 -> init_attrs a2 = Ok s2 ->
  mode s1 <> mode s2 \/ machine_id s1 <> machine_id s2
  \/ machine_type s1 <> machine_type s2 ->
  cache_file_path s1 <> cache_file_path s2.
Proof.
  intros H1 H2 Hdiff Hpath.
  apply init_attrs_inv in H1 as (Hm1 & Hi1 & _ & _ & _ & _ & _ & Hmode1 & _).
  apply init_attrs_inv in H2 as (Hm2 & Hi2 & _ & _ & _ & _ & _ & Hmode2 & _).
  rewrite <- Hmode1 in Hm1. rewrite <- Hmode2 in Hm2.
  apply join_inj in Hpath as [_ Hname];
    [|eapply (cache_file_name_plain num_str_plain machine_type_plain); eassumption..].
  assert (E : mode s1 = mode s2 /\ machine_type s1 = machine_type s2
              /\ machine_id s1 = machine_id s2).
  { clear Hdiff. revert Hname. unfold cache_file_name. cbn. intros H.
    apply app_sep_inj_l in H as [_ H]; try (apply of_int_plain; auto).
    apply app_sep_inj_l in H as [_ H]; try (apply of_int_plain; auto).
    apply app_sep_inj_l in H as [_ H]; try (apply of_int_plain; auto).
    apply app_sep_inj_l in H as [_ H]; try apply num_str_plain.
    apply app_sep_inj_l in H as [E5 H]; try (apply mode_plain; auto).
    apply (f_equal (Str.split "_")) in H. rewrite !split_app_sep in H.
    rewrite !(split_plain "_" (Str.of_int _)) in H by (apply of_int_plain; auto).
    rewrite !(split_plain "_" (Str.of_bool _)) in H by (apply of_bool_chars; auto).
    rewrite !(split_plain "_" (num_str _ +:+ ".npy")) in H
      by (rewrite has_app, (proj1 (num_str_plain _)); reflexivity).
    apply app_inj_2 in H as [E6 H]; [|reflexivity].
    injection H as E7 _ _. apply of_int_inj in E7. apply split_inj in E6. auto. }
  destruct E as (Em & Et & Eid). destruct Hdiff as [Hd|[Hd|Hd]]; contradiction.
Qed.

End CacheEdges.

(** ** The meta data *)

Section MetaDataEdges.
Context {num audio A : Type}.
Context {number : PyNumber num} {librosa : Librosa num audio A}.
Context {numpy : Numpy A} {tables : Tables} {recordings : Recordings}.
Import MachineDataSet.
#[local] Arguments String.append !_ _ / : simpl nomatch.

Lemma int_char_no_space (a : ascii) : Str.int_char a = true -> Str.is_space a = false.
Proof.
  destruct a as [[] [] [] [] [] [] [] []]; vm_compute; intros H; congruence.
Qed.

(** There is nothing to strip from what [str] prints for an [int]. *)
Lemma strip_int_chars (s : string) : Str.all Str.int_char s = true -> Str.strip s = s.
Proof.
  intros H. unfold Str.strip.
  assert (Hr : Str.rstrip_space s = s).
  { induction s as [|a s IH]; [reflexivity|]. cbn [Str.all] in H.
    apply andb_true_iff in H as [Ha Hs]. cbn [Str.rstrip_space]. rewrite (IH Hs).
    rewrite (int_char_no_space a Ha). destruct s; reflexivity. }
  rewrite Hr. destruct s as [|a s]; [reflexivity|]. cbn [Str.all] in H.
  apply andb_true_iff in H as [Ha _]. cbn [Str.lstrip_space].
  rewrite (int_char_no_space a Ha). reflexivity.
Qed.

Lemma to_int_of_int (z : Z) : Str.to_int (Str.of_int z) = Some z.
Proof.
  unfold Str.to_int. rewrite (strip_int_chars _ (of_int_chars z)).
  assert (H : NilZero.int_of_string (Str.of_int z) = Some (Z.to_int z)).
  { unfold Str.of_int. apply NilZero.isi.
    - destruct z as [|p|p]; cbn; try discriminate. intros E. injection E as E.
      exact (DecimalPos.Unsigned.to_uint_nonnil p E).
    - destruct z as [|p|p]; cbn; try discriminate. intros E. injection E as E.
      exact (DecimalPos.Unsigned.to_uint_nonnil p E). }
  pose proof (of_int_chars z) as Hc.
  unfold Str.int_literal. destruct (Str.of_int z) as [|c s] eqn:E.
  - cbn in H. discriminate.
  - cbn in Hc. apply andb_true_iff in Hc as [Hc _].
    assert (Hplus : c <> "+"%char) by (intros ->; discriminate).
    replace (match c with
             | "+"%char =>
                 match s with
                 | EmptyString => option_map Z.of_int (NilZero.int_of_string (String c s))
                 | String a0 s' =>
                     if Ascii.eqb a0 "-" then None
                     else option_map Z.of_int (NilZero.int_of_string (String a0 s'))
                 end
             | _ => option_map Z.of_int (NilZero.int_of_string (String c s))
             end)
      with (option_map Z.of_int (NilZero.int_of_string (String c s))).
    + rewrite H. cbn. rewrite DecimalZ.of_to. reflexivity.
    + destruct c as [[] [] [] [] [] [] [] []]; try reflexivity. contradiction.
Qed.

(** The id that is formatted into the pattern is read back by [int]. *)
Lemma to_int_format_02d (z : Z) : Str.to_int (Str.format_02d z) = Some z.
Proof.
  unfold Str.format_02d.
  destruct (Z.leb_spec 0 z), (Z.ltb_spec z 10); cbn [andb]; try apply to_int_of_int.
  assert (Hz : z = 0 \/ z = 1 \/ z = 2 \/ z = 3 \/ z = 4 \/ z = 5 \/ z = 6 \/ z = 7
               \/ z = 8 \/ z = 9) by lia.
  repeat destruct Hz as [->|Hz]; try reflexivity. subst z. reflexivity.
Qed.

Lemma targets_length (s : attrs num) (fields : list string) :
  length fields <> 3%nat -> length fields <> 4%nat ->
  targets s fields = Raise AttributeError.
Proof.
  destruct fields as [|f0 [|f1 [|f2 [|f3 [|f4 fs]]]]]; cbn; intros H3 H4;
    try reflexivity; contradiction.
Qed.

(** X17.  The name of a recording that matches the pattern of the machine
    passes the checks of the machine id at lines 260 and 263: from such a
    name the label is computed, or the name is refused with
    [AttributeError], and nothing else happens. *)
Theorem matched_name_passes_id_check (s : attrs num) (name : string) :
  Fnmatch.matches (Fnmatch.parse (file_pattern (machine_id s))) name = true ->
  (exists y, targets s (Str.split "_" name) = Ok y) \/
  targets s (Str.split "_" name) = Raise AttributeError.
Proof.
  intros Hm. apply file_pattern_matches_inv in Hm as (a & b & ->).
  pose proof (format_02d_chars (machine_id s)) as Hc.
  rewrite <- app_assoc_str, !split_app_sep.
  rewrite (split_plain _ (Str.format_02d (machine_id s)))
    by (apply (all_has _ _ _ Hc); reflexivity).
  pose proof (split_nonempty "_" (a +:+ "id")) as Ha.
  pose proof (split_nonempty "_" (b +:+ ".wav")) as Hb.
  pose proof (to_int_format_02d (machine_id s)) as Hid.
  destruct (Str.split "_" (a +:+ "id")) as [|x0 [|x1 [|x2 xs]]] eqn:Ex; [contradiction| | |].
  - apply split_single in Ex as ->.
    destruct (Str.split "_" (b +:+ ".wav")) as [|y0 [|y1 [|y2 ys]]]; [contradiction| | |].
    + left. cbn [app targets]. rewrite Hid. cbn. rewrite Z.eqb_refl. eauto.
    + assert (Hend : Str.endswith "d" (a +:+ "id") = true)
        by (rewrite endswith_app by discriminate; reflexivity).
      right. cbn [app targets].
      destruct (String.eqb_spec (a +:+ "id") "normal") as [E|_];
        [rewrite E in Hend; discriminate|].
      destruct (String.eqb_spec (a +:+ "id") "anomaly") as [E|_];
        [rewrite E in Hend; discriminate|]. reflexivity.
    + right. apply targets_length; rewrite !length_app; cbn; lia.
  - destruct (Str.split "_" (b +:+ ".wav")) as [|y0 [|y1 ys]]; [contradiction| |].
    + cbn [app targets]. rewrite Hid. cbn [or_raise].
      destruct (String.eqb x0 "normal"); [left; cbn; rewrite Z.eqb_refl; eauto|].
      destruct (String.eqb x0 "anomaly"); [left; cbn; rewrite Z.eqb_refl; eauto|].
      right. reflexivity.
    + right. apply targets_length; rewrite !length_app; cbn; lia.
  - right. apply targets_length; rewrite !length_app; cbn;
      destruct (Str.split "_" (b +:+ ".wav")); cbn; try contradiction; lia.
Qed.

(** X18.  The dictionary of a file has four entries: the label, which is
    0, 1 or -1; the number of the machine type, which [INVERSE_CLASS_MAP]
    takes back to the name of the data set; the machine id of the data set;
    and the file id.  It has no ['observations'] yet. *)
Theorem meta_data_entries (s : attrs num) (file_path : string) (md : dict A) :
  meta_data_dict s file_path = Ok md ->
  (exists y, md !! "targets" = Some (VInt y) /\ (y = 0 \/ y = 1 \/ y = -1)) /\
  (exists t, md !! "machine_types" = Some (VInt t) /\
             INVERSE_CLASS_MAP !! t = Some (machine_type s)) /\
  md !! "machine_ids" = Some (VInt (machine_id s)) /\
  md !! "file_ids" = Some (VStr (file_id file_path)) /\
  dom md = {[ "targets"; "machine_types"; "machine_ids"; "file_ids" ]} /\
  md !! "observations" = None.
Proof.
  unfold meta_data_dict. intros H.
  apply bind_Ok in H as (t & _ & H). apply bind_Ok in H as (name & Hname & H).
  apply bind_Ok in H as (u & Hu & H). apply bind_Ok in H as (y & Hy & H).
  injection H as <-. apply or_raise_Ok in Hname. apply assert_Ok in Hu.
  apply String.eqb_eq in Hu as <-.
  split; [|split; [|split; [|split; [|split]]]].
  - exists y. split; [apply lookup_insert_eq|].
    apply targets_Ok in Hy
      as [(? & ? & ? & ? & _ & _ & [[_ ->]|[_ ->]])|(? & ? & ? & _ & _ & ->)]; auto.
  - exists t. split; [|exact Hname].
    rewrite lookup_insert_ne by discriminate. apply lookup_insert_eq.
  - rewrite !lookup_insert_ne by discriminate. apply lookup_insert_eq.
  - rewrite !lookup_insert_ne by discriminate. apply lookup_insert_eq.
  - rewrite !dom_insert_L, dom_empty_L. set_solver.
  - rewrite !lookup_insert_ne by discriminate. apply lookup_empty.
Qed.

(** X19.  The dictionaries of a data set are those of its files, in the
    order of the files. *)
Theorem meta_data_follows_files (a : Args.t num) (w w' : world A) (ds : t num A)
    (k : nat) (f : string) :
  init a w = Ok (ds, w') ->
  files ds !! k = Some f ->
  exists l md,
    meta_data ds !! k = Some l /\ heap w' !! l = Some md /\
    meta_data_dict ds f = Ok md.
Proof.
  intros H Hf. apply init_inv in H as (w1 & _ & _ & _ & _ & Hmd & Hd).
  apply load_meta_data_Ok in Hmd as (dicts & Hds & Hheap & Hlocs & _).
  apply load_data_Ok in Hd as (Hh & _).
  destruct (Forall2_lookup_l _ _ _ _ _ Hds Hf) as (md & Hk & Hdict).
  exists (length (heap w) + k)%nat, md. split; [|split; [|exact Hdict]].
  - rewrite Hlocs. apply lookup_seq. split; [reflexivity|]. eapply lookup_lt_Some, Hf.
  - rewrite Hh, Hheap, lookup_app_r by lia.
    replace (length (heap w) + k - length (heap w))%nat with k by lia. exact Hk.
Qed.

End MetaDataEdges.

(** ** [MCMDataSet]: the two branches of its constructor *)

Section AggregateEdges.
Context {num audio A : Type}.
Context {number : PyNumber num} {librosa : Librosa num audio A}.
Context {numpy : Numpy A} {tables : Tables} {recordings : Recordings}.
Import MachineDataSet.

(** X20.  For a machine id other than -1 the data set holds the training
    set and the validation set of that machine, built one after the other,
    and the mean and the std are those of the feature matrix of the training
    set; the validation set slides whatever [hop_all] is. *)
Theorem mcm_single_machine (a : MCMDataSet.Args.t num) (w w' : world A)
    (mcm : MCMDataSet.t num A) :
  MCMDataSet.init a w = Ok (mcm, w') ->
  MCMDataSet.Args.machine_id a <> -1 ->
  exists ts vs w1,
    init (MCMDataSet.kwargs a (MCMDataSet.Args.machine_id a) "training") w = Ok (ts, w1) /\
    init (MCMDataSet.kwargs a (MCMDataSet.Args.machine_id a) "validation") w1 = Ok (vs, w') /\
    MCMDataSet.training_data_set mcm = MCMDataSet.Machine ts /\
    MCMDataSet.validation_data_set mcm = MCMDataSet.Machine vs /\
    MCMDataSet.mean_std mcm = (mean_axis1 (data ts), std_axis1 (data ts)) /\
    hop_all vs = false.
Proof.
  intros H Hid. unfold MCMDataSet.init in H.
  apply M_bind_Ok in H as ([[[tr va] m] sd] & w1 & Hsets & H).
  apply M_ret_Ok in H as [-> ->].
  destruct (Z.eqb_spec (MCMDataSet.Args.machine_id a) (-1)) as [|_]; [contradiction|].
  apply M_bind_Ok in Hsets as (ts & w0 & Hts & Hsets).
  apply M_bind_Ok in Hsets as (vs & w2 & Hvs & Hsets).
  apply M_ret_Ok in Hsets as [Hsets ->]. injection Hsets as -> -> -> ->.
  exists ts, vs, w0. repeat split; try assumption.
  apply init_inv in Hvs as (_ & Hvs & _).
  apply init_attrs_inv in Hvs as (_ & _ & _ & _ & _ & _ & _ & _ & _ & _ & _ & _ & Hhop).
  exact Hhop.
Qed.

(** X21.  For the machine id -1, a machine type that [ALL_ID_MAP] does not
    know is a [KeyError], and an empty list of ids is the [ValueError] of
    [np.concatenate]. *)
Theorem mcm_no_ids (a : MCMDataSet.Args.t num) (w : world A) :
  MCMDataSet.Args.machine_id a = -1 ->
  (ALL_ID_MAP !! MCMDataSet.Args.machine_type a = None ->
   MCMDataSet.init a w = Raise KeyError) /\
  (ALL_ID_MAP !! MCMDataSet.Args.machine_type a = Some [] ->
   MCMDataSet.init a w = Raise ValueError).
Proof.
  intros Hid. split; intros Hids; unfold MCMDataSet.init; rewrite Hid, Hids; reflexivity.
Qed.

Lemma load_all_members (a : MCMDataSet.Args.t num) (ids : list Z) :
  forall (w w' : world A) trainings validations arrays,
    MCMDataSet.load_all a ids w = Ok ((trainings, validations, arrays), w') ->
    Forall2 (fun id_ (ts : t num A) => machine_id ts = id_ /\ mode ts = "training")
            ids trainings /\
    Forall2 (fun id_ (vs : t num A) =>
               machine_id vs = id_ /\ mode vs = "validation" /\ hop_all vs = false)
            ids validations.
Proof.
  induction ids as [|id_ ids IH]; intros w w' tss vss arrays H.
  - cbn in H. apply M_ret_Ok in H as [H ->]. injection H as -> -> ->.
    split; constructor.
  - cbn [MCMDataSet.load_all] in H.
    apply M_bind_Ok in H as (ts & w1 & Hts & H).
    apply M_bind_Ok in H as (vs & w2 & Hvs & H).
    apply M_bind_Ok in H as ([[tss' vss'] arrays'] & w3 & Hrest & H).
    apply M_ret_Ok in H as [H ->]. cbn in H. injection H as -> -> ->.
    apply IH in Hrest as [Ht Hv].
    apply init_inv in Hts as (_ & Hts & _). apply init_inv in Hvs as (_ & Hvs & _).
    apply init_attrs_inv in Hts as (_ & _ & _ & _ & _ & _ & _ & Hm & _ & _ & Hi & _).
    apply init_attrs_inv in Hvs
      as (_ & _ & _ & _ & _ & _ & _ & Hm' & _ & _ & Hi' & _ & Hhop).
    split; constructor; auto.
Qed.

Lemma check_lens_Ok (datasets : list (t num A)) (u : unit) :
  MCMDataSet.check_lens datasets = Ok u ->
  Forall (fun d : t num A => 0 <= __len__ d) datasets.
Proof.
  induction datasets as [|d ds IH]; cbn [MCMDataSet.check_lens]; [constructor|].
  intros H. apply bind_Ok in H as (n & Hn & H). constructor; [|apply IH, H].
  unfold builtin_len in Hn. destruct (Z.ltb_spec (__len__ d) 0); [discriminate | lia].
Qed.

(** X22.  For the machine id -1 the training set and the validation set
    have one member for every id of [ALL_ID_MAP], in the order of the ids;
    the members of the validation set slide; and no member has a negative
    length. *)
Theorem mcm_members_per_id (a : MCMDataSet.Args.t num) (w w' : world A)
    (mcm : MCMDataSet.t num A) :
  MCMDataSet.init a w = Ok (mcm, w') ->
  MCMDataSet.Args.machine_id a = -1 ->
  exists ids trainings validations,
    ALL_ID_MAP !! MCMDataSet.Args.machine_type a = Some ids /\ ids <> [] /\
    MCMDataSet.training_data_set mcm = MCMDataSet.ConcatDataset trainings /\
    MCMDataSet.validation_data_set mcm = MCMDataSet.ConcatDataset validations /\
    Forall2 (fun id_ (ts : t num A) => machine_id ts = id_ /\ mode ts = "training")
            ids trainings /\
    Forall2 (fun id_ (vs : t num A) =>
               machine_id vs = id_ /\ mode vs = "validation" /\ hop_all vs = false)
            ids validations /\
    Forall (fun d : t num A => 0 <= __len__ d) (trainings ++ validations).
Proof.
  intros H Hid. unfold MCMDataSet.init in H. rewrite Hid in H.
  change (-1 =? -1) with true in H. cbv iota in H.
  apply M_bind_Ok in H as ([[[tr va] m] sd] & w1 & Hsets & H).
  apply M_ret_Ok in H as [-> ->].
  apply M_bind_Ok in Hsets as (ids & w0 & Hids & Hsets). apply lift_Ok in Hids as [Hids ->].
  apply or_raise_Ok in Hids.
  apply M_bind_Ok in Hsets as ([[tss vss] arrays] & w2 & Hload & Hsets).
  apply M_bind_Ok in Hsets as (all & w0 & Hcat & Hsets). apply lift_Ok in Hcat as [Hcat ->].
  apply M_bind_Ok in Hsets as (tset & w0 & Htr & Hsets). apply lift_Ok in Htr as [Htr ->].
  apply M_bind_Ok in Hsets as (vset & w0 & Hva & Hsets). apply lift_Ok in Hva as [Hva ->].
  apply M_ret_Ok in Hsets as [Hsets ->]. injection Hsets as -> -> -> ->.
  cbn [fst snd] in *.
  unfold MCMDataSet.concat_dataset in Htr, Hva.
  apply bind_Ok in Htr as (u & Hne & Htr). apply bind_Ok in Htr as (u' & Hlt & Htr).
  apply bind_Ok in Hva as (v & _ & Hva). apply bind_Ok in Hva as (v' & Hlv & Hva).
  injection Htr as <-. injection Hva as <-.
  destruct (load_all_members a ids _ _ _ _ _ Hload) as [Ht Hv].
  exists ids, tss, vss. split; [exact Hids|]. split.
  { intros ->. apply Forall2_nil_inv_l in Ht as ->.
    apply assert_Ok, bool_decide_eq_true in Hne. cbn in Hne. lia. }
  split; [reflexivity|]. split; [reflexivity|]. split; [exact Ht|]. split; [exact Hv|].
  apply Forall_app. split; eapply check_lens_Ok; eassumption.
Qed.

(** A construction that has gone through goes through again in any world
    that still has its array at its cache path; the object it returns
    differs from the first one in the addresses of its dictionaries only. *)
Lemma init_rerun (a : Args.t num) (w1 w2 w : world A) (ds : t num A) :
  init a w1 = Ok (ds, w2) ->
  npy w !! cache_file_path ds = Some (data ds) ->
  exists md w',
    init a w = Ok ({| self := self ds;
                      files := files ds;
                      file_length := file_length ds;
                      num_samples_per_file := num_samples_per_file ds;
                      meta_data := md;
                      data := data ds |}, w') /\
    npy w' = npy w.
Proof.
  intros H Hcache. apply init_inv in H as (w0 & Ha & Hf & Hl & Hn & Hmd & _).
  apply load_meta_data_Ok in Hmd as (dicts & Hds & _ & _ & _).
  eexists _, _. split.
  - unfold init.
    rewrite (M_bind_run _ _ _ _ _ (lift_run _ _ _ Ha)).
    rewrite (M_bind_run _ _ _ _ _ (lift_run _ _ _ Hf)).
    rewrite (M_bind_run _ _ _ _ _ (lift_run _ _ _ Hl)).
    rewrite (M_bind_run _ _ _ _ _ (lift_run _ _ _ Hn)).
    rewrite (M_bind_run _ _ _ _ _ (load_meta_data_run _ _ _ Hds _)).
    rewrite (M_bind_run _ _ _ (data ds) _
               (load_data_hit ds _ _ {| heap := heap w ++ dicts; npy := npy w |} _ Hcache)).
    reflexivity.
  - reflexivity.
Qed.

Lemma load_all_rerun (a : MCMDataSet.Args.t num) (ids : list Z) :
  forall (w w1 : world A) trainings validations arrays,
    MCMDataSet.load_all a ids w = Ok ((trainings, validations, arrays), w1) ->
    forall w2 : world A,
      (forall p d, npy w1 !! p = Some d -> npy w2 !! p = Some d) ->
      exists trainings' validations' w3,
        MCMDataSet.load_all a ids w2 = Ok ((trainings', validations', arrays), w3) /\
        npy w3 = npy w2 /\
        map __len__ trainings' = map __len__ trainings /\
        map __len__ validations' = map __len__ validations /\
        map data trainings' = map data trainings /\
        map data validations' = map data validations.
Proof.
  induction ids as [|id_ ids IH]; intros w w1 tss vss arrays H w2 Hsub.
  - cbn in H. apply M_ret_Ok in H as [H ->]. injection H as -> -> ->.
    exists [], [], w2. repeat split; reflexivity.
  - cbn [MCMDataSet.load_all] in H.
    apply M_bind_Ok in H as (ts & u1 & Hts & H).
    apply M_bind_Ok in H as (vs & u2 & Hvs & H).
    apply M_bind_Ok in H as ([[tss' vss'] arrays'] & u3 & Hrest & H).
    apply M_ret_Ok in H as [H ->]. cbn in H. injection H as -> -> ->.
    pose proof (load_all_Ok a ids _ _ _ _ _ Hrest) as (_ & Hkeep & _).
    assert (Hct : npy w2 !! cache_file_path ts = Some (data ts)).
    { apply Hsub, Hkeep. eapply init_keeps_cache; [exact Hvs|].
      eapply init_cached, Hts. }
    assert (Hcv : npy w2 !! cache_file_path vs = Some (data vs)).
    { apply Hsub, Hkeep. eapply init_cached, Hvs. }
    destruct (init_rerun _ _ _ w2 ts Hts Hct) as (mdt & v1 & Hts' & Hn1).
    rewrite <- Hn1 in Hcv.
    destruct (init_rerun _ _ _ v1 vs Hvs Hcv) as (mdv & v2 & Hvs' & Hn2).
    destruct (IH _ _ _ _ _ Hrest v2) as (tss2 & vss2 & v3 & Hrest' & Hn3 & Hlt & Hlv & Hdt & Hdv).
    { intros p d Hp. rewrite Hn2, Hn1. apply Hsub, Hp. }
    eexists _, _, _. split.
    { cbn [MCMDataSet.load_all].
      rewrite (M_bind_run _ _ _ _ _ Hts'). rewrite (M_bind_run _ _ _ _ _ Hvs').
      rewrite (M_bind_run _ _ _ _ _ Hrest'). reflexivity. }
    cbn [fst snd map data]. unfold __len__ at 1 3. cbn [files num_samples_per_file].
    fold (__len__ ts). fold (__len__ vs).
    rewrite Hlt, Hlv, Hdt, Hdv. repeat split; try reflexivity.
    rewrite Hn3, Hn2, Hn1. reflexivity.
Qed.

Lemma concat_dataset_same (datasets datasets' : list (t num A)) (set : MCMDataSet.dataset num A) :
  map __len__ datasets' = map __len__ datasets ->
  MCMDataSet.concat_dataset datasets = Ok set ->
  MCMDataSet.concat_dataset datasets' = Ok (MCMDataSet.ConcatDataset datasets').
Proof.
  intros Hlen H. unfold MCMDataSet.concat_dataset in *.
  apply bind_Ok in H as (u & Hne & H). apply bind_Ok in H as (u' & Hcl & _).
  assert (E : length datasets' = length datasets).
  { rewrite <- (length_map __len__ datasets'), Hlen. apply length_map. }
  rewrite E, Hne. cbn [mbind result_bind].
  assert (Hcl' : MCMDataSet.check_lens datasets' = Ok u').
  { clear -Hlen Hcl. revert datasets' Hlen.
    induction datasets as [|d ds IH]; intros [|d' ds'] Hlen; try discriminate.
    - exact Hcl.
    - cbn [map] in Hlen. injection Hlen as Hd Hds.
      cbn [MCMDataSet.check_lens] in *. rewrite Hd.
      apply bind_Ok in Hcl as (n & -> & Hcl). cbn [mbind result_bind].
      apply IH; assumption. }
  rewrite Hcl'. reflexivity.
Qed.

(** X23.  An [MCMDataSet] that has been built can be built again with the
    same arguments: the second construction computes no spectrogram and
    writes no file, it reads every feature matrix from the cache, and its
    mean, its std and the feature matrices of its members are those of the
    first. *)
Theorem mcm_init_twice (a : MCMDataSet.Args.t num) (w w' : world A)
    (mcm : MCMDataSet.t num A) :
  MCMDataSet.init a w = Ok (mcm, w') ->
  exists mcm' w'',
    MCMDataSet.init a w' = Ok (mcm', w'') /\
    npy w'' = npy w' /\
    MCMDataSet.mean_std mcm' = MCMDataSet.mean_std mcm /\
    map data (MCMDataSet.members (MCMDataSet.training_data_set mcm'))
    = map data (MCMDataSet.members (MCMDataSet.training_data_set mcm)) /\
    map data (MCMDataSet.members (MCMDataSet.validation_data_set mcm'))
    = map data (MCMDataSet.members (MCMDataSet.validation_data_set mcm)).
Proof.
  intros H. unfold MCMDataSet.init in H |- *.
  apply M_bind_Ok in H as ([[[tr va] m] sd] & w1 & Hsets & H).
  apply M_ret_Ok in H as [-> ->].
  destruct (MCMDataSet.Args.machine_id a =? -1).
  - apply M_bind_Ok in Hsets as (ids & w0 & Hids & Hsets). apply lift_Ok in Hids as [Hids ->].
    apply M_bind_Ok in Hsets as ([[tss vss] arrays] & w2 & Hload & Hsets).
    apply M_bind_Ok in Hsets as (all & w0 & Hcat & Hsets). apply lift_Ok in Hcat as [Hcat ->].
    apply M_bind_Ok in Hsets as (tset & w0 & Htr & Hsets). apply lift_Ok in Htr as [Htr ->].
    apply M_bind_Ok in Hsets as (vset & w0 & Hva & Hsets). apply lift_Ok in Hva as [Hva ->].
    apply M_ret_Ok in Hsets as [Hsets ->]. injection Hsets as -> -> -> ->.
    cbn [fst snd] in *.
    destruct (load_all_rerun a ids _ _ _ _ _ Hload w2)
      as (tss' & vss' & w3 & Hload' & Hn & Hlt & Hlv & Hdt & Hdv); [auto|].
    pose proof (concat_dataset_same _ _ _ Hlt Htr) as Htr'.
    pose proof (concat_dataset_same _ _ _ Hlv Hva) as Hva'.
    assert (Etr : tset = MCMDataSet.ConcatDataset tss).
    { unfold MCMDataSet.concat_dataset in Htr.
      apply bind_Ok in Htr as (u & _ & Htr). apply bind_Ok in Htr as (u' & _ & Htr).
      injection Htr as <-. reflexivity. }
    assert (Eva : vset = MCMDataSet.ConcatDataset vss).
    { unfold MCMDataSet.concat_dataset in Hva.
      apply bind_Ok in Hva as (u & _ & Hva). apply bind_Ok in Hva as (u' & _ & Hva).
      injection Hva as <-. reflexivity. }
    subst tset vset.
    eexists _, _. split.
    { erewrite M_bind_run; [reflexivity|].
      rewrite (M_bind_run _ _ _ _ _ (lift_run _ _ _ Hids)).
      rewrite (M_bind_run _ _ _ _ _ Hload'). cbn [fst snd].
      rewrite (M_bind_run _ _ _ _ _ (lift_run _ _ _ Hcat)).
      rewrite (M_bind_run _ _ _ _ _ (lift_run _ _ _ Htr')).
      rewrite (M_bind_run _ _ _ _ _ (lift_run _ _ _ Hva')).
      reflexivity. }
    cbn. auto.
  - apply M_bind_Ok in Hsets as (ts & u1 & Hts & Hsets).
    apply M_bind_Ok in Hsets as (vs & u2 & Hvs & Hsets).
    apply M_ret_Ok in Hsets as [Hsets ->]. injection Hsets as -> -> -> ->.
    assert (Hct : npy u2 !! cache_file_path ts = Some (data ts)).
    { eapply init_keeps_cache; [exact Hvs|]. eapply init_cached, Hts. }
    pose proof (init_cached _ _ _ _ Hvs) as Hcv.
    destruct (init_rerun _ _ _ u2 ts Hts Hct) as (mdt & v1 & Hts' & Hn1).
    rewrite <- Hn1 in Hcv.
    destruct (init_rerun _ _ _ v1 vs Hvs Hcv) as (mdv & v2 & Hvs' & Hn2).
    eexists _, _. split.
    { erewrite M_bind_run; [reflexivity|].
      rewrite (M_bind_run _ _ _ _ _ Hts'). rewrite (M_bind_run _ _ _ _ _ Hvs').
      reflexivity. }
    cbn. rewrite Hn2, Hn1. auto.
Qed.

End AggregateEdges.

(** ** The files: sorted, whatever the order of the listing *)

Section ListingOrder.
Context {num audio A : Type}.
Context {number : PyNumber num} {librosa : Librosa num audio A}.
Context {numpy : Numpy A} {tables : Tables}.
Import MachineDataSet.

Lemma compare_trans (a b c : string) :
  String.compare a b <> Gt -> String.compare b c <> Gt -> String.compare a c <> Gt.
Proof.
  revert b c. induction a as [|x a IH]; intros [|y b] [|z c]; cbn; try congruence.
  unfold Ascii.compare.
  destruct (N.compare_spec (N_of_ascii x) (N_of_ascii y)) as [Exy|Lxy|Gxy];
    destruct (N.compare_spec (N_of_ascii y) (N_of_ascii z)) as [Eyz|Lyz|Gyz];
    destruct (N.compare_spec (N_of_ascii x) (N_of_ascii z)) as [Exz|Lxz|Gxz];
    try congruence; try lia.
  apply IH.
Qed.

Lemma le_total : Total Str.le.
Proof. intros a b. apply String.leb_total. Qed.

Lemma le_antisym : AntiSymm (=) Str.le.
Proof. intros a b. apply String.leb_antisym. Qed.

Lemma le_trans : Transitive Str.le.
Proof.
  intros a b c. unfold Str.le, String.leb. intros Hab Hbc.
  assert (H : String.compare a c <> Gt).
  { apply (compare_trans a b c).
    - intros E. rewrite E in Hab. discriminate.
    - intros E. rewrite E in Hbc. discriminate. }
  destruct (String.compare a c); [reflexivity | reflexivity | contradiction].
Qed.

Lemma sorted_Permutation (l1 l2 : list string) :
  l1 ≡ₚ l2 -> Str.sorted l1 = Str.sorted l2.
Proof.
  intros Hp. unfold Str.sorted.
  apply (@Sorted_unique _ Str.le le_trans le_antisym).
  - apply (@Sorted_merge_sort _ Str.le _ le_total).
  - apply (@Sorted_merge_sort _ Str.le _ le_total).
  - rewrite !merge_sort_Permutation. exact Hp.
Qed.

(** X24.  The files of a data set are in the order of [sorted], each file
    before every later one, and they are the listing that [glob] gave for
    the pattern of the machine below ['dev_data'] or ['eval_data'], in
    ['train'] for the training mode and in ['test'] for the validation
    mode. *)
Theorem files_are_the_sorted_listing {recordings : Recordings}
    (a : Args.t num) (w w' : world A) (ds : t num A) :
  init a w = Ok (ds, w') ->
  StronglySorted Str.le (files ds) /\
  exists root_folder,
    (root_folder = "dev_data" \/ root_folder = "eval_data") /\
    files ds ≡ₚ glob (OsPath.join_all (data_root ds)
                        [root_folder; machine_type ds;
                         if String.eqb (mode ds) "training" then "train" else "test";
                         file_pattern (machine_id ds)]).
Proof.
  intros H. apply init_inv in H as (_ & _ & Hf & _).
  unfold select_files in Hf.
  apply bind_Ok in Hf as (ids & _ & Hf). apply bind_Ok in Hf as (rf & Hrf & Hf).
  apply bind_Ok in Hf as (fs & Hfs & Hf). apply bind_Ok in Hf as (u & _ & Hf).
  injection Hf as Hf. rewrite <- Hf. split.
  { apply (@StronglySorted_merge_sort _ Str.le _ le_trans le_total). }
  exists rf. split.
  { destruct (bool_decide _); [injection Hrf as <-; auto|].
    apply bind_Ok in Hrf as (ids' & _ & Hrf).
    destruct (bool_decide _); [injection Hrf as <-; auto | discriminate]. }
  unfold Str.sorted. rewrite merge_sort_Permutation.
  destruct (String.eqb (mode ds) "training"); [injection Hfs as <-; reflexivity|].
  destruct (String.eqb (mode ds) "validation"); [injection Hfs as <-; reflexivity|].
  discriminate.
Qed.

(** X25.  The constructor does not depend on the order in which [glob]
    lists the recordings: with two file systems whose listings are the same
    up to their order it returns the same result. *)
Theorem init_ignores_listing_order (r1 r2 : Recordings) (a : Args.t num) (w : world A) :
  (forall pattern, @glob r1 pattern ≡ₚ @glob r2 pattern) ->
  init (recordings := r1) a w = init (recordings := r2) a w.
Proof.
  intros Hp.
  assert (Hsel : forall s : attrs num,
             select_files (recordings := r1) (Args.machine_type a) s
             = select_files (recordings := r2) (Args.machine_type a) s).
  { intros s. unfold select_files.
    destruct (or_raise KeyError (TRAINING_ID_MAP !! Args.machine_type a)) as [ids|e];
      [|reflexivity].
    cbn [mbind result_bind].
    match goal with
    | |- (?m ≫= _) = _ => destruct m as [rf|e]; [|reflexivity]
    end.
    cbn [mbind result_bind].
    assert (Hlisting : forall sub,
               let p := OsPath.join_all (data_root s)
                          [rf; machine_type s; sub; file_pattern (machine_id s)] in
               (_ ← assert (bool_decide (0 < length (@glob r1 p))%nat);
                Ok (Str.sorted (@glob r1 p)))
               = (_ ← assert (bool_decide (0 < length (@glob r2 p))%nat);
                  Ok (Str.sorted (@glob r2 p)))).
    { intros sub p. rewrite (sorted_Permutation _ _ (Hp p)).
      rewrite (Permutation_length (Hp p)). reflexivity. }
    destruct (String.eqb (mode s) "training"); [apply Hlisting|].
    destruct (String.eqb (mode s) "validation"); [apply Hlisting | reflexivity]. }
  unfold init, mbind, M_bind, lift.
  destruct (init_attrs a) as [s|e]; [|reflexivity]. rewrite Hsel. reflexivity.
Qed.

End ListingOrder.

(** ** More of the small tree of recordings *)

Section MoreDemoFacts.
Import Demo.
Import MachineDataSet.

Lemma init_rejects_mode_witness :
  init (args 0 0 "test" 2 1 false) empty_world = Raise AssertionError.
Proof. apply init_rejects_mode; cbn; discriminate. Defined.

Lemma init_unknown_machine_witness :
  init (args 7 0 "training" 2 1 false) empty_world = Raise KeyError /\
  init (args 0 5 "validation" 2 1 false) empty_world = Raise AttributeError.
Proof.
  split.
  - destruct (init_unknown_machine (args 7 0 "training" 2 1 false) empty_world
                (or_introl eq_refl)) as (H & _ & _).
    apply H. reflexivity.
  - destruct (init_unknown_machine (args 0 5 "validation" 2 1 false) empty_world
                (or_intror eq_refl)) as (_ & _ & H).
    apply (H "fan" [0] [1]); try reflexivity;
      (cbn; intros Hin; apply elem_of_cons in Hin as [Hin|Hin];
       [discriminate | inversion Hin]).
Defined.

Lemma init_no_files_witness :
  init (args_at "/empty" 0 0 "training" 2 1 false) empty_world = Raise AssertionError.
Proof.
  eapply (init_no_files (args_at "/empty" 0 0 "training" 2 1 false) empty_world _ [0]).
  - vm_compute. reflexivity.
  - reflexivity.
  - left. cbn. apply elem_of_cons. left. reflexivity.
  - intros root_folder sub [->| ->] [->| ->]; vm_compute; reflexivity.
Defined.

Lemma init_invariants_witness :
  meta_data (proj1_sig fan_training).1 = [0; 1; 2]%nat /\
  length (heap (proj1_sig fan_training).2) = 3%nat /\
  (mode (proj1_sig fan_training).1 = "training"
   \/ mode (proj1_sig fan_training).1 = "validation").
Proof.
  assert (E : init (args 0 0 "training" 2 1 true) empty_world
              = Ok ((proj1_sig fan_training).1, (proj1_sig fan_training).2))
    by (vm_compute; reflexivity).
  destruct (init_invariants _ _ _ _ E) as (_ & Hmd & Hlen & Hmode & _).
  split; [exact Hmd|]. split; [exact Hlen | exact Hmode].
Defined.

Lemma locate_injective_witness :
  locate (proj1_sig fan_training).1 2 <> locate (proj1_sig fan_training).1 3.
Proof.
  apply locate_injective.
  - split; reflexivity.
  - vm_compute. discriminate.
  - vm_compute. split; congruence.
  - vm_compute. split; congruence.
  - discriminate.
Defined.

Lemma next_window_witness :
  locate (proj1_sig fan_training).1 2 = Ok (1, 4) /\
  locate (proj1_sig fan_training).1 3 = Ok (1, 6) /\
  locate (proj1_sig fan_training).1 4 = Ok (2, 8).
Proof.
  assert (Hs : shaped (proj1_sig fan_training).1) by (split; reflexivity).
  assert (Hc : 0 <= context (proj1_sig fan_training).1) by (vm_compute; discriminate).
  assert (H2 : 0 <= 2 < __len__ (proj1_sig fan_training).1) by (vm_compute; split; congruence).
  assert (H3 : 0 <= 3 < __len__ (proj1_sig fan_training).1) by (vm_compute; split; congruence).
  destruct (next_window _ 2 Hs Hc H2) as (k & start & Hloc & Hnext & _).
  destruct (next_window _ 3 Hs Hc H3) as (k' & start' & Hloc' & _ & Hlast).
  vm_compute in Hloc. injection Hloc as <- <-.
  vm_compute in Hloc'. injection Hloc' as <- <-.
  split; [reflexivity|]. split; [exact (Hnext eq_refl) | exact (Hlast eq_refl)].
Defined.

Lemma last_window_end_witness :
  exists k start,
    locate (proj1_sig fan_hop3).1 1 = Ok (k, start) /\
    start + 3 = (k + 1) * 4 - 4 mod 3.
Proof.
  assert (Hs : shaped (proj1_sig fan_hop3).1) by (split; reflexivity).
  assert (Hc : 0 <= context (proj1_sig fan_hop3).1) by (vm_compute; discriminate).
  assert (Hi : 0 <= 1 < __len__ (proj1_sig fan_hop3).1) by (vm_compute; split; congruence).
  exact (last_window_end _ 1 Hs Hc Hi eq_refl).
Defined.

Lemma getitem_out_of_range_witness :
  __getitem__ (proj1_sig fan_training).1 6 (proj1_sig fan_training).2 = Raise IndexError.
Proof.
  apply getitem_out_of_range.
  - reflexivity.
  - vm_compute. reflexivity.
  - vm_compute. discriminate.
Defined.

Lemma getitem_negative_index_witness :
  __getitem__ (proj1_sig fan_training).1 (-4) (proj1_sig fan_training).2
  = __getitem__ (proj1_sig fan_training).1 2 (proj1_sig fan_training).2.
Proof.
  apply (getitem_negative_index (proj1_sig fan_training).1 (proj1_sig fan_training).2 (-4)).
  - split; reflexivity.
  - reflexivity.
  - vm_compute. discriminate.
  - vm_compute. split; congruence.
  - intros k start H. vm_compute in H. injection H as <- <-. vm_compute. reflexivity.
Defined.

Lemma getitem_minus_one_is_empty_witness :
  exists l w' md,
    __getitem__ (proj1_sig fan_slide).1 (-1) (proj1_sig fan_slide).2 = Ok (l, w') /\
    heap w' !! l = Some md /\
    md !! "observations" = Some (VArray [[]]).
Proof.
  apply getitem_minus_one_is_empty.
  - split; reflexivity.
  - split; [reflexivity|]. repeat constructor; eexists; vm_compute; reflexivity.
  - reflexivity.
  - vm_compute. reflexivity.
  - vm_compute. reflexivity.
Defined.

Lemma context_longer_than_file_witness :
  builtin_len (__len__ (proj1_sig fan_wide).1) = Ok 0 /\
  __getitem__ (proj1_sig fan_wide).1 0 (proj1_sig fan_wide).2 = Raise ZeroDivisionError.
Proof.
  assert (E : init (args 0 0 "training" 5 1 false) empty_world
              = Ok ((proj1_sig fan_wide).1, (proj1_sig fan_wide).2))
    by (vm_compute; reflexivity).
  destruct (context_longer_than_file _ _ _ _ E eq_refl) as [H _].
  destruct (H eq_refl) as [Hlen Hget]. split; [exact Hlen | apply Hget].
Defined.

Lemma init_writes_own_file_only_witness :
  npy (proj1_sig fan_training).2
  = <[cache_file_path (proj1_sig fan_training).1 := data (proj1_sig fan_training).1]> ∅.
Proof.
  assert (E : init (args 0 0 "training" 2 1 true) empty_world
              = Ok ((proj1_sig fan_training).1, (proj1_sig fan_training).2))
    by (vm_compute; reflexivity).
  destruct (init_writes_own_file_only _ _ _ _ E) as [[[Hhit _]|[_ Hw]] _].
  - vm_compute in Hhit. discriminate.
  - exact Hw.
Defined.

Lemma init_trusts_cache_witness :
  length (files (proj1_sig fan_stale).1) = 3%nat /\
  data (proj1_sig fan_stale).1 = [[1; 2]] /\
  npy (proj1_sig fan_stale).2 = npy stale_world.
Proof.
  assert (E : init (args 0 0 "training" 2 1 true) stale_world
              = Ok ((proj1_sig fan_stale).1, (proj1_sig fan_stale).2))
    by (vm_compute; reflexivity).
  split; [reflexivity|].
  apply (init_trusts_cache _ _ _ _ _ E). vm_compute. reflexivity.
Defined.

Lemma block_of_file_witness :
  exists x,
    __load_preprocess_file__ (proj1_sig fan_training).1
      "/data/dev_data/fan/train/normal_id_00_00000001.wav" = Ok x /\
    Np.columns (1 * 4) ((1 + 1) * 4) (data (proj1_sig fan_training).1) = fit_length 4 x /\
    Np.shape_last (fit_length 4 x) = 4.
Proof.
  assert (E : init (args 0 0 "training" 2 1 true) empty_world
              = Ok ((proj1_sig fan_training).1, (proj1_sig fan_training).2))
    by (vm_compute; reflexivity).
  apply (block_of_file _ _ _ _ 1 _ E); [vm_compute|]; reflexivity.
Defined.

Lemma window_arguments_share_cache_witness :
  cache_file_path (proj1_sig fan_after).1 = cache_file_path (proj1_sig fan_training).1 /\
  data (proj1_sig fan_after).1 = data (proj1_sig fan_training).1 /\
  npy (proj1_sig fan_after).2 = npy (proj1_sig fan_training).2.
Proof.
  apply (window_arguments_share_cache
           (args 0 0 "training" 2 1 true) (args 0 0 "training" 3 1 false) empty_world);
    try reflexivity; vm_compute; reflexivity.
Defined.

Lemma sets_have_their_own_cache_witness :
  exists s1 s2,
    init_attrs (args 0 0 "training" 2 1 false) = Ok s1 /\
    init_attrs (args 0 0 "validation" 2 1 false) = Ok s2 /\
    cache_file_path s1 <> cache_file_path s2.
Proof.
  eexists _, _. split; [vm_compute; reflexivity|]. split; [vm_compute; reflexivity|].
  apply (sets_have_their_own_cache int_str_plain demo_machine_type_plain
           (args 0 0 "training" 2 1 false) (args 0 0 "validation" 2 1 false));
    [vm_compute; reflexivity.. | left; discriminate].
Defined.

Lemma matched_name_passes_id_check_witness :
  (exists y, targets (proj1_sig fan_training).1
               (Str.split "_" "normal_id_00_00000001.wav") = Ok y) \/
  targets (proj1_sig fan_training).1
    (Str.split "_" "normal_id_00_00000001.wav") = Raise AttributeError.
Proof. apply matched_name_passes_id_check. vm_compute. reflexivity. Defined.

Lemma meta_data_entries_witness :
  exists md : dict Z,
    meta_data_dict (proj1_sig fan_training).1
      "/data/dev_data/fan/train/normal_id_00_00000001.wav" = Ok md /\
    md !! "machine_ids" = Some (VInt 0) /\
    md !! "file_ids" = Some (VStr "dev_data/fan/train/normal_id_00_00000001.wav") /\
    md !! "observations" = None.
Proof.
  destruct (meta_data_dict (A := Z) (proj1_sig fan_training).1
              "/data/dev_data/fan/train/normal_id_00_00000001.wav") as [md|e] eqn:E;
    [|vm_compute in E; discriminate].
  destruct (meta_data_entries _ _ _ E) as (_ & _ & Hid & Hfile & _ & Hobs).
  exists md. split; [reflexivity|]. split; [exact Hid|]. split; [exact Hfile | exact Hobs].
Defined.

Lemma meta_data_follows_files_witness :
  exists l md,
    meta_data (proj1_sig fan_training).1 !! 1%nat = Some l /\
    heap (proj1_sig fan_training).2 !! l = Some md /\
    meta_data_dict (proj1_sig fan_training).1
      "/data/dev_data/fan/train/normal_id_00_00000001.wav" = Ok md.
Proof.
  assert (E : init (args 0 0 "training" 2 1 true) empty_world
              = Ok ((proj1_sig fan_training).1, (proj1_sig fan_training).2))
    by (vm_compute; reflexivity).
  exact (meta_data_follows_files _ _ _ _ 1 _ E eq_refl).
Defined.

Lemma mcm_single_machine_witness :
  exists ts vs w1,
    init (MCMDataSet.kwargs (mcm_args 0 0) 0 "training") empty_world = Ok (ts, w1) /\
    init (MCMDataSet.kwargs (mcm_args 0 0) 0 "validation") w1 = Ok (vs, (proj1_sig fan0).2) /\
    MCMDataSet.training_data_set (proj1_sig fan0).1 = MCMDataSet.Machine ts /\
    MCMDataSet.validation_data_set (proj1_sig fan0).1 = MCMDataSet.Machine vs /\
    MCMDataSet.mean_std (proj1_sig fan0).1 = (mean_axis1 (data ts), std_axis1 (data ts)) /\
    hop_all vs = false.
Proof.
  assert (E : MCMDataSet.init (mcm_args 0 0) empty_world
              = Ok ((proj1_sig fan0).1, (proj1_sig fan0).2)) by (vm_compute; reflexivity).
  apply (mcm_single_machine _ _ _ _ E). cbn. discriminate.
Defined.

Lemma mcm_no_ids_witness :
  MCMDataSet.init (mcm_args 7 (-1)) empty_world = Raise KeyError.
Proof.
  destruct (mcm_no_ids (mcm_args 7 (-1)) empty_world eq_refl) as [H _].
  apply H. reflexivity.
Defined.

Lemma mcm_members_per_id_witness :
  exists trainings validations,
    MCMDataSet.training_data_set (proj1_sig fans).1 = MCMDataSet.ConcatDataset trainings /\
    MCMDataSet.validation_data_set (proj1_sig fans).1
    = MCMDataSet.ConcatDataset validations /\
    Forall2 (fun id_ (ts : t Z Z) => machine_id ts = id_ /\ mode ts = "training")
            [0; 1] trainings /\
    Forall2 (fun id_ (vs : t Z Z) =>
               machine_id vs = id_ /\ mode vs = "validation" /\ hop_all vs = false)
            [0; 1] validations.
Proof.
  assert (E : MCMDataSet.init (mcm_args 0 (-1)) empty_world
              = Ok ((proj1_sig fans).1, (proj1_sig fans).2)) by (vm_compute; reflexivity).
  destruct (mcm_members_per_id _ _ _ _ E eq_refl)
    as (ids & tss & vss & Hids & _ & Htr & Hva & Ht & Hv & _).
  vm_compute in Hids. injection Hids as <-.
  exists tss, vss. split; [exact Htr|]. split; [exact Hva|]. split; [exact Ht | exact Hv].
Defined.

Lemma mcm_init_twice_witness :
  exists mcm' w'',
    MCMDataSet.init (mcm_args 0 (-1)) (proj1_sig fans).2 = Ok (mcm', w'') /\
    npy w'' = npy (proj1_sig fans).2 /\
    MCMDataSet.mean_std mcm' = MCMDataSet.mean_std (proj1_sig fans).1.
Proof.
  assert (E : MCMDataSet.init (mcm_args 0 (-1)) empty_world
              = Ok ((proj1_sig fans).1, (proj1_sig fans).2)) by (vm_compute; reflexivity).
  destruct (mcm_init_twice _ _ _ _ E) as (mcm' & w'' & H & Hn & Hm & _).
  exists mcm', w''. split; [exact H|]. split; [exact Hn | exact Hm].
Defined.

Lemma files_are_the_sorted_listing_witness :
  StronglySorted Str.le (files (proj1_sig fan_training).1) /\
  files (proj1_sig fan_training).1
  ≡ₚ [ "/data/dev_data/fan/train/normal_id_00_00000002.wav";
       "/data/dev_data/fan/train/normal_id_00_00000000.wav";
       "/data/dev_data/fan/train/normal_id_00_00000001.wav" ].
Proof.
  assert (E : init (args 0 0 "training" 2 1 true) empty_world
              = Ok ((proj1_sig fan_training).1, (proj1_sig fan_training).2))
    by (vm_compute; reflexivity).
  destruct (files_are_the_sorted_listing _ _ _ _ E) as (Hs & rf & [->| ->] & Hp).
  - split; [exact Hs | exact Hp].
  - apply Permutation_length in Hp. vm_compute in Hp. discriminate.
Defined.

Lemma init_ignores_listing_order_witness :
  init (recordings := reversed) (args 0 0 "training" 2 1 true) empty_world
  = init (args 0 0 "training" 2 1 true) empty_world.
Proof.
  apply init_ignores_listing_order. intros pattern. cbn. apply reverse_Permutation.
Defined.

Lemma observation_shape_members_witness :
  exists d : t Z Z,
    d ∈ MCMDataSet.members (MCMDataSet.training_set (proj1_sig fans).1)
        ++ MCMDataSet.members (MCMDataSet.validation_set (proj1_sig fans).1) /\
    MCMDataSet.observation_shape (proj1_sig fans).1 = (1, num_mel d, context d) /\
    MCMDataSet.observation_shape (proj1_sig fans).1 = (1, 2, 2).
Proof.
  assert (E : MCMDataSet.init (mcm_args 0 (-1)) empty_world
              = Ok ((proj1_sig fans).1, (proj1_sig fans).2)) by (vm_compute; reflexivity).
  destruct (MCMDataSet.members (MCMDataSet.training_set (proj1_sig fans).1))
    as [|d rest] eqn:El; [vm_compute in El; discriminate|].
  assert (Hd : d ∈ (d :: rest)
                   ++ MCMDataSet.members (MCMDataSet.validation_set (proj1_sig fans).1)).
  { cbn [app]. apply elem_of_cons. left. reflexivity. }
  exists d. split; [exact Hd|]. split; [|reflexivity].
  rewrite <- El in Hd. exact (observation_shape_members _ _ _ _ d E Hd).
Defined.

End MoreDemoFacts.
